(** * Student-Performance: the tabular preprocessing pipeline

    A shallow embedding of the two notebooks of the repository
    (DataPreprocessing.ipynb and the Sagemaker notebook that writes
    sagemaker_preprocessing.py and sagemaker_modeling.py), the properties
    their specification states about them, and further properties of the
    code itself.

    The notebooks are thin compositions of pandas, numpy and scikit-learn
    calls.  The calls are embedded here as executable functions that follow
    the documented behaviour of the library routine they stand for; each
    definition names the routine.

    Conventions of the embedding:
    - float64 values are primitive binary64 floats, under the operations
      numpy applies to them;
    - a raw table cell is an integer ([Num]) or a text ([Str]): every numeric
      attribute of the data set is integer coded;
    - a Python exception is a value of [exn], carried by [result];
    - a data frame keeps its column names, and per row its index label and
      its cells; rows are addressed by position, columns by name. *)

From Stdlib Require Import List ZArith String Ascii Bool DecimalString.
From Stdlib Require Import Lia Permutation Arith Sorted OrderedTypeEx Floats.
From Stdlib Require DecimalPos DecimalZ.
Import ListNotations.

Local Open Scope string_scope.
Local Open Scope list_scope.

(** ** Exceptions and results *)

Inductive exn : Type :=
| ValueError (msg : string)
| KeyError (key : string)
| TypeError (msg : string)
| RuntimeError (msg : string)
| OverflowError (msg : string).

Inductive result (A : Type) : Type :=
| Ok (a : A)
| Raise (e : exn).

Arguments Ok {A} a.
Arguments Raise {A} e.

Definition bind {A B : Type} (r : result A) (k : A -> result B) : result B :=
  match r with
  | Ok a => k a
  | Raise e => Raise e
  end.

Notation "'do' x <- r ; k" := (bind r (fun x => k))
  (at level 10, x name, r at level 100, k at level 200).

(** Runs [f] over a list and stops at the first exception. *)
Fixpoint mapM {A B : Type} (f : A -> result B) (l : list A) : result (list B) :=
  match l with
  | [] => Ok []
  | a :: l' => do b <- f a; do bs <- mapM f l'; Ok (b :: bs)
  end.

Definition is_ok {A : Type} (r : result A) : bool :=
  match r with Ok _ => true | Raise _ => false end.

(** Pointwise combination of two lists, as numpy's elementwise operators. *)
Fixpoint zipWith {A B C : Type} (f : A -> B -> C) (l : list A) (m : list B) : list C :=
  match l, m with
  | a :: l', b :: m' => f a b :: zipWith f l' m'
  | _, _ => []
  end.

(** ** Tables *)

Inductive cell : Type :=
| Num (z : Z)
| Str (s : string).

Definition cell_eqb (a b : cell) : bool :=
  match a, b with
  | Num x, Num y => Z.eqb x y
  | Str s, Str t => String.eqb s t
  | _, _ => false
  end.

Record Row : Type := mkRow { label : cell; cells : list cell }.

Record DataFrame : Type := mkFrame { columns : list string; rows : list Row }.

Record Series : Type := mkSeries { s_name : string; s_index : list cell; s_values : list cell }.

(** [len(df.columns)]. *)
Definition width (df : DataFrame) : nat := List.length (columns df).

(** The cell a row holds under the first column called [name]. *)
Fixpoint lookup (name : string) (cols : list string) (cs : list cell) : option cell :=
  match cols, cs with
  | c :: cols', x :: cs' => if String.eqb c name then Some x else lookup name cols' cs'
  | _, _ => None
  end.

(** [name in df]: membership in the column names. *)
Definition has_column (df : DataFrame) (name : string) : bool :=
  existsb (String.eqb name) (columns df).

(** One entry of [df[name]]; a name that is no column is a [KeyError]. *)
Definition row_get (cols : list string) (name : string) (r : Row) : result cell :=
  match lookup name cols (cells r) with
  | Some x => Ok x
  | None => Raise (KeyError name)
  end.

(** [df[name]]: a column as a series carrying the frame's index. *)
Definition getitem (df : DataFrame) (name : string) : result Series :=
  if has_column df name then
    do vs <- mapM (row_get (columns df) name) (rows df);
    Ok (mkSeries name (map label (rows df)) vs)
  else Raise (KeyError name).

(** The cells of a row whose column is not called [name]. *)
Fixpoint drop_cells (name : string) (cols : list string) (cs : list cell) : list cell :=
  match cols, cs with
  | c :: cols', x :: cs' =>
      if String.eqb c name then drop_cells name cols' cs' else x :: drop_cells name cols' cs'
  | _, _ => []
  end.

(** [df.loc[:, df.columns != name]]: every column but those called [name]. *)
Definition drop_column (df : DataFrame) (name : string) : DataFrame :=
  mkFrame (filter (fun c => negb (String.eqb c name)) (columns df))
          (map (fun r => mkRow (label r) (drop_cells name (columns df) (cells r))) (rows df)).

(** Every row has one cell per column. *)
Definition well_formed (df : DataFrame) : Prop :=
  Forall (fun r => List.length (cells r) = List.length (columns df)) (rows df).

(** Two tables agree on [names] when they have the same ones among them and
    their rows, taken in order, hold the same cells under each. *)
Definition agree (names : list string) (df1 df2 : DataFrame) : Prop :=
  (forall name, In name names -> has_column df1 name = has_column df2 name) /\
  Forall2 (fun r1 r2 => forall name, In name names ->
             row_get (columns df1) name r1 = row_get (columns df2) name r2)
          (rows df1) (rows df2).

(** [pd.concat(frames)] for frames that share their column list, as the two
    sources do: the rows of the first, then the rows of the second, each row
    keeping its own index label (no re-indexing). *)
Definition concat (frames : list DataFrame) : DataFrame :=
  mkFrame (match frames with f :: _ => columns f | [] => [] end)
          (flat_map rows frames).

(** Positional row selection, [df.iloc[idx]]; positions out of range select
    nothing here (the split only passes positions below the row count). *)
Definition take {A : Type} (l : list A) (idx : list nat) : list A :=
  flat_map (fun i => match nth_error l i with Some a => [a] | None => [] end) idx.

Definition iloc (df : DataFrame) (idx : list nat) : DataFrame :=
  mkFrame (columns df) (take (rows df) idx).

Definition series_iloc (s : Series) (idx : list nat) : Series :=
  mkSeries (s_name s) (take (s_index s) idx) (take (s_values s) idx).

(** ** float64

    numpy computes in binary64: a float64 is a primitive float, and the
    operations are the primitive ones (round to nearest, ties to even). *)

(** An int64 as a float64 (exact below 2^53 in magnitude). *)
Definition float_of_Z (z : Z) : float :=
  match z with
  | Z0 => 0%float
  | Zpos _ => PrimFloat.of_uint63 (Uint63.of_Z z)
  | Zneg p => PrimFloat.opp (PrimFloat.of_uint63 (Uint63.of_Z (Zpos p)))
  end.

(** [math.ceil] of a float64: the least integer not below it. *)
Definition ceil (x : float) : result Z :=
  match Prim2SF x with
  | S754_zero _ => Ok 0%Z
  | S754_finite negative m e =>
      let magnitude_up :=
        if (0 <=? e)%Z then (Zpos m * 2 ^ e)%Z else (- ((- Zpos m) / 2 ^ (- e)))%Z in
      let magnitude_down :=
        if (0 <=? e)%Z then (Zpos m * 2 ^ e)%Z else (Zpos m / 2 ^ (- e))%Z in
      Ok (if negative then (- magnitude_down)%Z else magnitude_up)
  | S754_infinity _ => Raise (OverflowError "cannot convert float infinity to integer")
  | S754_nan => Raise (ValueError "cannot convert float NaN to integer")
  end.

(** Neither NaN nor an infinity. *)
Definition finite (x : float) : Prop := PrimFloat.is_finite x = true.

(** ** MinMaxScaler

    [sklearn.preprocessing.MinMaxScaler()] with its default feature range
    (0, 1), on float64 data without NaN.  [fit] records, per feature, the
    minimum and the maximum of the column,
    [data_range_ = data_max_ - data_min_],
    [scale_ = (1 - 0) / data_range_] (a zero range counts as 1) and
    [min_ = 0 - data_min_ * scale_]; [transform] computes
    [X *= scale_; X += min_] and never clips.  Both refuse a matrix without
    rows ([check_array]). *)

Module MinMaxScaler.

Record t : Type := mk {
  data_min_ : list float;
  data_max_ : list float;
  data_range_ : list float;
  scale_ : list float;
  min_ : list float }.

(** Column [j] of a row-major matrix. *)
Definition column (j : nat) (X : list (list float)) : list float :=
  map (fun r => nth j r 0%float) X.

(** [np.minimum] and [np.maximum] of two values. *)
Definition minimum (x y : float) : float := if PrimFloat.leb x y then x else y.
Definition maximum (x y : float) : float := if PrimFloat.leb x y then y else x.

Definition amin (col : list float) : float :=
  match col with
  | [] => 0%float
  | x :: xs => fold_left minimum xs x
  end.

Definition amax (col : list float) : float :=
  match col with
  | [] => 0%float
  | x :: xs => fold_left maximum xs x
  end.

Definition _handle_zeros_in_scale (s : float) : float :=
  if PrimFloat.eqb s 0 then 1%float else s.

Definition fit (X : list (list float)) : result t :=
  match X with
  | [] => Raise (ValueError "Found array with 0 sample(s) while a minimum of 1 is required.")
  | r0 :: _ =>
      let features := seq 0 (List.length r0) in
      let data_min := map (fun j => amin (column j X)) features in
      let data_max := map (fun j => amax (column j X)) features in
      let data_range := zipWith PrimFloat.sub data_max data_min in
      let scale := map (fun d => PrimFloat.div (PrimFloat.sub 1 0) (_handle_zeros_in_scale d))
                       data_range in
      let min := zipWith (fun mn s => PrimFloat.sub 0 (PrimFloat.mul mn s)) data_min scale in
      Ok (mk data_min data_max data_range scale min)
  end.

(** One row of [X *= scale_; X += min_]. *)
Definition transform_row (sc : t) (r : list float) : result (list float) :=
  if Nat.eqb (List.length r) (List.length (scale_ sc)) then
    Ok (zipWith PrimFloat.add (zipWith PrimFloat.mul r (scale_ sc)) (min_ sc))
  else Raise (ValueError "operands could not be broadcast together").

Definition transform (sc : t) (X : list (list float)) : result (list (list float)) :=
  match X with
  | [] => Raise (ValueError "Found array with 0 sample(s) while a minimum of 1 is required.")
  | _ :: _ => mapM (transform_row sc) X
  end.

End MinMaxScaler.

(** ** OneHotEncoder

    [sklearn.preprocessing.OneHotEncoder(drop='if_binary',
    handle_unknown='error')].  [fit] stores, per feature, the distinct values
    of the column in sorted order ([categories_]) and, for a feature with
    exactly two categories, the position 0 of the category to drop
    ([drop_idx_]).  [transform] raises on a value that is in no fitted
    category and otherwise emits one indicator per kept category. *)

Module OneHotEncoder.

Record t : Type := mk {
  categories_ : list (list cell);
  drop_idx_ : list (option nat) }.

Definition column (j : nat) (X : list (list cell)) : list cell :=
  map (fun r => nth j r (Str "")) X.

Definition same_kind (a b : cell) : bool :=
  match a, b with
  | Num _, Num _ => true
  | Str _, Str _ => true
  | _, _ => false
  end.

(** Python's [<] on two integers or on two texts. *)
Definition cell_ltb (a b : cell) : bool :=
  match a, b with
  | Num x, Num y => Z.ltb x y
  | Str s, Str t => String.ltb s t
  | Num _, Str _ => true
  | Str _, Num _ => false
  end.

Definition cell_lt (a b : cell) : Prop := cell_ltb a b = true.

(** Insertion into a strictly increasing list; a value already there is
    not repeated. *)
Fixpoint insert (x : cell) (l : list cell) : list cell :=
  match l with
  | [] => [x]
  | y :: l' =>
      if cell_eqb x y then l
      else if cell_ltb x y then x :: l
      else y :: insert x l'
  end.

(** [sorted(set(values))]; Python refuses to order an integer against a
    text. *)
Definition _encode (col : list cell) : result (list cell) :=
  match col with
  | [] => Ok []
  | x :: xs =>
      if forallb (same_kind x) xs then Ok (fold_right insert [] col)
      else Raise (TypeError "'<' not supported between instances of 'str' and 'int'")
  end.

(** [drop='if_binary']: the first category of a two-category feature. *)
Definition if_binary (cats : list cell) : option nat :=
  if Nat.eqb (List.length cats) 2 then Some 0%nat else None.

Definition fit (X : list (list cell)) : result t :=
  match X with
  | [] => Raise (ValueError "Found array with 0 sample(s) while a minimum of 1 is required.")
  | r0 :: _ =>
      do cats <- mapM (fun j => _encode (column j X)) (seq 0 (List.length r0));
      Ok (mk cats (map if_binary cats))
  end.

Definition delete {A : Type} (i : nat) (l : list A) : list A :=
  firstn i l ++ skipn (S i) l.

(** The categories that get an indicator column. *)
Definition kept (cats : list cell) (d : option nat) : list cell :=
  match d with
  | Some i => delete i cats
  | None => cats
  end.

(** The indicator block of one value of one feature. *)
Definition encode_value (v : cell) (cd : list cell * option nat) : result (list float) :=
  let (cats, d) := cd in
  if existsb (cell_eqb v) cats then
    Ok (map (fun c => if cell_eqb v c then 1%float else 0%float) (kept cats d))
  else Raise (ValueError "Found unknown categories during transform").

Fixpoint encode_cells (r : list cell) (cds : list (list cell * option nat))
  : result (list (list float)) :=
  match r, cds with
  | v :: r', cd :: cds' =>
      do b <- encode_value v cd; do bs <- encode_cells r' cds'; Ok (b :: bs)
  | _, _ => Ok []
  end.

Definition transform_row (enc : t) (r : list cell) : result (list float) :=
  if Nat.eqb (List.length r) (List.length (categories_ enc)) then
    do blocks <- encode_cells r (combine (categories_ enc) (drop_idx_ enc));
    Ok (List.concat blocks)
  else Raise (ValueError "The number of features in X is different to the number of features of the fitted data.").

Definition transform (enc : t) (X : list (list cell)) : result (list (list float)) :=
  match X with
  | [] => Raise (ValueError "Found array with 0 sample(s) while a minimum of 1 is required.")
  | _ :: _ => mapM (transform_row enc) X
  end.

(** [str(t)] of a category. *)
Definition str (c : cell) : string :=
  match c with
  | Num z => DecimalString.NilZero.string_of_int (Z.to_int z)
  | Str s => s
  end.

(** [get_feature_names(input_features)]: one name per indicator column. *)
Definition get_feature_names (enc : t) (input_features : list string) : list string :=
  List.concat
    (zipWith (fun name cd => map (fun c => (name ++ "_" ++ str c)%string) (kept (fst cd) (snd cd)))
             input_features (combine (categories_ enc) (drop_idx_ enc))).

End OneHotEncoder.

(** ** ColumnTransformer

    [sklearn.compose.ColumnTransformer] of scikit-learn 0.23 over a data
    frame with two transformers, a [MinMaxScaler] on the columns [num_cols]
    and a [OneHotEncoder] on the columns [nom_cols], and [remainder='drop']:
    columns are selected by name, each block is transformed on its own, the
    blocks are stacked side by side in the order of the transformer list,
    and every other column is dropped.

    Besides the two fitted transformers, [fit] records the frame it saw: its
    width ([_n_features]), its column names ([_df_columns]), the positions
    no transformer selects ([_remainder]) and whether the stacked output is
    sparse ([sparse_output_]).  [transform] refuses a frame with fewer
    columns than the fit-time frame and, when some column is left to the
    remainder, a frame whose leading columns are not named as at fit time.

    What [transform] returns is a numpy array or, when [sparse_output_] is
    set, a scipy csr_matrix; the embedding returns the values of either, and
    a caller that needs an array tests the flag. *)

Module ColumnTransformer.

Record t : Type := mk {
  numeric : MinMaxScaler.t;
  nominal : OneHotEncoder.t;
  _n_features : nat;
  _df_columns : list string;
  _remainder : list nat;
  sparse_output_ : bool }.

(** Conversion of a selected block to float64. *)
Definition to_float (c : cell) : result float :=
  match c with
  | Num z => Ok (float_of_Z z)
  | Str s => Raise (ValueError ("could not convert string to float: " ++ s)%string)
  end.

(** [X.columns.get_loc(name)]: the position of the column called [name]. *)
Fixpoint get_loc (name : string) (cols : list string) : option nat :=
  match cols with
  | [] => None
  | c :: cols' => if String.eqb c name then Some 0%nat else option_map S (get_loc name cols')
  end.

(** [_get_column_indices(X, names)]. *)
Definition _get_column_indices (df : DataFrame) (names : list string) : result (list nat) :=
  mapM (fun name => match get_loc name (columns df) with
                    | Some i => Ok i
                    | None => Raise (ValueError "A given column is not a column of the dataframe")
                    end)
       names.

(** [_validate_remainder]: the positions of the columns that no transformer
    selects, in increasing order. *)
Definition _validate_remainder (num_cols nom_cols : list string) (df : DataFrame)
  : result (list nat) :=
  do cols_num <- _get_column_indices df num_cols;
  do cols_nom <- _get_column_indices df nom_cols;
  Ok (filter (fun i => negb (existsb (Nat.eqb i) (cols_num ++ cols_nom))) (seq 0 (width df))).

(** [_safe_indexing(X, names, axis=1)], that is [X.loc[:, names]]: the
    sub-table of the named columns, in the order of the names; pandas raises
    [KeyError] for names it does not find. *)
Definition select (names : list string) (df : DataFrame) : result (list (list cell)) :=
  if forallb (has_column df) names then
    mapM (fun r => mapM (fun name => row_get (columns df) name r) names) (rows df)
  else Raise (KeyError (String.concat ", " (filter (fun name => negb (has_column df name)) names)
                          ++ " not in index")%string).

(** The cells [select] reads for one row. *)
Definition picks (names : list string) (df : DataFrame) (r : Row) (cs : list cell) : Prop :=
  mapM (fun name => row_get (columns df) name r) names = Ok cs.

Definition select_float (names : list string) (df : DataFrame) : result (list (list float)) :=
  do X <- select names df;
  mapM (mapM to_float) X.

(** [X.size] of a dense block, and [X.nnz] of a one-hot block: the number of
    its stored entries, which are its ones. *)
Definition size (S : list (list float)) : nat := list_sum (map (@List.length float) S).

Definition nnz (S : list (list float)) : nat :=
  list_sum (map (fun r => List.length (filter (fun x => PrimFloat.eqb x 1) r)) S).

(** [density < sparse_threshold] for the default threshold 0.3, where
    [density = nnz / total] counts every entry of the dense numeric block as
    stored.  Python divides the two integers exactly and rounds once, and
    0.3 is the float64 next below 3/10: for blocks of fewer than 2^50
    entries the test on floats is the test [10 * nnz < 3 * total]. *)
Definition _sparse_output (Sn Sc : list (list float)) : bool :=
  Nat.ltb (10 * (size Sn + nnz Sc)) (3 * (size Sn + size Sc)).

(** [fit], which scikit-learn runs as [fit_transform] to learn
    [sparse_output_] from the transformed blocks. *)
Definition fit (num_cols nom_cols : list string) (df : DataFrame) : result t :=
  do remaining <- _validate_remainder num_cols nom_cols df;
  do Xn <- select_float num_cols df;
  do sc <- MinMaxScaler.fit Xn;
  do Sn <- MinMaxScaler.transform sc Xn;
  do Xc <- select nom_cols df;
  do enc <- OneHotEncoder.fit Xc;
  do Sc <- OneHotEncoder.transform enc Xc;
  Ok (mk sc enc (width df) (columns df) remaining (_sparse_output Sn Sc)).

(** [str(n)] of a count. *)
Definition str_nat (n : nat) : string := DecimalString.NilZero.string_of_uint (Nat.to_uint n).

(** [any(X.columns[:n_cols_fit] != self._df_columns)], tested when the
    remainder is not empty and the frame has at least the fit-time width. *)
Definition reordered (ct : t) (df : DataFrame) : bool :=
  match _remainder ct with
  | [] => false
  | _ :: _ =>
      let n_cols_fit := List.length (_df_columns ct) in
      Nat.leb n_cols_fit (width df)
      && existsb (fun p => negb (String.eqb (fst p) (snd p)))
                 (combine (firstn n_cols_fit (columns df)) (_df_columns ct))
  end.

Definition transform (num_cols nom_cols : list string) (ct : t) (df : DataFrame)
  : result (list (list float)) :=
  if Nat.ltb (width df) (_n_features ct) then
    Raise (ValueError ("Number of features of the input must be equal to or greater than that of the fitted transformer. Transformer n_features is "
                       ++ str_nat (_n_features ct) ++ " and input n_features is "
                       ++ str_nat (width df) ++ ".")%string)
  else if reordered ct df then
    Raise (ValueError "Column ordering must be equal for fit and for transform when using the remainder keyword")
  else
    do Xn <- select_float num_cols df;
    do Sn <- MinMaxScaler.transform (numeric ct) Xn;
    do Xc <- select nom_cols df;
    do Sc <- OneHotEncoder.transform (nominal ct) Xc;
    Ok (zipWith (@app float) Sn Sc).

(** The same transformation read one row at a time: the scaled numeric
    cells of the row followed by its indicator blocks.  A [transform] that
    returns yields exactly these rows (lemma [transform_rowwise]). *)
Definition transform_row (num_cols nom_cols : list string) (ct : t) (cols : list string) (r : Row)
  : result (list float) :=
  do scaled <- bind (bind (mapM (fun name => row_get cols name r) num_cols) (mapM to_float))
                    (MinMaxScaler.transform_row (numeric ct));
  do ind <- bind (mapM (fun name => row_get cols name r) nom_cols)
                 (OneHotEncoder.transform_row (nominal ct));
  Ok (scaled ++ ind).

End ColumnTransformer.

(** ** Random permutations and [train_test_split]

    numpy's generator is kept abstract: [RandomState_seed s] is the fresh
    generator [np.random.RandomState(s)], and [permutation g n] is
    [g.permutation(n)], a rearrangement of [0 .. n-1] together with the
    generator's next state. *)

Class RandomState : Type := {
  rng : Type;
  RandomState_seed : Z -> rng;
  permutation : rng -> nat -> list nat * rng;
  permutation_spec : forall g n, Permutation (fst (permutation g n)) (seq 0 n) }.

Section ModelSelection.

Context {RS : RandomState}.

(** [check_random_state]: [None] is numpy's process-wide generator, an
    integer seeds a new one. *)
Definition check_random_state (global : rng) (random_state : option Z) : rng :=
  match random_state with
  | None => global
  | Some s => RandomState_seed s
  end.

(** [_validate_shuffle_split] for a float [test_size] and no [train_size]. *)
Definition _validate_shuffle_split (n_samples : nat) (test_size : float) : result (nat * nat) :=
  if PrimFloat.leb test_size 0 || PrimFloat.leb 1 test_size then
    Raise (ValueError "test_size should be a float in the (0, 1) range")
  else
    do c <- ceil (PrimFloat.mul test_size (float_of_Z (Z.of_nat n_samples)));
    let n_test := Z.to_nat c in
    let n_train := (n_samples - n_test)%nat in
    if Nat.eqb n_train 0 then
      Raise (ValueError "the resulting train set will be empty")
    else Ok (n_train, n_test).

(** The positions [(train, test)] of one split, and the state the
    process-wide generator is left in. *)
Definition split_indices (global : rng) (n_samples : nat) (test_size : float)
           (random_state : option Z) (shuffle : bool)
  : result (list nat * list nat) * rng :=
  match _validate_shuffle_split n_samples test_size with
  | Raise e => (Raise e, global)
  | Ok (n_train, n_test) =>
      if shuffle then
        let (perm, g') := permutation (check_random_state global random_state) n_samples in
        (Ok (firstn n_train (skipn n_test perm), firstn n_test perm),
         match random_state with None => g' | Some _ => global end)
      else
        (Ok (seq 0 n_train, seq n_train n_test), global)
  end.

Record Split : Type := mkSplit {
  X_train : DataFrame; X_test : DataFrame; y_train : Series; y_test : Series }.

(** [train_test_split(X, y, test_size=.., random_state=.., shuffle=..)]. *)
Definition train_test_split (global : rng) (X : DataFrame) (y : Series) (test_size : float)
           (random_state : option Z) (shuffle : bool) : result Split * rng :=
  if Nat.eqb (List.length (rows X)) (List.length (s_values y)) then
    match split_indices global (List.length (rows X)) test_size random_state shuffle with
    | (Raise e, g) => (Raise e, g)
    | (Ok (train, test), g) =>
        (Ok (mkSplit (iloc X train) (iloc X test) (series_iloc y train) (series_iloc y test)), g)
    end
  else (Raise (ValueError "Found input variables with inconsistent numbers of samples"), global).

End ModelSelection.

(** ** Processed tables

    The frames the batch notebook writes: float64 feature columns and the
    target column, under a fresh 0-based index. *)

Inductive value : Type :=
| Float (x : float)
| Raw (c : cell).

Record Table : Type := mkTable { t_columns : list string; t_rows : list (nat * list value) }.

(** [pd.DataFrame(array, columns=names)]. *)
Definition DataFrame_of_array (M : list (list float)) (names : list string) : result Table :=
  if forallb (fun r => Nat.eqb (List.length r) (List.length names)) M then
    Ok (mkTable names (combine (seq 0 (List.length M)) (map (map Float) M)))
  else Raise (ValueError "Shape of passed values does not match the columns").

(** [np.array(series)]: the values without the index. *)
Definition np_array (s : Series) : list cell := s_values s.

(** [table[name] = values] for a new column name: the values are attached by
    position, one per row. *)
Definition setitem (tb : Table) (name : string) (values : list cell) : result Table :=
  if Nat.eqb (List.length values) (List.length (t_rows tb)) then
    Ok (mkTable (t_columns tb ++ [name])
                (zipWith (fun r v => (fst r, snd r ++ [Raw v])) (t_rows tb) values))
  else Raise (ValueError "Length of values does not match length of index").

(** ** DataPreprocessing.ipynb: the batch notebook *)

Module DataPreprocessing.

Definition RAND_STATE : Z := 12.
(** 0.1, that is the float64 nearest to one tenth. *)
Definition TEST_SIZE : float := 0x1.999999999999ap-4%float.

Definition numeric_cols_to_keep : list string :=
  ["age"; "Medu"; "traveltime"; "studytime"; "failures"; "goout"; "Dalc"; "absences"].

Definition nominal_cols_to_keep : list string :=
  ["address"; "Fjob"; "guardian"; "higher"; "internet"; "romantic"].

Section Notebook.

Context {RS : RandomState}.

(** The cells from [pd.concat] to [train_test_split]. *)
Definition split (global : rng) (math_data port_data : DataFrame) : result Split * rng :=
  let df := concat [math_data; port_data] in
  let X := drop_column df "G3" in
  match getitem df "G3" with
  | Raise e => (Raise e, global)
  | Ok y => train_test_split global X y TEST_SIZE (Some RAND_STATE) true
  end.

(** The transformer [ct] after [ct.fit_transform(X_train)]. *)
Definition ct_fit (Xtr : DataFrame) : result ColumnTransformer.t :=
  ColumnTransformer.fit numeric_cols_to_keep nominal_cols_to_keep Xtr.

Definition ct_transform (ct : ColumnTransformer.t) (X : DataFrame)
  : result (list (list float)) :=
  ColumnTransformer.transform numeric_cols_to_keep nominal_cols_to_keep ct X.

Definition transformed_col_names (ct : ColumnTransformer.t) : list string :=
  numeric_cols_to_keep
    ++ OneHotEncoder.get_feature_names (ColumnTransformer.nominal ct) nominal_cols_to_keep.

(** [pd.DataFrame(X, columns=names)] of what the transformer returned:
    pandas builds no frame of that shape from a scipy matrix. *)
Definition DataFrame_of_output (ct : ColumnTransformer.t) (M : list (list float))
           (names : list string) : result Table :=
  if ColumnTransformer.sparse_output_ ct then
    Raise (ValueError "Shape of passed values does not match the columns")
  else DataFrame_of_array M names.

(** The cells from "Transform data" to the two frames that are written
    to disk. *)
Definition process (s : Split) : result (Table * Table) :=
  do ct <- ct_fit (X_train s);
  do X_train_processed <- ct_transform ct (X_train s);
  do X_test_processed <- ct_transform ct (X_test s);
  do train_df0 <- DataFrame_of_output ct X_train_processed (transformed_col_names ct);
  do train_df <- setitem train_df0 "G3" (np_array (y_train s));
  do test_df0 <- DataFrame_of_output ct X_test_processed (transformed_col_names ct);
  do test_df <- setitem test_df0 "G3" (np_array (y_test s));
  Ok (train_df, test_df).

(** The whole notebook, from the two raw frames to the two written
    frames. *)
Definition notebook (global : rng) (math_data port_data : DataFrame) : result (Table * Table) :=
  do s <- fst (split global math_data port_data);
  process s.

End Notebook.

End DataPreprocessing.

(** ** sagemaker_preprocessing.py: the served script *)

#[local] Set Warnings "-register-all".

Inductive json : Type :=
| JNumber (x : float)
| JString (s : string)
| JArray (l : list json)
| JObject (members : list (string * json)).

(** [worker.Response(response, accept, mimetype=accept)]. *)
Record Response : Type := mkResponse { response : string; accept_ : string; mimetype : string }.

Module sagemaker_preprocessing.

Definition feature_columns_names : list string :=
  ["school"; "sex"; "age"; "address"; "famsize"; "Pstatus"; "Medu"; "Fedu";
   "Mjob"; "Fjob"; "reason"; "guardian"; "traveltime"; "studytime";
   "failures"; "schoolsup"; "famsup"; "paid"; "activities"; "nursery";
   "higher"; "internet"; "romantic"; "famrel"; "freetime"; "goout"; "Dalc";
   "Walc"; "health"; "absences"; "G1"; "G2"].

Definition label_column : string := "G3".

Definition numeric_cols_to_keep : list string :=
  ["age"; "Medu"; "traveltime"; "studytime"; "failures"; "goout"; "Dalc"; "absences"].

Definition nominal_cols_to_keep : list string :=
  ["address"; "Fjob"; "guardian"; "higher"; "internet"; "romantic"].

(** The [__main__] block after the files are read: the preprocessor fit on
    the concatenated training data. *)
Definition main (raw_data : list DataFrame) : result ColumnTransformer.t :=
  ColumnTransformer.fit numeric_cols_to_keep nominal_cols_to_keep (concat raw_data).

(** [model.transform(input_data)] for the persisted preprocessor. *)
Definition transform (model : ColumnTransformer.t) (input_data : DataFrame)
  : result (list (list float)) :=
  ColumnTransformer.transform numeric_cols_to_keep nominal_cols_to_keep model input_data.

Section Adapter.

(** [pd.read_csv(StringIO(text), index_col=0)]: the first line names the
    columns and the first field of every line is the row's index label. *)
Variable read_csv : string -> result DataFrame.

(** [json.dumps] and [encoders.encode(prediction, accept)]. *)
Variable json_dumps : json -> string.
Variable encode : list (list float) -> string -> string.

(** [df.columns = names]. *)
Definition set_columns (df : DataFrame) (names : list string) : DataFrame :=
  mkFrame names (rows df).

Definition input_fn (input_data : string) (content_type : string) : result DataFrame :=
  if String.eqb content_type "text/csv" then
    do df <- read_csv input_data;
    if Nat.eqb (List.length (columns df)) (List.length feature_columns_names + 1) then
      Ok (set_columns df (feature_columns_names ++ [label_column]))
    else if Nat.eqb (List.length (columns df)) (List.length feature_columns_names) then
      Ok (set_columns df feature_columns_names)
    else Ok df
  else Raise (ValueError (content_type ++ " not supported by script!")%string).

(** [{"instances": [{"features": row}, ...]}]. *)
Definition json_output (prediction : list (list float)) : json :=
  JObject [("instances",
            JArray (map (fun row => JObject [("features", JArray (map JNumber row))])
                        prediction))].

Definition output_fn (prediction : list (list float)) (accept : string) : result Response :=
  if String.eqb accept "application/json" then
    Ok (mkResponse (json_dumps (json_output prediction)) accept accept)
  else if String.eqb accept "text/csv" then
    Ok (mkResponse (encode prediction accept) accept accept)
  else Raise (RuntimeError (accept ++ " accept type is not supported by this script.")%string).

(** [np.insert(features, 0, values, axis=1)] with one value per row. *)
Definition np_insert_first (features : list (list float)) (values : list cell)
  : result (list (list float)) :=
  do vs <- mapM ColumnTransformer.to_float values;
  Ok (zipWith cons vs features).

(** [features] is a scipy matrix when the model stacks sparse; [np.insert]
    reads one as an array of dimension 0 and raises [AxisError], a
    [ValueError]. *)
Definition predict_fn (input_data : DataFrame) (model : ColumnTransformer.t)
  : result (list (list float)) :=
  do features <- transform model input_data;
  if has_column input_data label_column then
    do labels <- getitem input_data label_column;
    if ColumnTransformer.sparse_output_ model then
      Raise (ValueError "axis 1 is out of bounds for array of dimension 0")
    else np_insert_first features (s_values labels)
  else Ok features.

End Adapter.

End sagemaker_preprocessing.

(** The served script, for short. *)
Module Served := sagemaker_preprocessing.

(** ** The column layout the specification states

    A nominal column with [k] fitted categories contributes [k] indicator
    columns, and a single one when [k = 2] (the first category is the one
    left out); [indicators cats v] is the block of the value [v], one entry
    per kept category in the order of [cats]. *)

Definition indicator_width (k : nat) : nat := if Nat.eqb k 2 then 1%nat else k.

Definition indicators (cats : list cell) (v : cell) : list float :=
  map (fun c => if cell_eqb v c then 1%float else 0%float)
      (if Nat.eqb (List.length cats) 2 then tl cats else cats).

(** ** A reader for plain comma-separated text

    Stands for [pd.read_csv(StringIO(text), index_col=0)] on text without
    quotes or blanks: the first line names the columns, the first field of
    each line is the index label, and a column whose fields all read as
    integers is an integer column (otherwise a text column). *)

Module PlainCsv.

Fixpoint split_on (sep : ascii) (s : string) : list string :=
  match s with
  | EmptyString => [EmptyString]
  | String c s' =>
      if Ascii.eqb c sep then EmptyString :: split_on sep s'
      else match split_on sep s' with
           | f :: fs => String c f :: fs
           | [] => [String c EmptyString]
           end
  end.

Definition lines (text : string) : list string :=
  filter (fun l => negb (String.eqb l "")) (split_on "010"%char text).

Definition parse_int (s : string) : option Z :=
  option_map Z.of_int (DecimalString.NilZero.int_of_string s).

Definition is_int (s : string) : bool :=
  match parse_int s with Some _ => true | None => false end.

Definition to_cell (numeric : bool) (s : string) : cell :=
  match numeric, parse_int s with
  | true, Some z => Num z
  | _, _ => Str s
  end.

Definition read_csv (text : string) : result DataFrame :=
  match lines text with
  | [] => Raise (ValueError "No columns to parse from file")
  | header_line :: data_lines =>
      let header := split_on ","%char header_line in
      let data := map (split_on ","%char) data_lines in
      if forallb (fun fields => Nat.eqb (List.length fields) (List.length header)) data then
        let numeric :=
          fold_left (fun acc fields => zipWith andb acc (map is_int fields))
                    data (map (fun _ => true) header) in
        Ok (mkFrame (tl header)
                    (map (fun fields =>
                            let cs := zipWith to_cell numeric fields in
                            mkRow (hd (Str "") cs) (tl cs))
                         data))
      else Raise (ValueError "Error tokenizing data")
  end.

End PlainCsv.

(** ** A stand-in random generator

    Used to run the examples: its state is an integer, and its permutation
    of [0 .. n-1] is the rotation by the state modulo [n]. *)

Definition rotate (k : nat) (l : list nat) : list nat := skipn k l ++ firstn k l.

Definition Rotation : RandomState.
Proof.
  refine {| rng := Z;
            RandomState_seed := fun s => s;
            permutation := fun g n =>
              (rotate (Z.to_nat (g mod Z.of_nat (S n))) (seq 0 n), (g * 1103515245 + 12345)%Z) |}.
  intros g n; unfold rotate; simpl.
  eapply Permutation_trans; [apply Permutation_app_comm|].
  rewrite firstn_skipn; apply Permutation_refl.
Defined.

(** ** The labelled form of a table

    The table with the target as one more, last column, as [input_fn] names
    the columns of a labelled request. *)

Definition with_label (df : DataFrame) (labels : list cell) : DataFrame :=
  mkFrame (columns df ++ [sagemaker_preprocessing.label_column])
          (zipWith (fun r l => mkRow (label r) (cells r ++ [l])) (rows df) labels).

(** ** The features of one row

    What the served preprocessor [model] makes of the row [r] of the table
    [df]: the scaled numeric columns, then the indicators. *)

Definition served_row (model : ColumnTransformer.t) (df : DataFrame) (r : Row)
  : result (list float) :=
  ColumnTransformer.transform_row sagemaker_preprocessing.numeric_cols_to_keep
    sagemaker_preprocessing.nominal_cols_to_keep model (columns df) r.

(** ** Row alignment of a written table

    [aligned df ct idx tb]: row [i] of the written table [tb] has the index
    [i], the features of the source row at position [idx[i]] of [df] as the
    transformer [ct] maps them, and the target of that same source row. *)

Definition aligned (df : DataFrame) (ct : ColumnTransformer.t) (idx : list nat) (tb : Table) : Prop :=
  List.length (t_rows tb) = List.length idx /\
  forall i p, nth_error idx i = Some p ->
    exists src g3 feats,
      nth_error (rows df) p = Some src /\
      row_get (columns df) "G3"%string src = Ok g3 /\
      ColumnTransformer.transform_row DataPreprocessing.numeric_cols_to_keep
        DataPreprocessing.nominal_cols_to_keep ct (columns df) src
      = Ok feats /\
      nth_error (t_rows tb) i = Some (i, map Float feats ++ [Raw g3]).

(** ** Sample data *)

(** One-column training matrices: three ages, the levels 1 and 6, and the
    counts 0 and 49. *)
Definition ages : list (list float) := [[15%float]; [18%float]; [22%float]].

(** A raw row in the 32-column feature schema; the columns the pipeline
    drops hold fixed fillers. *)
Definition student (age Medu traveltime studytime failures goout Dalc absences : Z)
           (address Fjob guardian higher internet romantic : string) : list cell :=
  [Str "GP"; Str "F"; Num age; Str address; Str "GT3"; Str "T"; Num Medu; Num 2;
   Str "other"; Str Fjob; Str "course"; Str guardian; Num traveltime; Num studytime;
   Num failures; Str "no"; Str "no"; Str "no"; Str "no"; Str "yes";
   Str higher; Str internet; Str romantic; Num 4; Num 3; Num goout; Num Dalc;
   Num 1; Num 3; Num absences; Num 10; Num 11].

(** The header of the raw files: the 32 features, then the target. *)
Definition raw_columns : list string :=
  (sagemaker_preprocessing.feature_columns_names ++ ["G3"])%list.

(** A three-student training table. *)
Definition train_sample : DataFrame :=
  mkFrame raw_columns
    [mkRow (Num 0) (student 15 4 1 2 0 3 1 0 "U" "teacher" "mother" "yes" "no" "no" ++ [Num 15]);
     mkRow (Num 1) (student 18 2 2 1 1 5 2 6 "R" "other" "father" "no" "yes" "yes" ++ [Num 9]);
     mkRow (Num 2) (student 22 0 4 4 3 1 5 10 "U" "services" "other" "yes" "yes" "no" ++ [Num 0])].

(** Its feature part, as the batch notebook fits on it. *)
Definition train_features : DataFrame := drop_column train_sample "G3".

(** An unlabelled request whose categories all occur in [train_sample]. *)
Definition request_seen : DataFrame :=
  mkFrame sagemaker_preprocessing.feature_columns_names
    [mkRow (Num 0) (student 17 3 2 2 1 2 1 5 "R" "other" "mother" "yes" "yes" "no")].

(** Two unlabelled rows. *)
Definition request_pair : DataFrame :=
  mkFrame sagemaker_preprocessing.feature_columns_names
    [mkRow (Num 0) (student 17 3 2 2 1 2 1 5 "R" "other" "mother" "yes" "yes" "no");
     mkRow (Num 1) (student 20 1 1 3 0 4 2 2 "U" "teacher" "other" "no" "no" "yes")].

(** The same request with a father's job the training table never shows. *)
Definition request_unseen : DataFrame :=
  mkFrame sagemaker_preprocessing.feature_columns_names
    [mkRow (Num 0) (student 17 3 2 2 1 2 1 5 "R" "health" "mother" "yes" "yes" "no")].

(** A labelled request with one column too many, as text; the first line
    names the columns. *)
Definition nl : string := String "010"%char EmptyString.

Definition wide_request : string :=
  String.concat "," ("id" :: raw_columns ++ ["extra"]) ++ nl ++
  "0,GP,F,17,R,GT3,T,3,2,other,other,course,mother,2,2,1,no,no,no,no,yes,yes,yes,no,4,3,2,1,1,3,5,10,11,12,99"
  ++ nl.

(** Synthetic raw rows: row [i] of a file, with attributes that cycle
    through their documented ranges. *)
Definition sample_row (offset i : nat) : Row :=
  let z := Z.of_nat (offset + i) in
  mkRow (Num (Z.of_nat i))
        (student (15 + z mod 8) (z mod 5) (1 + z mod 4) (1 + z mod 4) (z mod 4)
                 (1 + z mod 5) (1 + z mod 5) (z mod 30)
                 (if Z.even z then "U" else "R")
                 (nth (Z.to_nat (z mod 5)) ["teacher"; "health"; "services"; "at_home"; "other"] "other")
                 (nth (Z.to_nat (z mod 3)) ["mother"; "father"; "other"] "other")
                 (if Z.eqb (z mod 7) 0 then "no" else "yes")
                 (if Z.eqb (z mod 3) 0 then "no" else "yes")
                 (if Z.eqb (z mod 4) 0 then "yes" else "no")
           ++ [Num (z mod 21)]).

Definition sample_frame (offset n : nat) : DataFrame :=
  mkFrame raw_columns (map (sample_row offset) (seq 0 n)).

Definition math_small : DataFrame := sample_frame 0 12.
Definition port_small : DataFrame := sample_frame 1000 8.

(** ** Requests as text *)


(** A labelled request of two rows, as text: the line of names, and an
    index field before the 33 values of each row. *)
Definition labelled_text : string :=
  String.concat "," ("id" :: raw_columns) ++ nl ++
  "0,GP,F,17,R,GT3,T,3,2,other,other,course,mother,2,2,1,no,no,no,no,yes,yes,yes,no,4,3,2,1,1,3,5,10,11,12"
  ++ nl ++
  "1,GP,F,20,U,GT3,T,1,2,other,teacher,course,other,1,3,0,no,no,no,no,yes,no,no,yes,4,3,4,2,1,3,2,10,11,7"
  ++ nl.

(** The training table with its rows in the opposite order. *)
Definition train_reversed : DataFrame :=
  mkFrame (columns train_features) (rev (rows train_features)).

(** A one-column block of a yes/no attribute. *)
Definition answers : list (list cell) := [[Str "yes"]; [Str "no"]; [Str "yes"]].

(** The first two characters of a name. *)
Definition prefix2 (x : string) : string :=
  match x with
  | String a (String b _) => String a (String b EmptyString)
  | _ => EmptyString
  end.

(** ** Training channels

    Run as programs, the two Sagemaker scripts find their training files in
    the directory [args.train].  The file system is seen through
    [os.listdir] and [os.path.isdir]. *)

Module posixpath.

Definition startswith_sep (s : string) : bool :=
  match s with
  | String c _ => Ascii.eqb c "/"
  | EmptyString => false
  end.

Fixpoint endswith_sep (s : string) : bool :=
  match s with
  | EmptyString => false
  | String c EmptyString => Ascii.eqb c "/"
  | String _ s' => endswith_sep s'
  end.

(** [os.path.join(a, b)]. *)
Definition join (a b : string) : string :=
  if startswith_sep b then b
  else if String.eqb a "" || endswith_sep a then (a ++ b)%string
  else (a ++ "/" ++ b)%string.

End posixpath.

(** The error both scripts raise for a channel without entries. *)
Definition no_files (train : string) : exn :=
  ValueError ("There are no files in " ++ train ++ "." ++ nl
              ++ "This usually indicates that the channel (" ++ "train"
              ++ ") was incorrectly specified," ++ nl
              ++ "the data specification in S3 was incorrectly specified or the role specified" ++ nl
              ++ "does not have permission to access the data.")%string.

(** sagemaker_preprocessing.py, [__main__]: the files the preprocessor is
    fit on, every entry of the channel as it is. *)
Definition preprocessing_input_files (listdir : string -> list string) (train : string)
  : result (list string) :=
  let input_files := map (posixpath.join train) (listdir train) in
  if Nat.eqb (List.length input_files) 0 then Raise (no_files train)
  else Ok input_files.

(** ** sagemaker_modeling.py: the training script *)

Module sagemaker_modeling.

Section Channel.

Variable listdir : string -> list string.
Variable isdir : string -> bool.

(** One pass of the loop over [train_dir]: a directory gives its entries,
    anything else gives itself. *)
Definition expand (item : string) : list string :=
  if isdir item then map (fun file => (item ++ "/" ++ file)%string) (listdir item)
  else [item].

(** [__main__] up to [input_files]. *)
Definition input_files (train : string) : result (list string) :=
  let train_dir := map (posixpath.join train) (listdir train) in
  if Nat.eqb (List.length train_dir) 0 then Raise (no_files train)
  else Ok (flat_map expand train_dir).

End Channel.

End sagemaker_modeling.

(** A channel with one file and one directory of two parts, and a channel
    of two files. *)
Definition sample_listdir (path : string) : list string :=
  if String.eqb path "/opt/ml/input/data/train" then ["train.csv"; "parts"]
  else if String.eqb path "/opt/ml/input/data/train/parts" then ["a.csv"; "b.csv"]
  else if String.eqb path "/opt/ml/input/data/flat" then ["train.csv"; "more.csv"]
  else [].

Definition sample_isdir (path : string) : bool :=
  String.eqb path "/opt/ml/input/data/train/parts".

(** ** Integer codes

    Every numeric attribute of the data set is an integer code or a count
    between 0 and 93 (README.md).  [attribute_codes] lists 0 .. 100, and the
    functions below decide, by evaluation in binary64, where the scaler
    sends such codes. *)

Definition attribute_codes : list Z := map Z.of_nat (seq 0 101).

(** What a scaler fit on a column with minimum [mn] and maximum [mx] makes
    of [v]: [v * scale_ + min_]. *)
Definition scaled (mn mx v : float) : float :=
  let scale := PrimFloat.div (PrimFloat.sub 1 0)
                 (MinMaxScaler._handle_zeros_in_scale (PrimFloat.sub mx mn)) in
  PrimFloat.add (PrimFloat.mul v scale) (PrimFloat.sub 0 (PrimFloat.mul mn scale)).



Definition code_increasing (zmin zmax z : Z) : bool :=
  PrimFloat.ltb (scaled (float_of_Z zmin) (float_of_Z zmax) (float_of_Z z))
                (scaled (float_of_Z zmin) (float_of_Z zmax) (float_of_Z (z + 1))).

(** * Properties *)

(** ** The result monad and list helpers *)

Lemma bind_Ok {A B : Type} (r : result A) (k : A -> result B) (b : B) :
  bind r k = Ok b -> exists a, r = Ok a /\ k a = Ok b.
Proof.
  destruct r as [a|e]; simpl; intros H; [eauto | discriminate].
Qed.

Lemma bind_Raise {A B : Type} (r : result A) (k : A -> result B) (e : exn) :
  r = Raise e -> bind r k = Raise e.
Proof. intros ->; reflexivity. Qed.

Lemma mapM_Ok {A B : Type} (f : A -> result B) (l : list A) (m : list B) :
  mapM f l = Ok m -> Forall2 (fun a b => f a = Ok b) l m.
Proof.
  revert m; induction l as [|a l IH]; simpl; intros m H.
  - injection H as <-; constructor.
  - apply bind_Ok in H as (b & Hb & H).
    apply bind_Ok in H as (bs & Hbs & H).
    injection H as <-; constructor; auto.
Qed.

Lemma mapM_Forall2 {A B : Type} (f : A -> result B) (l : list A) (m : list B) :
  Forall2 (fun a b => f a = Ok b) l m -> mapM f l = Ok m.
Proof.
  induction 1 as [|a b l m Hab _ IH]; simpl; [reflexivity|].
  rewrite Hab; simpl; rewrite IH; reflexivity.
Qed.

Lemma mapM_length {A B : Type} (f : A -> result B) (l : list A) (m : list B) :
  mapM f l = Ok m -> List.length m = List.length l.
Proof.
  intros H; apply mapM_Ok in H; symmetry; eapply Forall2_length; eauto.
Qed.

Lemma mapM_Raise {A B : Type} (f : A -> result B) (l : list A) (a : A) (e : exn) :
  In a l -> f a = Raise e -> exists e', mapM f l = Raise e'.
Proof.
  induction l as [|x l IH]; simpl; [tauto|].
  intros [->|Hin] Hf.
  - rewrite Hf; simpl; eauto.
  - destruct (f x) as [b|e0]; simpl; [|eauto].
    destruct (IH Hin Hf) as [e' ->]; simpl; eauto.
Qed.

Lemma mapM_ext {A B : Type} (f g : A -> result B) (l : list A) :
  (forall a, In a l -> f a = g a) -> mapM f l = mapM g l.
Proof.
  induction l as [|a l IH]; simpl; intros H; [reflexivity|].
  rewrite (H a) by auto; rewrite IH by auto; reflexivity.
Qed.

Lemma mapM_nth_error {A B : Type} (f : A -> result B) (l : list A) (m : list B) (i : nat) (a : A) :
  mapM f l = Ok m -> nth_error l i = Some a -> exists b, nth_error m i = Some b /\ f a = Ok b.
Proof.
  intros H; apply mapM_Ok in H; revert i.
  induction H as [|x y l m Hxy _ IH]; intros [|i]; simpl; try discriminate.
  - intros [= ->]; eauto.
  - apply IH.
Qed.

Lemma nth_error_zipWith {A B C : Type} (f : A -> B -> C) (l : list A) (m : list B) (i : nat) :
  nth_error (zipWith f l m) i =
  match nth_error l i, nth_error m i with
  | Some a, Some b => Some (f a b)
  | _, _ => None
  end.
Proof.
  revert m i; induction l as [|a l IH]; intros [|b m] [|i]; simpl; try reflexivity.
  - destruct (nth_error l i); reflexivity.
  - apply IH.
Qed.

Lemma zipWith_length {A B C : Type} (f : A -> B -> C) (l : list A) (m : list B) :
  List.length (zipWith f l m) = Nat.min (List.length l) (List.length m).
Proof.
  revert m; induction l as [|a l IH]; intros [|b m]; simpl; auto.
Qed.

Lemma combine_zipWith {A B : Type} (l : list A) (m : list B) : combine l m = zipWith pair l m.
Proof. revert m; induction l as [|a l IH]; intros [|b m]; simpl; [..|rewrite IH]; reflexivity. Qed.

Lemma nth_error_seq0 (n i : nat) : (i < n)%nat -> nth_error (seq 0 n) i = Some i.
Proof.
  intros H. rewrite nth_error_nth' with (d := 0%nat) by (rewrite length_seq; exact H).
  rewrite seq_nth by exact H; reflexivity.
Qed.

(** ** binary64: order, cancellation and the unit *)

Module Binary64.

Lemma SFcompare_refl (x : spec_float) : x <> S754_nan -> SFcompare x x = Some Eq.
Proof.
  destruct x as [s|s| |s m e]; simpl; intros H; try congruence.
  - destruct s; reflexivity.
  - destruct s; rewrite Z.compare_refl; f_equal;
      change (Pos.compare_cont Eq m m) with (Pos.compare m m); rewrite Pos.compare_refl; reflexivity.
Qed.

(** A finite float is a zero or a signed mantissa with an exponent. *)
Lemma Prim2SF_finite (x : float) :
  finite x -> (exists s, Prim2SF x = S754_zero s) \/ (exists s m e, Prim2SF x = S754_finite s m e).
Proof.
  unfold finite, is_finite, is_nan, is_infinity.
  rewrite !eqb_spec, abs_spec.
  change (Prim2SF infinity) with (S754_infinity false).
  destruct (Prim2SF x) as [s|s| |s m e]; simpl; eauto.
  - destruct s; simpl; discriminate.
  - discriminate.
Qed.

Lemma finite_not_nan (x : float) : finite x -> Prim2SF x <> S754_nan.
Proof. intros H E. destruct (Prim2SF_finite x H) as [[s H']|(s & m & e & H')]; congruence. Qed.

Ltac compare_cases :=
  repeat match goal with
  | |- context [Z.compare ?a ?b] => destruct (Z.compare_spec a b)
  | H : context [Z.compare ?a ?b] |- _ => destruct (Z.compare_spec a b)
  | |- context [Pos.compare_cont Eq ?a ?b] =>
      change (Pos.compare_cont Eq a b) with (Pos.compare a b); destruct (Pos.compare_spec a b)
  | H : context [Pos.compare_cont Eq ?a ?b] |- _ =>
      change (Pos.compare_cont Eq a b) with (Pos.compare a b) in H; destruct (Pos.compare_spec a b)
  end.

Ltac by_cases :=
  repeat match goal with s : bool |- _ => destruct s end; simpl;
  try discriminate; try reflexivity; auto;
  compare_cases; simpl; try discriminate; try reflexivity; auto; intros; subst; try lia.

Lemma SFleb_trans (x y z : spec_float) :
  SFleb x y = true -> SFleb y z = true -> SFleb x z = true.
Proof.
  unfold SFleb.
  destruct x as [sx|sx| |sx mx ex], y as [sy|sy| |sy my ey], z as [sz|sz| |sz mz ez]; simpl;
    try discriminate; try reflexivity; by_cases.
Qed.

Lemma SFltb_trans (x y z : spec_float) :
  SFltb x y = true -> SFltb y z = true -> SFltb x z = true.
Proof.
  unfold SFltb.
  destruct x as [sx|sx| |sx mx ex], y as [sy|sy| |sy my ey], z as [sz|sz| |sz mz ez]; simpl;
    try discriminate; try reflexivity; by_cases.
Qed.

Lemma SFleb_total (x y : spec_float) :
  x <> S754_nan -> y <> S754_nan -> SFleb x y = true \/ SFleb y x = true.
Proof.
  unfold SFleb.
  destruct x as [sx|sx| |sx mx ex], y as [sy|sy| |sy my ey]; simpl; intros Hx Hy; try congruence;
    by_cases.
Qed.

(** Two finite floats that are below each other are the same float, or are
    both zeros. *)
Lemma SFleb_antisym (x y : spec_float) :
  SFleb x y = true -> SFleb y x = true ->
  x = y \/ (exists s t, x = S754_zero s /\ y = S754_zero t).
Proof.
  unfold SFleb.
  destruct x as [sx|sx| |sx mx ex], y as [sy|sy| |sy my ey]; simpl;
    try discriminate; try (right; eauto; fail);
    repeat match goal with s : bool |- _ => destruct s end; simpl;
    try discriminate; try (left; reflexivity);
    compare_cases; simpl; try discriminate; intros; subst; try lia; left; reflexivity.
Qed.

Lemma leb_refl (x : float) : finite x -> PrimFloat.leb x x = true.
Proof.
  intros H. rewrite leb_spec. unfold SFleb.
  rewrite SFcompare_refl by (apply finite_not_nan, H). reflexivity.
Qed.

Lemma leb_trans (x y z : float) :
  PrimFloat.leb x y = true -> PrimFloat.leb y z = true -> PrimFloat.leb x z = true.
Proof. rewrite !leb_spec. apply SFleb_trans. Qed.

Lemma ltb_trans (x y z : float) :
  PrimFloat.ltb x y = true -> PrimFloat.ltb y z = true -> PrimFloat.ltb x z = true.
Proof. rewrite !ltb_spec. apply SFltb_trans. Qed.

Lemma leb_total (x y : float) :
  finite x -> finite y -> PrimFloat.leb x y = true \/ PrimFloat.leb y x = true.
Proof. intros Hx Hy. rewrite !leb_spec. apply SFleb_total; apply finite_not_nan; assumption. Qed.

Lemma shl_align_same (m : positive) (e : Z) : shl_align m e e = (m, e).
Proof. unfold shl_align. rewrite Z.sub_diag. reflexivity. Qed.

(** [x + (0 - x)] is [+0]. *)
Lemma add_opposite (x : float) : finite x -> PrimFloat.add x (PrimFloat.sub 0 x) = 0%float.
Proof.
  intros H. apply Prim2SF_inj. rewrite add_spec, sub_spec.
  change (Prim2SF 0) with (S754_zero false).
  destruct (Prim2SF_finite x H) as [[s ->]|(s & m & e & ->)].
  - destruct s; reflexivity.
  - unfold SF64add, SF64sub, SFsub, SFadd. rewrite Z.min_id, shl_align_same. simpl fst.
    destruct s; simpl; rewrite Z.pos_sub_diag; reflexivity.
Qed.

(** [x - x] is [+0]. *)
Lemma sub_self (x : float) : finite x -> PrimFloat.sub x x = 0%float.
Proof.
  intros H. apply Prim2SF_inj. rewrite sub_spec.
  change (Prim2SF 0) with (S754_zero false).
  destruct (Prim2SF_finite x H) as [[s ->]|(s & m & e & ->)].
  - destruct s; reflexivity.
  - unfold SF64sub, SFsub. rewrite Z.min_id, shl_align_same. simpl fst.
    destruct s; simpl; rewrite Z.pos_sub_diag; reflexivity.
Qed.

Lemma iter_shr_exact (k : nat) (m : positive) :
  Nat.iter k shr_1 {| shr_m := Zpos (Nat.iter k xO m); shr_r := false; shr_s := false |}
  = {| shr_m := Zpos m; shr_r := false; shr_s := false |}.
Proof.
  induction k as [|k IH]; [reflexivity|].
  rewrite Nat.iter_succ_r. simpl Nat.iter at 2. simpl shr_1. exact IH.
Qed.

Lemma digits2_iter (k : nat) (m : positive) :
  Zpos (digits2_pos (Nat.iter k xO m)) = (Zpos (digits2_pos m) + Z.of_nat k)%Z.
Proof.
  induction k as [|k IH]; [simpl; lia|].
  simpl Nat.iter. simpl digits2_pos. rewrite Pos2Z.inj_succ, IH. lia.
Qed.

Lemma iter_pos_nat {A : Type} (f : A -> A) (p : positive) (x : A) :
  iter_pos f p x = Nat.iter (Pos.to_nat p) f x.
Proof.
  revert x; induction p as [p IH|p IH|]; intros x; cbn [iter_pos].
  - rewrite !IH, Pos2Nat.inj_xI.
    replace (S (2 * Pos.to_nat p)) with (Pos.to_nat p + S (Pos.to_nat p))%nat by lia.
    rewrite Nat.iter_add, Nat.iter_succ_r. reflexivity.
  - rewrite !IH, Pos2Nat.inj_xO.
    replace (2 * Pos.to_nat p)%nat with (Pos.to_nat p + Pos.to_nat p)%nat by lia.
    rewrite Nat.iter_add. reflexivity.
  - reflexivity.
Qed.

(** [x * 1] is [x]: the product is exact and canonical already. *)
Lemma mul_one (x : float) : finite x -> PrimFloat.mul x 1 = x.
Proof.
  intros H. apply Prim2SF_inj. rewrite mul_spec.
  change (Prim2SF 1) with (S754_finite false 4503599627370496 (-52)).
  pose proof (Prim2SF_valid x) as V.
  destruct (Prim2SF_finite x H) as [[s E]|(s & m & e & E)]; rewrite E in *.
  - destruct s; reflexivity.
  - unfold SF64mul, SFmul. rewrite xorb_false_r.
    replace (m * 4503599627370496)%positive with (Nat.iter 52 xO m)
      by (rewrite Pos.mul_comm; reflexivity).
    simpl in V. apply andb_true_iff in V as [C B].
    unfold canonical_mantissa in C. apply Z.eqb_eq in C.
    unfold binary_round_aux, shr_fexp.
    unfold Zdigits2 at 1. rewrite digits2_iter.
    replace (Z.pos (digits2_pos m) + Z.of_nat 52 + (e + -52))%Z
      with (Z.pos (digits2_pos m) + e)%Z by lia.
    rewrite C. replace (e - (e + -52))%Z with 52%Z by lia.
    unfold shr at 1. rewrite iter_pos_nat. change (Pos.to_nat 52) with 52%nat.
    change (shr_record_of_loc (Z.pos (Nat.iter 52 xO m)) loc_Exact)
      with {| shr_m := Z.pos (Nat.iter 52 xO m); shr_r := false; shr_s := false |}.
    rewrite iter_shr_exact.
    cbn [shr_m loc_of_shr_record round_nearest_even Zdigits2].
    replace (e + -52 + 52)%Z with e by lia.
    rewrite C, Z.sub_diag. cbn [shr shr_record_of_loc shr_m].
    rewrite B. reflexivity.
Qed.

(** The product of a zero of either sign with 1, then [0 - ...], then the
    sum: the image of a zero under a scaler of scale 1 fit on zeros. *)
Lemma zeros_cancel (x y : float) :
  (exists s, Prim2SF x = S754_zero s) -> (exists t, Prim2SF y = S754_zero t) ->
  PrimFloat.add (PrimFloat.mul x 1) (PrimFloat.sub 0 (PrimFloat.mul y 1)) = 0%float.
Proof.
  intros [s Hx] [t Hy]. apply Prim2SF_inj.
  rewrite add_spec, sub_spec, !mul_spec, Hx, Hy.
  destruct s, t; reflexivity.
Qed.

(** Two floats that compare equal are the same float, or are both zeros. *)
Lemma SFeqb_cases (x y : spec_float) :
  SFeqb x y = true -> x = y \/ (exists s t, x = S754_zero s /\ y = S754_zero t).
Proof.
  unfold SFeqb.
  destruct x as [sx|sx| |sx mx ex], y as [sy|sy| |sy my ey]; simpl;
    try discriminate; try (right; eauto; fail);
    repeat match goal with s : bool |- _ => destruct s end; simpl;
    try discriminate; try (left; reflexivity);
    compare_cases; simpl; try discriminate; intros; subst; try lia; left; reflexivity.
Qed.

(** A zero is one of the two zeros. *)
Lemma zero_cases (x : float) (s : bool) :
  Prim2SF x = S754_zero s -> x = (if s then (-0)%float else 0%float).
Proof.
  intros H. apply Prim2SF_inj. rewrite H. destruct s; reflexivity.
Qed.

(** The range of two equal finite floats is a zero. *)
Lemma equal_range (x y : float) :
  finite x -> finite y -> PrimFloat.eqb x y = true ->
  PrimFloat.eqb (PrimFloat.sub x y) 0 = true.
Proof.
  intros Hx Hy H. rewrite eqb_spec in H.
  destruct (SFeqb_cases _ _ H) as [E|(s & t & Ex & Ey)].
  - apply Prim2SF_inj in E. subst y. rewrite sub_self by exact Hx. reflexivity.
  - rewrite (zero_cases _ _ Ex), (zero_cases _ _ Ey). destruct s, t; reflexivity.
Qed.

(** A float between two equal floats is that float, or all are zeros. *)
Lemma SFleb_squeeze (a b c : spec_float) :
  SFeqb b a = true -> SFleb a c = true -> SFleb c b = true ->
  c = a \/ (exists s t, c = S754_zero s /\ a = S754_zero t).
Proof.
  intros E H1 H2.
  destruct (SFeqb_cases _ _ E) as [->|(s & t & -> & ->)].
  - destruct (SFleb_antisym _ _ H1 H2) as [->|(s & t & -> & ->)]; [left; reflexivity|].
    right; eauto.
  - right. destruct c as [sc|sc| |sc mc ec]; [eauto|..]; exfalso; revert H1 H2; unfold SFleb; simpl;
      repeat match goal with s : bool |- _ => destruct s end; simpl; discriminate.
Qed.

(** Strictly below is below, and a float that is below another is below
    itself. *)
Lemma ltb_leb (x y : float) : PrimFloat.ltb x y = true -> PrimFloat.leb x y = true.
Proof.
  rewrite ltb_spec, leb_spec. unfold SFltb, SFleb.
  destruct (SFcompare (Prim2SF x) (Prim2SF y)) as [[]|]; try discriminate; reflexivity.
Qed.

Lemma ltb_leb_refl (x y : float) : PrimFloat.ltb x y = true -> PrimFloat.leb x x = true.
Proof.
  rewrite ltb_spec, leb_spec. unfold SFltb, SFleb. intros H.
  rewrite SFcompare_refl; [reflexivity|]. intros E. rewrite E in H. discriminate.
Qed.

End Binary64.

(** ** MinMaxScaler *)

Module MinMaxScalerFacts.
Import MinMaxScaler.

Lemma minimum_spec (x y : float) :
  finite x -> finite y ->
  (minimum x y = x \/ minimum x y = y) /\
  PrimFloat.leb (minimum x y) x = true /\ PrimFloat.leb (minimum x y) y = true.
Proof.
  intros Hx Hy. unfold minimum. destruct (PrimFloat.leb x y) eqn:E.
  - split; [auto|]. split; [apply Binary64.leb_refl, Hx | exact E].
  - split; [auto|]. split; [|apply Binary64.leb_refl, Hy].
    destruct (Binary64.leb_total x y Hx Hy) as [H|H]; congruence.
Qed.

Lemma maximum_spec (x y : float) :
  finite x -> finite y ->
  (maximum x y = x \/ maximum x y = y) /\
  PrimFloat.leb x (maximum x y) = true /\ PrimFloat.leb y (maximum x y) = true.
Proof.
  intros Hx Hy. unfold maximum. destruct (PrimFloat.leb x y) eqn:E.
  - split; [auto|]. split; [exact E | apply Binary64.leb_refl, Hy].
  - split; [auto|]. split; [apply Binary64.leb_refl, Hx|].
    destruct (Binary64.leb_total x y Hx Hy) as [H|H]; congruence.
Qed.

Lemma fold_min_spec (xs : list float) (x : float) :
  finite x -> Forall finite xs ->
  In (fold_left minimum xs x) (x :: xs) /\
  forall v, In v (x :: xs) -> PrimFloat.leb (fold_left minimum xs x) v = true.
Proof.
  intros Hx Hxs; revert x Hx. induction Hxs as [|y xs Hy _ IH]; intros x Hx; simpl.
  - split; [auto|]. intros v [<-|[]]. apply Binary64.leb_refl, Hx.
  - destruct (minimum_spec x y Hx Hy) as (Hc & L1 & L2).
    assert (Hm : finite (minimum x y)) by (destruct Hc as [->| ->]; assumption).
    destruct (IH _ Hm) as [Hin Hle]. split.
    + destruct Hin as [E|Hin]; [|auto]. rewrite <- E. destruct Hc as [->| ->]; auto.
    + intros v [<-|[<-|Hv]].
      * eapply Binary64.leb_trans; [apply Hle; left; reflexivity | exact L1].
      * eapply Binary64.leb_trans; [apply Hle; left; reflexivity | exact L2].
      * apply Hle; right; exact Hv.
Qed.

Lemma fold_max_spec (xs : list float) (x : float) :
  finite x -> Forall finite xs ->
  In (fold_left maximum xs x) (x :: xs) /\
  forall v, In v (x :: xs) -> PrimFloat.leb v (fold_left maximum xs x) = true.
Proof.
  intros Hx Hxs; revert x Hx. induction Hxs as [|y xs Hy _ IH]; intros x Hx; simpl.
  - split; [auto|]. intros v [<-|[]]. apply Binary64.leb_refl, Hx.
  - destruct (maximum_spec x y Hx Hy) as (Hc & L1 & L2).
    assert (Hm : finite (maximum x y)) by (destruct Hc as [->| ->]; assumption).
    destruct (IH _ Hm) as [Hin Hle]. split.
    + destruct Hin as [E|Hin]; [|auto]. rewrite <- E. destruct Hc as [->| ->]; auto.
    + intros v [<-|[<-|Hv]].
      * eapply Binary64.leb_trans; [exact L1 | apply Hle; left; reflexivity].
      * eapply Binary64.leb_trans; [exact L2 | apply Hle; left; reflexivity].
      * apply Hle; right; exact Hv.
Qed.

(** The fitted minimum of a column of finite values is one of them, and
    the least. *)
Lemma amin_spec (col : list float) :
  col <> [] -> Forall finite col ->
  In (amin col) col /\ forall v, In v col -> PrimFloat.leb (amin col) v = true.
Proof.
  destruct col as [|x xs]; [congruence|]. intros _ H. inversion H; subst.
  apply fold_min_spec; assumption.
Qed.

Lemma amax_spec (col : list float) :
  col <> [] -> Forall finite col ->
  In (amax col) col /\ forall v, In v col -> PrimFloat.leb v (amax col) = true.
Proof.
  destruct col as [|x xs]; [congruence|]. intros _ H. inversion H; subst.
  apply fold_max_spec; assumption.
Qed.

(** The fitted state, feature by feature. *)
Lemma scaler_fit_inv (X : list (list float)) (sc : t) :
  fit X = Ok sc ->
  exists r0 X', X = r0 :: X' /\
    forall j, (j < List.length r0)%nat ->
      nth_error (data_min_ sc) j = Some (amin (column j X)) /\
      nth_error (data_max_ sc) j = Some (amax (column j X)) /\
      nth_error (scale_ sc) j =
        Some (PrimFloat.div (PrimFloat.sub 1 0)
                (_handle_zeros_in_scale (PrimFloat.sub (amax (column j X)) (amin (column j X))))) /\
      nth_error (min_ sc) j =
        Some (PrimFloat.sub 0
                (PrimFloat.mul (amin (column j X))
                   (PrimFloat.div (PrimFloat.sub 1 0)
                      (_handle_zeros_in_scale
                         (PrimFloat.sub (amax (column j X)) (amin (column j X))))))).
Proof.
  unfold fit; destruct X as [|r0 X']; [discriminate|].
  intros [= <-]; exists r0, X'; split; [reflexivity|].
  intros j Hj; cbn [data_min_ data_max_ scale_ min_].
  assert (Hs : nth_error (seq 0 (List.length r0)) j = Some j).
  { rewrite nth_error_nth' with (d := 0%nat) by (rewrite length_seq; exact Hj).
    rewrite seq_nth by exact Hj. reflexivity. }
  repeat split;
    repeat (rewrite ?nth_error_map, ?nth_error_zipWith, ?Hs; cbn [option_map]); reflexivity.
Qed.

Lemma fit_lengths (X : list (list float)) (sc : t) :
  fit X = Ok sc ->
  exists r0 X', X = r0 :: X' /\
    List.length (data_min_ sc) = List.length r0 /\ List.length (data_max_ sc) = List.length r0 /\
    List.length (scale_ sc) = List.length r0 /\ List.length (min_ sc) = List.length r0.
Proof.
  unfold fit; destruct X as [|r0 X']; [discriminate|].
  intros [= <-]; exists r0, X'; cbn [data_min_ data_max_ scale_ min_].
  repeat rewrite ?length_map, ?zipWith_length, ?length_seq, ?Nat.min_id. auto.
Qed.

Lemma transform_row_nth (sc : t) (r out : list float) (j : nat) (v s m : float) :
  transform_row sc r = Ok out -> nth_error r j = Some v ->
  nth_error (scale_ sc) j = Some s -> nth_error (min_ sc) j = Some m ->
  nth_error out j = Some (PrimFloat.add (PrimFloat.mul v s) m).
Proof.
  unfold transform_row; destruct Nat.eqb; [|discriminate].
  intros [= <-] Hv Hs Hm. rewrite !nth_error_zipWith, Hv, Hs, Hm. reflexivity.
Qed.

Lemma transform_Ok_rows (sc : t) (X S : list (list float)) :
  transform sc X = Ok S <-> X <> [] /\ mapM (transform_row sc) X = Ok S.
Proof.
  unfold transform. destruct X; split.
  - discriminate.
  - intros [H _]; congruence.
  - intros H; split; [discriminate | exact H].
  - intros [_ H]; exact H.
Qed.


Lemma In_codes (z : Z) : (0 <= z <= 100)%Z -> In z attribute_codes.
Proof.
  intros H. unfold attribute_codes. apply in_map_iff. exists (Z.to_nat z).
  split; [lia|]. apply in_seq. lia.
Qed.


Lemma code_order :
  forallb (fun a =>
             PrimFloat.is_finite (float_of_Z a)
             && forallb (fun b => Bool.eqb (PrimFloat.leb (float_of_Z a) (float_of_Z b)) (a <=? b)%Z)
                        attribute_codes)
          attribute_codes = true.
Proof. vm_compute. reflexivity. Qed.

Lemma all_code_increasing :
  forallb (fun zmin =>
             forallb (fun zmax => (zmax <? zmin)%Z || forallb (code_increasing zmin zmax) attribute_codes)
                     attribute_codes)
          attribute_codes = true.
Proof. vm_compute. reflexivity. Qed.


Lemma code_finite (z : Z) : (0 <= z <= 100)%Z -> finite (float_of_Z z).
Proof.
  intros Hz. pose proof code_order as H.
  rewrite forallb_forall in H. specialize (H z (In_codes z Hz)).
  apply andb_true_iff in H as [H _]. exact H.
Qed.

Lemma code_leb (a b : Z) :
  (0 <= a <= 100)%Z -> (0 <= b <= 100)%Z ->
  PrimFloat.leb (float_of_Z a) (float_of_Z b) = (a <=? b)%Z.
Proof.
  intros Ha Hb. pose proof code_order as H.
  rewrite forallb_forall in H. specialize (H a (In_codes a Ha)).
  apply andb_true_iff in H as [_ H].
  rewrite forallb_forall in H. specialize (H b (In_codes b Hb)).
  apply Bool.eqb_prop in H. exact H.
Qed.

Lemma code_increasing_true (zmin zmax z : Z) :
  (0 <= zmin <= zmax)%Z -> (zmax <= 100)%Z -> (0 <= z <= 100)%Z ->
  code_increasing zmin zmax z = true.
Proof.
  intros H1 H2 H3. pose proof all_code_increasing as H.
  rewrite forallb_forall in H. specialize (H zmin (In_codes zmin ltac:(lia))).
  rewrite forallb_forall in H. specialize (H zmax (In_codes zmax ltac:(lia))).
  apply orb_true_iff in H as [H|H]; [apply Z.ltb_lt in H; lia|].
  rewrite forallb_forall in H. exact (H z (In_codes z H3)).
Qed.

(** The entries of the fitted state for one feature of a column of finite
    values. *)
Lemma fit_feature (X : list (list float)) (sc : t) (j : nat) (fit_min fit_max : float) :
  fit X = Ok sc ->
  nth_error (data_min_ sc) j = Some fit_min ->
  nth_error (data_max_ sc) j = Some fit_max ->
  fit_min = amin (column j X) /\ fit_max = amax (column j X) /\ column j X <> [] /\
  nth_error (scale_ sc) j =
    Some (PrimFloat.div 1 (_handle_zeros_in_scale (PrimFloat.sub fit_max fit_min))) /\
  nth_error (min_ sc) j =
    Some (PrimFloat.sub 0
            (PrimFloat.mul fit_min
               (PrimFloat.div 1 (_handle_zeros_in_scale (PrimFloat.sub fit_max fit_min))))).
Proof.
  intros Hfit Hmin Hmax.
  destruct (fit_lengths X sc Hfit) as (r0 & X' & HX & Lmin & _).
  assert (Hj : (j < List.length r0)%nat).
  { rewrite <- Lmin; apply nth_error_Some; congruence. }
  destruct (scaler_fit_inv X sc Hfit) as (r0' & X'' & HX' & Hall).
  assert (r0' = r0) by congruence; subst r0'.
  destruct (Hall j Hj) as (Emin & Emax & Escale & Emin_).
  rewrite Emin in Hmin; injection Hmin as Hmin.
  rewrite Emax in Hmax; injection Hmax as Hmax.
  rewrite Hmin, Hmax in Escale, Emin_.
  change (PrimFloat.sub 1 0) with 1%float in Escale, Emin_.
  repeat split; auto. rewrite HX; discriminate.
Qed.

End MinMaxScalerFacts.

Import MinMaxScaler MinMaxScalerFacts.


(** For the ages 15 to 22 the images of the minimum and of the maximum are
    exactly 0 and 1. *)
Example binary64_ages :
  (do sc <- MinMaxScaler.fit [[15%float]; [22%float]];
   MinMaxScaler.transform sc [[15%float]; [22%float]])
  = Ok [[0%float]; [1%float]].
Proof. vm_compute; reflexivity. Qed.


(** ** OneHotEncoder and ColumnTransformer *)

Lemma cell_eqb_eq (a b : cell) : cell_eqb a b = true <-> a = b.
Proof.
  destruct a as [x|s], b as [y|t]; simpl; split; intros H; try discriminate.
  - apply Z.eqb_eq in H; congruence.
  - injection H as ->; apply Z.eqb_refl.
  - apply String.eqb_eq in H; congruence.
  - injection H as ->; apply String.eqb_refl.
Qed.

Lemma cell_eqb_refl (a : cell) : cell_eqb a a = true.
Proof. apply cell_eqb_eq; reflexivity. Qed.

Lemma existsb_cell_In (v : cell) (l : list cell) :
  existsb (cell_eqb v) l = true <-> In v l.
Proof.
  rewrite existsb_exists; split.
  - intros (x & Hx & E); apply cell_eqb_eq in E; subst; exact Hx.
  - intros H; exists v; split; [exact H | apply cell_eqb_refl].
Qed.

Lemma Forall2_nth_r {A B : Type} (P : A -> B -> Prop) (l : list A) (m : list B) (j : nat) (b : B) :
  Forall2 P l m -> nth_error m j = Some b -> exists a, nth_error l j = Some a /\ P a b.
Proof.
  intros H; revert j; induction H as [|x y l m Hxy _ IH]; intros [|j]; simpl; try discriminate.
  - intros [= ->]; eauto.
  - apply IH.
Qed.

Lemma Forall2_nth_l {A B : Type} (P : A -> B -> Prop) (l : list A) (m : list B) (j : nat) (a : A) :
  Forall2 P l m -> nth_error l j = Some a -> exists b, nth_error m j = Some b /\ P a b.
Proof.
  intros H; revert j; induction H as [|x y l m Hxy _ IH]; intros [|j]; simpl; try discriminate.
  - intros [= ->]; eauto.
  - apply IH.
Qed.

Module OneHotEncoderFacts.
Import OneHotEncoder.

Lemma string_ltb_lt (s t : string) : String.ltb s t = true <-> String_as_OT.lt s t.
Proof.
  unfold String.ltb; rewrite <- String_as_OT.cmp_lt; unfold String_as_OT.cmp.
  destruct (String.compare s t); split; congruence.
Qed.

Lemma cell_lt_trans (a b c : cell) : cell_lt a b -> cell_lt b c -> cell_lt a c.
Proof.
  unfold cell_lt; destruct a, b, c; simpl; try congruence.
  - rewrite !Z.ltb_lt; lia.
  - rewrite !string_ltb_lt; apply String_as_OT.lt_trans.
Qed.

Lemma cell_lt_neq (a b : cell) : cell_lt a b -> a <> b.
Proof.
  unfold cell_lt; destruct a, b; simpl; try congruence.
  - rewrite Z.ltb_lt; intros H [= E]; lia.
  - rewrite string_ltb_lt; intros H [= E]; revert E; apply String_as_OT.lt_not_eq, H.
Qed.

Lemma cell_lt_total (a b : cell) : cell_eqb a b = false -> cell_ltb a b = false -> cell_lt b a.
Proof.
  unfold cell_lt; destruct a as [x|s], b as [y|t]; simpl; try congruence.
  - rewrite Z.eqb_neq, Z.ltb_ge, Z.ltb_lt; lia.
  - unfold String.ltb; rewrite (String.compare_antisym t s).
    intros E; destruct (String.compare s t) eqn:C; simpl; try congruence.
    apply String.compare_eq_iff in C; subst; rewrite String.eqb_refl in E; discriminate.
Qed.

Lemma insert_In (x v : cell) (l : list cell) : In v (insert x l) <-> v = x \/ In v l.
Proof.
  induction l as [|y l IH]; simpl; [intuition congruence|].
  destruct (cell_eqb x y) eqn:E.
  - apply cell_eqb_eq in E; subst; simpl; intuition congruence.
  - destruct (cell_ltb x y); simpl; [intuition congruence|].
    rewrite IH; intuition congruence.
Qed.

Lemma insert_sorted (x : cell) (l : list cell) :
  StronglySorted cell_lt l -> StronglySorted cell_lt (insert x l).
Proof.
  induction 1 as [|y l Hs IH Hy]; simpl; [repeat constructor|].
  destruct (cell_eqb x y) eqn:E; [constructor; assumption|].
  destruct (cell_ltb x y) eqn:L.
  - constructor; [constructor; assumption|].
    constructor; [exact L|].
    eapply Forall_impl; [|exact Hy]. intros z; apply cell_lt_trans; exact L.
  - constructor; [exact IH|].
    apply Forall_forall; intros z Hz; apply insert_In in Hz as [->|Hz].
    + apply cell_lt_total; assumption.
    + rewrite Forall_forall in Hy; auto.
Qed.

Lemma sorted_NoDup (l : list cell) : StronglySorted cell_lt l -> NoDup l.
Proof.
  induction 1 as [|y l Hs IH Hy]; constructor; [|exact IH].
  intros Hin; rewrite Forall_forall in Hy; apply (cell_lt_neq y y); auto.
Qed.

Lemma uniques_sorted (col : list cell) : StronglySorted cell_lt (fold_right insert [] col).
Proof. induction col; simpl; [constructor | apply insert_sorted; assumption]. Qed.

Lemma uniques_In (col : list cell) (v : cell) : In v (fold_right insert [] col) <-> In v col.
Proof.
  induction col as [|x col IH]; simpl; [tauto|].
  rewrite insert_In, IH; intuition congruence.
Qed.

(** The fitted categories of a column are its distinct values, in
    increasing order. *)
Lemma encode_spec (col cats : list cell) :
  _encode col = Ok cats ->
  StronglySorted cell_lt cats /\ NoDup cats /\ forall v, In v cats <-> In v col.
Proof.
  unfold _encode; destruct col as [|x xs].
  - intros [= <-]; repeat split; try constructor; auto.
  - destruct (forallb (same_kind x) xs); [|discriminate].
    intros [= <-]; split; [apply (uniques_sorted (x :: xs))|].
    split; [apply sorted_NoDup, (uniques_sorted (x :: xs)) | intros v; apply (uniques_In (x :: xs))].
Qed.

Lemma encoder_fit_inv (X : list (list cell)) (enc : t) :
  fit X = Ok enc ->
  exists r0 X', X = r0 :: X' /\
    List.length (categories_ enc) = List.length r0 /\
    drop_idx_ enc = map if_binary (categories_ enc) /\
    forall j cats, nth_error (categories_ enc) j = Some cats ->
      (j < List.length r0)%nat /\ _encode (column j X) = Ok cats.
Proof.
  unfold fit; destruct X as [|r0 X']; [discriminate|].
  intros H; apply bind_Ok in H as (cats & Hc & [= <-]); cbn [categories_ drop_idx_].
  exists r0, X'; split; [reflexivity|].
  split; [rewrite (mapM_length _ _ _ Hc), length_seq; reflexivity|].
  split; [reflexivity|].
  intros j cs Hj.
  assert (Lj : (j < List.length r0)%nat).
  { rewrite <- (length_seq (List.length r0) 0), <- (mapM_length _ _ _ Hc).
    apply nth_error_Some; congruence. }
  split; [exact Lj|].
  apply mapM_Ok in Hc.
  destruct (Forall2_nth_r _ _ _ _ _ Hc Hj) as (j' & Hj' & E).
  rewrite nth_error_nth' with (d := 0%nat) in Hj' by (rewrite length_seq; exact Lj).
  rewrite seq_nth in Hj' by exact Lj. injection Hj' as <-. exact E.
Qed.

Lemma encode_cells_Ok (r : list cell) (cds : list (list cell * option nat)) (blocks : list (list float)) :
  encode_cells r cds = Ok blocks ->
  blocks = zipWith (fun v cd => map (fun c => if cell_eqb v c then 1%float else 0%float) (kept (fst cd) (snd cd))) r cds /\
  forall j v cd, nth_error r j = Some v -> nth_error cds j = Some cd -> In v (fst cd).
Proof.
  revert cds blocks; induction r as [|v r IH]; intros [|[cats d] cds] blocks; simpl;
    try (intros [= <-]; split; [reflexivity | intros [|j]; simpl; discriminate]).
  intros H; apply bind_Ok in H as (b & Hb & H); apply bind_Ok in H as (bs & Hbs & [= <-]).
  unfold encode_value in Hb.
  destruct (existsb (cell_eqb v) cats) eqn:E; [|discriminate]. injection Hb as <-.
  destruct (IH _ _ Hbs) as [-> Hall]; split; [reflexivity|].
  intros [|j] v' cd; simpl.
  - intros [= <-] [= <-]; simpl; apply existsb_cell_In, E.
  - apply Hall.
Qed.

Lemma transform_row_Ok (enc : t) (r : list cell) (out : list float) :
  transform_row enc r = Ok out ->
  List.length r = List.length (categories_ enc) /\
  out = List.concat (zipWith (fun v cd => map (fun c => if cell_eqb v c then 1%float else 0%float) (kept (fst cd) (snd cd)))
                             r (combine (categories_ enc) (drop_idx_ enc))) /\
  forall j v cats, nth_error r j = Some v -> nth_error (categories_ enc) j = Some cats ->
                   List.length (drop_idx_ enc) = List.length (categories_ enc) -> In v cats.
Proof.
  unfold transform_row; destruct (Nat.eqb _ _) eqn:L; [|discriminate].
  apply Nat.eqb_eq in L. intros H; apply bind_Ok in H as (blocks & Hb & [= <-]).
  destruct (encode_cells_Ok _ _ _ Hb) as [-> Hall]; split; [exact L|]. split; [reflexivity|].
  intros j v cats Hv Hc Hlen.
  destruct (nth_error (drop_idx_ enc) j) as [d|] eqn:Hd.
  - apply (Hall j v (cats, d) Hv).
    clear - Hc Hd. revert j Hc Hd. generalize (drop_idx_ enc) as ds.
    induction (categories_ enc) as [|c cs IH]; intros [|d' ds] [|j]; simpl; try discriminate.
    + intros [= ->] [= ->]; reflexivity.
    + apply IH.
  - apply nth_error_None in Hd.
    assert (j < List.length (categories_ enc))%nat by (apply nth_error_Some; congruence). lia.
Qed.
End OneHotEncoderFacts.

Lemma Forall2_In_r {A B : Type} (P : A -> B -> Prop) (l : list A) (m : list B) (b : B) :
  Forall2 P l m -> In b m -> exists a, In a l /\ P a b.
Proof.
  induction 1 as [|x y l m Hxy _ IH]; simpl; [tauto|].
  intros [<-|Hb]; [eauto|]. destruct (IH Hb) as (a & Ha & Pa); eauto.
Qed.

Lemma Forall2_In_l {A B : Type} (P : A -> B -> Prop) (l : list A) (m : list B) (a : A) :
  Forall2 P l m -> In a l -> exists b, In b m /\ P a b.
Proof.
  induction 1 as [|x y l m Hxy _ IH]; simpl; [tauto|].
  intros [<-|Ha]; [eauto|]. destruct (IH Ha) as (b & Hb & Pb); eauto.
Qed.

Lemma mapM_bind {A B C : Type} (f : A -> result B) (g : B -> result C) (l : list A) (n : list C) :
  mapM (fun a => bind (f a) g) l = Ok n <->
  exists m, mapM f l = Ok m /\ mapM g m = Ok n.
Proof.
  revert n; induction l as [|a l IH]; simpl; intros n.
  - split; [intros [= <-]; exists []; auto | intros (m & [= <-] & H); exact H].
  - split.
    + intros H. apply bind_Ok in H as (c & Hc & H). apply bind_Ok in H as (cs & Hcs & [= <-]).
      apply bind_Ok in Hc as (b & Hb & Hg). apply IH in Hcs as (m & Hm & Hgm).
      exists (b :: m); rewrite Hb, Hm; simpl; rewrite Hg, Hgm; auto.
    + intros (m & Hm & Hn). apply bind_Ok in Hm as (b & Hb & Hm).
      apply bind_Ok in Hm as (bs & Hbs & [= <-]). simpl in Hn.
      apply bind_Ok in Hn as (c & Hc & Hn). apply bind_Ok in Hn as (cs & Hcs & [= <-]).
      rewrite Hb; simpl; rewrite Hc; simpl.
      rewrite (proj2 (IH cs)) by eauto. reflexivity.
Qed.

Lemma mapM_zip {A B C D : Type} (f : A -> result B) (g : A -> result C) (h : B -> C -> D)
      (l : list A) (n : list D) :
  mapM (fun a => bind (f a) (fun x => bind (g a) (fun y => Ok (h x y)))) l = Ok n <->
  exists m1 m2, mapM f l = Ok m1 /\ mapM g l = Ok m2 /\ n = zipWith h m1 m2.
Proof.
  revert n; induction l as [|a l IH]; simpl; intros n.
  - split; [intros [= <-]; exists [], []; auto | intros (m1 & m2 & [= <-] & [= <-] & ->); reflexivity].
  - split.
    + intros H. apply bind_Ok in H as (d & Hd & H). apply bind_Ok in H as (ds & Hds & [= <-]).
      apply bind_Ok in Hd as (x & Hx & Hd). apply bind_Ok in Hd as (y & Hy & [= <-]).
      apply IH in Hds as (m1 & m2 & H1 & H2 & ->).
      exists (x :: m1), (y :: m2); rewrite Hx, Hy, H1, H2; auto.
    + intros (m1 & m2 & H1 & H2 & ->).
      apply bind_Ok in H1 as (x & Hx & H1). apply bind_Ok in H1 as (xs & Hxs & [= <-]).
      apply bind_Ok in H2 as (y & Hy & H2). apply bind_Ok in H2 as (ys & Hys & [= <-]).
      rewrite Hx, Hy; simpl. rewrite (proj2 (IH (zipWith h xs ys))) by eauto. reflexivity.
Qed.

Module ColumnTransformerFacts.
Import ColumnTransformer.

Lemma select_Ok (names : list string) (df : DataFrame) (Xc : list (list cell)) :
  select names df = Ok Xc -> Forall2 (picks names df) (rows df) Xc.
Proof.
  unfold select; destruct (forallb _ _); [|discriminate]. apply mapM_Ok.
Qed.

Lemma select_has_columns (names : list string) (df : DataFrame) (Xc : list (list cell)) :
  select names df = Ok Xc -> forallb (has_column df) names = true.
Proof. unfold select; destruct (forallb _ _); [reflexivity | discriminate]. Qed.

Lemma picks_nth (names : list string) (df : DataFrame) (r : Row) (cs : list cell) :
  picks names df r cs ->
  List.length cs = List.length names /\
  forall j name, nth_error names j = Some name ->
    exists v, nth_error cs j = Some v /\ row_get (columns df) name r = Ok v.
Proof.
  unfold picks; intros H; split; [eapply mapM_length; eauto|].
  intros j name Hj; destruct (mapM_nth_error _ _ _ _ _ H Hj) as (v & Hv & Hg); eauto.
Qed.

(** Column [j] of the selected block holds the values the rows have under
    the [j]-th selected name. *)
Lemma select_column (names : list string) (df : DataFrame) (Xc : list (list cell))
      (j : nat) (name : string) (v : cell) :
  select names df = Ok Xc -> nth_error names j = Some name ->
  (In v (OneHotEncoder.column j Xc) <->
   exists r, In r (rows df) /\ row_get (columns df) name r = Ok v).
Proof.
  intros Hs Hj; apply select_Ok in Hs; unfold OneHotEncoder.column; rewrite in_map_iff; split.
  - intros (cs & E & Hcs).
    destruct (Forall2_In_r _ _ _ _ Hs Hcs) as (r & Hr & Hp).
    destruct (picks_nth _ _ _ _ Hp) as [_ Hn]. destruct (Hn j name Hj) as (v' & Hv' & Hg).
    exists r; split; [exact Hr|]. rewrite (nth_error_nth _ _ _ Hv') in E. congruence.
  - intros (r & Hr & Hg).
    destruct (Forall2_In_l _ _ _ _ Hs Hr) as (cs & Hcs & Hp).
    destruct (picks_nth _ _ _ _ Hp) as [_ Hn]. destruct (Hn j name Hj) as (v' & Hv' & Hg').
    exists cs; split; [|exact Hcs]. rewrite (nth_error_nth _ _ _ Hv'). congruence.
Qed.

(** ** The frame seen at fit time *)

Lemma get_loc_Some (name : string) (cols : list string) :
  (exists i, get_loc name cols = Some i) <-> existsb (String.eqb name) cols = true.
Proof.
  induction cols as [|c cols IH]; simpl.
  - split; [intros [i H]; discriminate | discriminate].
  - rewrite (String.eqb_sym name c). destruct (String.eqb c name); simpl; [split; eauto|].
    rewrite <- IH. destruct (get_loc name cols); simpl; split; eauto.
Qed.

Lemma get_column_indices_Ok (df : DataFrame) (names : list string) :
  (exists idx, _get_column_indices df names = Ok idx) <-> forallb (has_column df) names = true.
Proof.
  unfold _get_column_indices. induction names as [|name names IH]; simpl; [split; eauto|].
  rewrite andb_true_iff, <- IH. unfold has_column at 1. rewrite <- get_loc_Some. split.
  - intros [idx H]. apply bind_Ok in H as (i & Hi & H). apply bind_Ok in H as (is_ & His & _).
    destruct (get_loc name (columns df)); [eauto | discriminate].
  - intros [[i ->] [idx ->]]. simpl; eauto.
Qed.

Lemma validate_remainder_Ok (num_cols nom_cols : list string) (df : DataFrame) :
  (exists remaining, _validate_remainder num_cols nom_cols df = Ok remaining) <->
  forallb (has_column df) num_cols = true /\ forallb (has_column df) nom_cols = true.
Proof.
  unfold _validate_remainder. rewrite <- !get_column_indices_Ok. split.
  - intros [remaining H]. apply bind_Ok in H as (a & Ha & H). apply bind_Ok in H as (b & Hb & _).
    eauto.
  - intros [[a ->] [b ->]]. simpl; eauto.
Qed.

(** What a successful [fit] went through, and what it recorded. *)
Lemma fit_inv (num_cols nom_cols : list string) (df : DataFrame) (ct : t) :
  fit num_cols nom_cols df = Ok ct ->
  exists Xn Sn Xc Sc,
    _validate_remainder num_cols nom_cols df = Ok (_remainder ct) /\
    select_float num_cols df = Ok Xn /\ MinMaxScaler.fit Xn = Ok (numeric ct) /\
    MinMaxScaler.transform (numeric ct) Xn = Ok Sn /\
    select nom_cols df = Ok Xc /\ OneHotEncoder.fit Xc = Ok (nominal ct) /\
    OneHotEncoder.transform (nominal ct) Xc = Ok Sc /\
    _n_features ct = width df /\ _df_columns ct = columns df /\
    sparse_output_ ct = _sparse_output Sn Sc.
Proof.
  unfold fit; intros H.
  apply bind_Ok in H as (remaining & Hrem & H).
  apply bind_Ok in H as (Xn & HXn & H). apply bind_Ok in H as (sc & Hsc & H).
  apply bind_Ok in H as (Sn & HSn & H).
  apply bind_Ok in H as (Xc & HXc & H). apply bind_Ok in H as (enc & Henc & H).
  apply bind_Ok in H as (Sc & HSc & [= <-]).
  exists Xn, Sn, Xc, Sc; cbn [numeric nominal _n_features _df_columns _remainder sparse_output_].
  repeat split; auto.
Qed.

Lemma fit_Ok (num_cols nom_cols : list string) (df : DataFrame) (ct : t) :
  fit num_cols nom_cols df = Ok ct ->
  exists Xn Xc,
    select_float num_cols df = Ok Xn /\ MinMaxScaler.fit Xn = Ok (numeric ct) /\
    select nom_cols df = Ok Xc /\ OneHotEncoder.fit Xc = Ok (nominal ct).
Proof.
  intros H. destruct (fit_inv _ _ _ _ H) as (Xn & Sn & Xc & Sc & _ & HXn & Hsc & _ & HXc & Henc & _).
  exists Xn, Xc; auto.
Qed.

Lemma fit_frame (num_cols nom_cols : list string) (df : DataFrame) (ct : t) :
  fit num_cols nom_cols df = Ok ct ->
  _n_features ct = width df /\ _df_columns ct = columns df.
Proof.
  intros H. destruct (fit_inv _ _ _ _ H) as (Xn & Sn & Xc & Sc & _ & _ & _ & _ & _ & _ & _ & H1 & H2 & _).
  auto.
Qed.

(** A frame whose leading columns are named as at fit time is not taken as
    reordered. *)
Lemma same_names (l : list string) :
  existsb (fun p => negb (String.eqb (fst p) (snd p))) (combine l l) = false.
Proof.
  induction l as [|c l IH]; simpl; [reflexivity|]. rewrite String.eqb_refl, IH. reflexivity.
Qed.

Lemma leading_columns (ct : t) (df : DataFrame) :
  firstn (List.length (_df_columns ct)) (columns df) = _df_columns ct ->
  reordered ct df = false.
Proof.
  intros H. unfold reordered. destruct (_remainder ct); [reflexivity|].
  rewrite H, same_names. apply andb_false_r.
Qed.

(** A column added at the end changes no verdict on a frame that has the
    fit-time width. *)
Lemma reordered_app (ct : t) (cols more : list string) (rs1 rs2 : list Row) :
  (List.length (_df_columns ct) <= List.length cols)%nat ->
  reordered ct (mkFrame (cols ++ more) rs1) = reordered ct (mkFrame cols rs2).
Proof.
  intros H. unfold reordered, width; cbn [columns].
  destruct (_remainder ct); [reflexivity|].
  rewrite firstn_app. replace (List.length (_df_columns ct) - List.length cols)%nat with 0%nat by lia.
  rewrite firstn_O, app_nil_r, length_app.
  rewrite (proj2 (Nat.leb_le _ _) H), (proj2 (Nat.leb_le _ _)) by lia. reflexivity.
Qed.

(** ** What a successful [transform] went through *)

Lemma encoder_transform_rows (enc : OneHotEncoder.t) (X : list (list cell)) (S : list (list float)) :
  OneHotEncoder.transform enc X = Ok S <-> X <> [] /\ mapM (OneHotEncoder.transform_row enc) X = Ok S.
Proof.
  unfold OneHotEncoder.transform. destruct X; split.
  - discriminate.
  - intros [H _]; congruence.
  - intros H; split; [discriminate | exact H].
  - intros [_ H]; exact H.
Qed.

Lemma transform_checks (num_cols nom_cols : list string) (ct : t) (df : DataFrame)
      (M : list (list float)) :
  transform num_cols nom_cols ct df = Ok M ->
  (_n_features ct <= width df)%nat /\ reordered ct df = false.
Proof.
  unfold transform. destruct (Nat.ltb_spec (width df) (_n_features ct)); [discriminate|].
  destruct (reordered ct df); [discriminate | auto].
Qed.

Lemma transform_Ok (num_cols nom_cols : list string) (ct : t) (df : DataFrame) (M : list (list float)) :
  transform num_cols nom_cols ct df = Ok M ->
  exists Xn Sn Xc Sc,
    select_float num_cols df = Ok Xn /\ MinMaxScaler.transform (numeric ct) Xn = Ok Sn /\
    select nom_cols df = Ok Xc /\ OneHotEncoder.transform (nominal ct) Xc = Ok Sc /\
    M = zipWith (@app float) Sn Sc.
Proof.
  unfold transform; intros H.
  destruct (Nat.ltb (width df) (_n_features ct)); [discriminate|].
  destruct (reordered ct df); [discriminate|].
  apply bind_Ok in H as (Xn & HXn & H). apply bind_Ok in H as (Sn & HSn & H).
  apply bind_Ok in H as (Xc & HXc & H). apply bind_Ok in H as (Sc & HSc & [= <-]).
  exists Xn, Sn, Xc, Sc; auto.
Qed.

(** What the fitted encoder knows about the [j]-th nominal column: its
    categories are the distinct values of the column in the training
    table. *)
Lemma fit_categories (num_cols nom_cols : list string) (df : DataFrame) (ct : t) :
  fit num_cols nom_cols df = Ok ct ->
  List.length (OneHotEncoder.categories_ (nominal ct)) = List.length nom_cols /\
  OneHotEncoder.drop_idx_ (nominal ct) = map OneHotEncoder.if_binary (OneHotEncoder.categories_ (nominal ct)) /\
  forall j name cats,
    nth_error nom_cols j = Some name ->
    nth_error (OneHotEncoder.categories_ (nominal ct)) j = Some cats ->
    StronglySorted OneHotEncoder.cell_lt cats /\
    NoDup cats /\
    forall v, In v cats <-> exists r, In r (rows df) /\ row_get (columns df) name r = Ok v.
Proof.
  intros H; destruct (fit_Ok _ _ _ _ H) as (Xn & Xc & _ & _ & HXc & Henc).
  destruct (OneHotEncoderFacts.encoder_fit_inv _ _ Henc) as (r0 & X' & -> & Hlen & Hdrop & Hcats).
  pose proof (select_Ok _ _ _ HXc) as HF.
  assert (Hr0 : List.length r0 = List.length nom_cols).
  { inversion HF as [|r c rs cs Hp _]; subst. apply (picks_nth nom_cols df r r0 Hp). }
  split; [congruence|]. split; [exact Hdrop|].
  intros j name cats Hj Hc. destruct (Hcats j cats Hc) as [_ He].
  destruct (OneHotEncoderFacts.encode_spec _ _ He) as (Hsorted & Hnd & Hin).
  split; [exact Hsorted|]. split; [exact Hnd|]. intros v; rewrite Hin. exact (select_column nom_cols df _ j name v HXc Hj).
Qed.

Lemma unseen_category (num_cols nom_cols : list string) (Xtrain X : DataFrame) (ct : t)
      (j : nat) (name : string) (r : Row) (v : cell) :
  fit num_cols nom_cols Xtrain = Ok ct ->
  nth_error nom_cols j = Some name ->
  In r (rows X) -> row_get (columns X) name r = Ok v ->
  (forall r', In r' (rows Xtrain) -> row_get (columns Xtrain) name r' <> Ok v) ->
  exists e, transform num_cols nom_cols ct X = Raise e.
Proof.
  intros Hfit Hj Hr Hv Hunseen.
  destruct (transform num_cols nom_cols ct X) as [M|e] eqn:T; [exfalso | eauto].
  destruct (transform_Ok _ _ _ _ _ T) as (Xn & Sn & Xc & Sc & _ & _ & HXc & HSc & _).
  destruct (fit_categories _ _ _ _ Hfit) as (Hlen & Hdrop & Hcats).
  destruct (Forall2_In_l _ _ _ _ (select_Ok _ _ _ HXc) Hr) as (cs & Hcs & Hp).
  destruct (picks_nth _ _ _ _ Hp) as [Hl Hn]. destruct (Hn j name Hj) as (v' & Hv' & Hg).
  assert (v' = v) by congruence; subst v'.
  apply encoder_transform_rows in HSc as [_ HSc].
  destruct (Forall2_In_l _ _ _ _ (mapM_Ok _ _ _ HSc) Hcs) as (out & _ & Hout).
  destruct (OneHotEncoderFacts.transform_row_Ok _ _ _ Hout) as (Hl' & _ & Hin).
  destruct (nth_error (OneHotEncoder.categories_ (nominal ct)) j) as [cats|] eqn:Hc.
  - specialize (Hin j v cats Hv' Hc). rewrite Hdrop, length_map in Hin. specialize (Hin eq_refl).
    apply (proj2 (proj2 (Hcats j name cats Hj Hc))) in Hin as (r' & Hr' & Hg').
    exact (Hunseen r' Hr' Hg').
  - apply nth_error_None in Hc.
    assert (j < List.length nom_cols)%nat by (apply nth_error_Some; congruence). lia.
Qed.

Lemma mapM_nil {A B : Type} (f : A -> result B) (l : list A) (m : list B) :
  mapM f l = Ok m -> (m = [] <-> l = []).
Proof.
  intros H. apply mapM_length in H. destruct l, m; simpl in H; split; congruence.
Qed.

(** A [transform] that returns has passed the two checks on the frame, has
    found every selected column and at least one row, and yields the rows
    [transform_row] makes. *)
Lemma transform_rowwise (num_cols nom_cols : list string) (ct : t) (df : DataFrame) (M : list (list float)) :
  transform num_cols nom_cols ct df = Ok M <->
  (_n_features ct <= width df)%nat /\ reordered ct df = false /\
  forallb (has_column df) num_cols = true /\ forallb (has_column df) nom_cols = true /\
  rows df <> [] /\
  mapM (transform_row num_cols nom_cols ct (columns df)) (rows df) = Ok M.
Proof.
  split.
  - intros H. destruct (transform_checks _ _ _ _ _ H) as [Hw Ho].
    destruct (transform_Ok _ _ _ _ _ H) as (Xn & Sn & Xc & Sc & HXn & HSn & HXc & HSc & ->).
    unfold select_float in HXn. apply bind_Ok in HXn as (Xn0 & HXn0 & HXn).
    apply MinMaxScalerFacts.transform_Ok_rows in HSn as [Hne HSn].
    apply encoder_transform_rows in HSc as [_ HSc].
    split; [exact Hw|]. split; [exact Ho|].
    split; [exact (select_has_columns _ _ _ HXn0)|].
    split; [exact (select_has_columns _ _ _ HXc)|].
    unfold select in HXn0, HXc.
    destruct (forallb (has_column df) num_cols); [|discriminate].
    destruct (forallb (has_column df) nom_cols); [|discriminate].
    split.
    { intros E. apply Hne. apply (proj2 (mapM_nil _ _ _ HXn)), (proj2 (mapM_nil _ _ _ HXn0)), E. }
    unfold transform_row.
    apply mapM_zip. exists Sn, Sc. split; [|split; [|reflexivity]].
    + apply mapM_bind. exists Xn. split; [|exact HSn].
      apply mapM_bind. exists Xn0. auto.
    + apply mapM_bind. exists Xc. auto.
  - intros (Hw & Ho & Hn & Hc & Hne & H). unfold transform.
    rewrite (proj2 (Nat.ltb_ge _ _) Hw), Ho. unfold select_float, select. rewrite Hn, Hc.
    unfold transform_row in H.
    apply mapM_zip in H as (Sn & Sc & H1 & H2 & ->).
    apply mapM_bind in H1 as (Xn & H1 & HSn). apply mapM_bind in H1 as (Xn0 & HXn0 & HXn).
    apply mapM_bind in H2 as (Xc & HXc & HSc).
    rewrite HXn0; cbn [bind]. rewrite HXn; cbn [bind].
    rewrite (proj2 (MinMaxScalerFacts.transform_Ok_rows _ Xn Sn)); cbn [bind].
    + rewrite HXc; cbn [bind].
      rewrite (proj2 (encoder_transform_rows _ Xc Sc)); [reflexivity|].
      split; [|exact HSc]. intros E. apply Hne. apply (proj1 (mapM_nil _ _ _ HXc)), E.
    + split; [|exact HSn]. intros E. apply Hne.
      apply (proj1 (mapM_nil _ _ _ HXn0)), (proj1 (mapM_nil _ _ _ HXn)), E.
Qed.

(** Two rows that agree on the selected columns transform alike. *)
Lemma transform_row_agree (num_cols nom_cols : list string) (ct : t)
      (cols1 cols2 : list string) (r1 r2 : Row) :
  (forall name, In name (num_cols ++ nom_cols) -> row_get cols1 name r1 = row_get cols2 name r2) ->
  transform_row num_cols nom_cols ct cols1 r1 = transform_row num_cols nom_cols ct cols2 r2.
Proof.
  intros H; unfold transform_row.
  rewrite (mapM_ext (fun name => row_get cols1 name r1) (fun name => row_get cols2 name r2) num_cols)
    by (intros; apply H, in_or_app; auto).
  rewrite (mapM_ext (fun name => row_get cols1 name r1) (fun name => row_get cols2 name r2) nom_cols)
    by (intros; apply H, in_or_app; auto).
  reflexivity.
Qed.

(** The rows of a transformed table are the transformed rows. *)
Lemma transform_nth (num_cols nom_cols : list string) (ct : t) (df : DataFrame)
      (M : list (list float)) :
  transform num_cols nom_cols ct df = Ok M ->
  List.length M = List.length (rows df) /\
  forall i r, nth_error (rows df) i = Some r ->
    exists f, nth_error M i = Some f /\
              transform_row num_cols nom_cols ct (columns df) r = Ok f.
Proof.
  intros H; apply transform_rowwise in H as (_ & _ & _ & _ & _ & H).
  split; [eapply mapM_length; eauto|].
  intros i r Hr; eapply mapM_nth_error; eauto.
Qed.

End ColumnTransformerFacts.
Import ColumnTransformer ColumnTransformerFacts.

(** C1.  A row whose value in a nominal column was not observed when the
    transformer was fit makes the transform raise: it yields no encoding at
    all, in the batch notebook ([ct.transform]) and in the served script
    ([predict_fn]) alike.  The served preprocessor is the same
    [ColumnTransformer], fit on the concatenated training files. *)
Theorem unseen_category_rejected (Xtrain X : DataFrame) (ct : ColumnTransformer.t)
        (name : string) (r : Row) (v : cell) :
  DataPreprocessing.ct_fit Xtrain = Ok ct ->
  In name DataPreprocessing.nominal_cols_to_keep ->
  In r (rows X) ->
  row_get (columns X) name r = Ok v ->
  (forall r', In r' (rows Xtrain) -> row_get (columns Xtrain) name r' <> Ok v) ->
  (exists e, DataPreprocessing.ct_transform ct X = Raise e) /\
  (exists e, sagemaker_preprocessing.predict_fn X ct = Raise e).
Proof.
  intros Hfit Hname Hr Hv Hunseen.
  apply In_nth_error in Hname as [j Hj].
  destruct (unseen_category _ _ Xtrain X ct j name r v Hfit Hj Hr Hv Hunseen) as [e He].
  split; [exists e; exact He|].
  exists e. unfold sagemaker_preprocessing.predict_fn, sagemaker_preprocessing.transform.
  apply bind_Raise. exact He.
Qed.

Lemma unseen_category_rejected_witness :
  exists ct, DataPreprocessing.ct_fit train_features = Ok ct /\
    (exists e, DataPreprocessing.ct_transform ct request_unseen = Raise e) /\
    (exists e, sagemaker_preprocessing.predict_fn request_unseen ct = Raise e).
Proof.
  eexists; split; [vm_compute; reflexivity|].
  eapply (unseen_category_rejected train_features request_unseen _ "Fjob" _ (Str "health")).
  - vm_compute; reflexivity.
  - simpl; auto.
  - left; reflexivity.
  - reflexivity.
  - intros r' Hr'; vm_compute in Hr'.
    destruct Hr' as [<-|[<-|[<-|[]]]]; vm_compute; discriminate.
Defined.

Lemma indicators_kept (cats : list cell) (v : cell) :
  map (fun c => if cell_eqb v c then 1%float else 0%float) (OneHotEncoder.kept cats (OneHotEncoder.if_binary cats))
  = indicators cats v.
Proof.
  unfold indicators, OneHotEncoder.kept, OneHotEncoder.if_binary.
  destruct (Nat.eqb (List.length cats) 2); [|reflexivity].
  unfold OneHotEncoder.delete; simpl. destruct cats; reflexivity.
Qed.

Lemma zip_indicators (vals : list cell) (cats : list (list cell)) :
  zipWith (fun v cd => map (fun c => if cell_eqb v c then 1%float else 0%float)
                           (OneHotEncoder.kept (fst cd) (snd cd)))
          vals (combine cats (map OneHotEncoder.if_binary cats))
  = zipWith indicators cats vals.
Proof.
  revert cats; induction vals as [|v vals IH]; intros [|cs cats]; simpl; try reflexivity.
  rewrite indicators_kept, IH; reflexivity.
Qed.

Lemma indicators_length (cats : list cell) (v : cell) :
  List.length (indicators cats v) = indicator_width (List.length cats).
Proof.
  unfold indicators, indicator_width; rewrite length_map.
  destruct (Nat.eqb (List.length cats) 2) eqn:E; [|reflexivity].
  apply Nat.eqb_eq in E. destruct cats as [|a [|b [|c l]]]; simpl in *; congruence.
Qed.

Lemma concat_indicators_length (cats : list (list cell)) (vals : list cell) :
  List.length vals = List.length cats ->
  List.length (List.concat (zipWith indicators cats vals))
  = list_sum (map (fun cs => indicator_width (List.length cs)) cats).
Proof.
  revert vals; induction cats as [|cs cats IH]; intros [|v vals]; simpl; try discriminate; auto.
  intros [= H]. rewrite length_app, indicators_length, IH by exact H. reflexivity.
Qed.

(** ** A fitted transformer accepts the rows it knows *)

Lemma mapM_all_Ok {A B : Type} (f : A -> result B) (l : list A) :
  (forall a, In a l -> exists b, f a = Ok b) -> exists m, mapM f l = Ok m.
Proof.
  induction l as [|a l IH]; intros H; simpl; [eauto|].
  destruct (H a (or_introl eq_refl)) as [b ->].
  destruct IH as [m ->]; [intros; apply H; right; assumption|].
  simpl; eauto.
Qed.

Lemma encode_cells_accepts (r : list cell) (cds : list (list cell * option nat)) :
  (forall j v cd, nth_error r j = Some v -> nth_error cds j = Some cd -> In v (fst cd)) ->
  exists blocks, OneHotEncoder.encode_cells r cds = Ok blocks.
Proof.
  revert cds; induction r as [|v r IH]; intros [|cd cds] H; simpl; eauto.
  pose proof (H 0%nat v cd eq_refl eq_refl) as Hin.
  destruct cd as [cats d]; simpl in Hin. unfold OneHotEncoder.encode_value.
  rewrite (proj2 (existsb_cell_In v cats) Hin); simpl.
  destruct (IH cds) as [bs ->]; [intros j; apply (H (S j))|]. simpl; eauto.
Qed.

Lemma select_float_Ok (names : list string) (df : DataFrame) (Xn : list (list float)) :
  ColumnTransformer.select_float names df = Ok Xn ->
  forallb (has_column df) names = true /\
  Forall2 (fun r fs => List.length fs = List.length names /\
                       forall name, In name names -> exists z, row_get (columns df) name r = Ok (Num z))
          (rows df) Xn.
Proof.
  unfold ColumnTransformer.select_float. intros H. apply bind_Ok in H as (X & HX & H).
  assert (Hc : forallb (has_column df) names = true).
  { unfold ColumnTransformer.select in HX. destruct (forallb _ names); [reflexivity | discriminate]. }
  split; [exact Hc|].
  apply ColumnTransformerFacts.select_Ok in HX. apply mapM_Ok in H.
  revert Xn H. induction HX as [|r cs rs X Hp _ IH]; intros Xn H; inversion H; subst; constructor; auto.
  match goal with H : mapM ColumnTransformer.to_float cs = Ok _ |- _ => rename H into Hf end.
  destruct (ColumnTransformerFacts.picks_nth _ _ _ _ Hp) as [Lc Hn].
  split; [rewrite (mapM_length _ _ _ Hf); exact Lc|].
  intros name Hin. apply In_nth_error in Hin as [j Hj].
  destruct (Hn j name Hj) as (v & Hv & Hg).
  destruct (mapM_nth_error _ _ _ _ _ Hf Hv) as (q & _ & Hq).
  destruct v as [z|s]; [eauto | discriminate Hq].
Qed.

Lemma fit_scale_length (num_cols nom_cols : list string) (df : DataFrame) (ct : ColumnTransformer.t) :
  ColumnTransformer.fit num_cols nom_cols df = Ok ct ->
  List.length (MinMaxScaler.scale_ (ColumnTransformer.numeric ct)) = List.length num_cols /\
  List.length (MinMaxScaler.min_ (ColumnTransformer.numeric ct)) = List.length num_cols.
Proof.
  intros Hfit. destruct (ColumnTransformerFacts.fit_Ok _ _ _ _ Hfit) as (Xn & Xc & HXn & Hsc & _ & _).
  destruct (MinMaxScalerFacts.fit_lengths _ _ Hsc) as (r0 & X' & -> & _ & _ & Ls & Lm).
  apply select_float_Ok in HXn as [_ HXn]. inversion HXn as [|r fs rs Xs [L _] _]; subst.
  rewrite Ls, Lm, L; auto.
Qed.

Lemma transform_row_accepts (num_cols nom_cols : list string) (Xtrain : DataFrame)
      (ct : ColumnTransformer.t) (cols : list string) (r : Row) :
  ColumnTransformer.fit num_cols nom_cols Xtrain = Ok ct ->
  (forall name, In name num_cols -> exists z, row_get cols name r = Ok (Num z)) ->
  (forall name, In name nom_cols ->
     exists v r', row_get cols name r = Ok v /\
                  In r' (rows Xtrain) /\ row_get (columns Xtrain) name r' = Ok v) ->
  exists f, ColumnTransformer.transform_row num_cols nom_cols ct cols r = Ok f.
Proof.
  intros Hfit Hnum Hnom. unfold ColumnTransformer.transform_row.
  destruct (mapM_all_Ok (fun name => row_get cols name r) num_cols) as [cs Hcs].
  { intros name Hin; destruct (Hnum name Hin) as [z ->]; eauto. }
  rewrite Hcs; cbn [bind].
  destruct (mapM_all_Ok ColumnTransformer.to_float cs) as [fs Hfs].
  { intros c Hin. apply In_nth_error in Hin as [j Hj].
    destruct (Forall2_nth_r _ _ _ j c (mapM_Ok _ _ _ Hcs) Hj) as (name & Hname & Hget).
    destruct (Hnum name (nth_error_In _ _ Hname)) as [z Hz]. rewrite Hz in Hget.
    injection Hget as <-. simpl; eauto. }
  rewrite Hfs; cbn [bind].
  destruct (fit_scale_length _ _ _ _ Hfit) as [Ls _].
  unfold MinMaxScaler.transform_row.
  rewrite (mapM_length _ _ _ Hfs), (mapM_length _ _ _ Hcs), Ls, Nat.eqb_refl. cbn [bind].
  destruct (mapM_all_Ok (fun name => row_get cols name r) nom_cols) as [vs Hvs].
  { intros name Hin; destruct (Hnom name Hin) as (v & _ & -> & _); eauto. }
  rewrite Hvs; cbn [bind].
  destruct (ColumnTransformerFacts.fit_categories _ _ _ _ Hfit) as (Lc & Hd & Hcats).
  unfold OneHotEncoder.transform_row.
  rewrite (mapM_length _ _ _ Hvs), Lc, Nat.eqb_refl.
  destruct (encode_cells_accepts vs
              (combine (OneHotEncoder.categories_ (ColumnTransformer.nominal ct))
                       (OneHotEncoder.drop_idx_ (ColumnTransformer.nominal ct)))) as [blocks ->];
    [|simpl; eauto].
  intros j v [cats d] Hv Hcd; simpl.
  destruct (Forall2_nth_r _ _ _ j v (mapM_Ok _ _ _ Hvs) Hv) as (name & Hname & Hget).
  assert (Hcj : nth_error (OneHotEncoder.categories_ (ColumnTransformer.nominal ct)) j = Some cats).
  { rewrite combine_zipWith, nth_error_zipWith in Hcd.
    destruct (nth_error (OneHotEncoder.categories_ _) j); [|discriminate].
    destruct (nth_error (OneHotEncoder.drop_idx_ _) j); [|discriminate]. congruence. }
  apply (proj2 (proj2 (Hcats j name cats Hname Hcj))).
  destruct (Hnom name (nth_error_In _ _ Hname)) as (v' & r' & Hv' & Hr' & Hg').
  rewrite Hv' in Hget; injection Hget as <-. eauto.
Qed.

(** ** The batch notebook: what [ct.fit_transform] returns and how it is named *)

Lemma fit_rows_known (num_cols nom_cols : list string) (df : DataFrame) (ct : ColumnTransformer.t)
      (r : Row) :
  ColumnTransformer.fit num_cols nom_cols df = Ok ct ->
  In r (rows df) ->
  (forall name, In name num_cols -> exists z, row_get (columns df) name r = Ok (Num z)) /\
  (forall name, In name nom_cols ->
     exists v r', row_get (columns df) name r = Ok v /\
                  In r' (rows df) /\ row_get (columns df) name r' = Ok v).
Proof.
  intros Hfit Hr.
  destruct (ColumnTransformerFacts.fit_Ok _ _ _ _ Hfit) as (Xn & Xc & HXn & _ & HXc & _).
  split.
  - apply select_float_Ok in HXn as [_ HXn].
    destruct (Forall2_In_l _ _ _ r HXn Hr) as (fs & _ & _ & H). exact H.
  - intros name Hin. apply ColumnTransformerFacts.select_Ok in HXc.
    destruct (Forall2_In_l _ _ _ r HXc Hr) as (cs & _ & Hp).
    apply In_nth_error in Hin as [j Hj].
    destruct (ColumnTransformerFacts.picks_nth _ _ _ _ Hp) as [_ Hn].
    destruct (Hn j name Hj) as (v & _ & Hv). eauto.
Qed.

Lemma fit_has_columns (num_cols nom_cols : list string) (df : DataFrame) (ct : ColumnTransformer.t) :
  ColumnTransformer.fit num_cols nom_cols df = Ok ct ->
  forallb (has_column df) num_cols = true /\ forallb (has_column df) nom_cols = true /\
  rows df <> [].
Proof.
  intros Hfit.
  destruct (ColumnTransformerFacts.fit_Ok _ _ _ _ Hfit) as (Xn & Xc & HXn & Hsc & HXc & _).
  destruct (select_float_Ok _ _ _ HXn) as [Hn HF].
  split; [exact Hn|]. split.
  - unfold ColumnTransformer.select in HXc. destruct (forallb _ nom_cols); [reflexivity | discriminate].
  - destruct (MinMaxScalerFacts.fit_lengths _ _ Hsc) as (r0 & X' & -> & _).
    inversion HF; subst. congruence.
Qed.


(** The floats of a selected numeric block, cell by cell. *)
Lemma select_float_rows (names : list string) (df : DataFrame) (Xn : list (list float)) :
  ColumnTransformer.select_float names df = Ok Xn ->
  Forall2 (fun r fs => forall p name, nth_error names p = Some name ->
             exists z, row_get (columns df) name r = Ok (Num z) /\
                       nth_error fs p = Some (float_of_Z z))
          (rows df) Xn.
Proof.
  unfold ColumnTransformer.select_float. intros H. apply bind_Ok in H as (X & HX & H).
  apply ColumnTransformerFacts.select_Ok in HX. apply mapM_Ok in H.
  revert Xn H. induction HX as [|r cs rs X Hp _ IH]; intros Xn H; inversion H; subst; constructor; auto.
  match goal with H : mapM ColumnTransformer.to_float cs = Ok _ |- _ => rename H into Hf end.
  destruct (ColumnTransformerFacts.picks_nth _ _ _ _ Hp) as [_ Hn].
  intros p name Hj. destruct (Hn p name Hj) as (v & Hv & Hg).
  destruct (mapM_nth_error _ _ _ _ _ Hf Hv) as (q & Hq & Hfl).
  destruct v as [z|s]; [|discriminate Hfl]. injection Hfl as <-. eauto.
Qed.

(** The scaler statistics of the [p]-th numeric column come from the values
    the training rows hold in that column. *)
Lemma fit_numeric (num_cols nom_cols : list string) (df : DataFrame) (ct : ColumnTransformer.t)
      (p : nat) (name : string) :
  ColumnTransformer.fit num_cols nom_cols df = Ok ct ->
  nth_error num_cols p = Some name ->
  exists col,
    Forall2 (fun r v => exists z, row_get (columns df) name r = Ok (Num z) /\ v = float_of_Z z)
            (rows df) col /\
    nth_error (MinMaxScaler.data_min_ (ColumnTransformer.numeric ct)) p
    = Some (MinMaxScaler.amin col) /\
    nth_error (MinMaxScaler.data_max_ (ColumnTransformer.numeric ct)) p
    = Some (MinMaxScaler.amax col) /\
    nth_error (MinMaxScaler.scale_ (ColumnTransformer.numeric ct)) p
    = Some (PrimFloat.div 1
              (MinMaxScaler._handle_zeros_in_scale
                 (PrimFloat.sub (MinMaxScaler.amax col) (MinMaxScaler.amin col)))) /\
    nth_error (MinMaxScaler.min_ (ColumnTransformer.numeric ct)) p
    = Some (PrimFloat.sub 0
              (PrimFloat.mul (MinMaxScaler.amin col)
                 (PrimFloat.div 1
                    (MinMaxScaler._handle_zeros_in_scale
                       (PrimFloat.sub (MinMaxScaler.amax col) (MinMaxScaler.amin col)))))).
Proof.
  intros Hfit Hp.
  destruct (ColumnTransformerFacts.fit_Ok _ _ _ _ Hfit) as (Xn & Xc & HXn & Hsc & _ & _).
  pose proof (select_float_rows _ _ _ HXn) as HR.
  destruct (select_float_Ok _ _ _ HXn) as [_ HL].
  destruct (MinMaxScalerFacts.scaler_fit_inv _ _ Hsc) as (r0 & X' & HX & Hall).
  assert (L0 : List.length r0 = List.length num_cols).
  { rewrite HX in HL. inversion HL as [|r fs rs Xs [L _] _]; subst. exact L. }
  assert (Hlt : (p < List.length r0)%nat) by (rewrite L0; apply nth_error_Some; congruence).
  destruct (Hall p Hlt) as (Emin & Emax & Es & Em).
  exists (MinMaxScaler.column p Xn). split; [|auto].
  unfold MinMaxScaler.column. clear - HR Hp.
  induction HR as [|r fs rs Xs H _ IH]; simpl; constructor; [|exact IH].
  destruct (H p name Hp) as (z & Hz & Hfs). exists z. split; [exact Hz|].
  apply nth_error_nth; exact Hfs.
Qed.

(** The scaled entry of a row under the [p]-th numeric column. *)
Lemma numeric_entry (num_cols nom_cols : list string) (ct : ColumnTransformer.t)
      (cols : list string) (r : Row) (out : list float) (p : nat) (name : string) :
  List.length (MinMaxScaler.scale_ (ColumnTransformer.numeric ct)) = List.length num_cols ->
  List.length (MinMaxScaler.min_ (ColumnTransformer.numeric ct)) = List.length num_cols ->
  ColumnTransformer.transform_row num_cols nom_cols ct cols r = Ok out ->
  nth_error num_cols p = Some name ->
  exists z s m,
    row_get cols name r = Ok (Num z) /\
    nth_error (MinMaxScaler.scale_ (ColumnTransformer.numeric ct)) p = Some s /\
    nth_error (MinMaxScaler.min_ (ColumnTransformer.numeric ct)) p = Some m /\
    nth_error out p = Some (PrimFloat.add (PrimFloat.mul (float_of_Z z) s) m).
Proof.
  intros Ls Lm Htr Hp. unfold ColumnTransformer.transform_row in Htr.
  apply bind_Ok in Htr as (scaled & Hs & Htr). apply bind_Ok in Htr as (ind & Hi & [= <-]).
  apply bind_Ok in Hs as (nums & Hnums & Hs). apply bind_Ok in Hnums as (cs & Hcs & Hnums).
  destruct (Forall2_nth_l _ _ _ p name (mapM_Ok _ _ _ Hcs) Hp) as (c & Hc & Hget).
  destruct (mapM_nth_error _ _ _ _ _ Hnums Hc) as (q & Hq & Hfl).
  destruct c as [z|s0]; [|discriminate Hfl]. injection Hfl as <-.
  assert (Lp : (p < List.length num_cols)%nat) by (apply nth_error_Some; congruence).
  destruct (nth_error (MinMaxScaler.scale_ (ColumnTransformer.numeric ct)) p) as [s|] eqn:Es;
    [|apply nth_error_None in Es; lia].
  destruct (nth_error (MinMaxScaler.min_ (ColumnTransformer.numeric ct)) p) as [m|] eqn:Em;
    [|apply nth_error_None in Em; lia].
  pose proof (MinMaxScalerFacts.transform_row_nth _ _ _ p _ s m Hs Hq Es Em) as Hn.
  exists z, s, m. repeat split; auto.
  rewrite nth_error_app1; [exact Hn|]. apply nth_error_Some; congruence.
Qed.

(** ** Blocks of constant width, and when the stacked output is dense *)

Lemma size_rows (S : list (list float)) (k : nat) :
  Forall (fun r => List.length r = k) S -> ColumnTransformer.size S = (k * List.length S)%nat.
Proof.
  unfold ColumnTransformer.size. induction 1 as [|r S Hr _ IH]; simpl; [lia|].
  rewrite IH, Hr. lia.
Qed.

Lemma scaler_row_length (sc : MinMaxScaler.t) (r out : list float) :
  List.length (MinMaxScaler.min_ sc) = List.length (MinMaxScaler.scale_ sc) ->
  MinMaxScaler.transform_row sc r = Ok out -> List.length out = List.length (MinMaxScaler.scale_ sc).
Proof.
  intros L. unfold MinMaxScaler.transform_row.
  destruct (Nat.eqb _ _) eqn:E; [|discriminate]. apply Nat.eqb_eq in E.
  intros [= <-]. rewrite !zipWith_length. lia.
Qed.

Lemma encoder_row_length (enc : OneHotEncoder.t) (r : list cell) (out : list float) :
  OneHotEncoder.drop_idx_ enc = map OneHotEncoder.if_binary (OneHotEncoder.categories_ enc) ->
  OneHotEncoder.transform_row enc r = Ok out ->
  List.length out
  = list_sum (map (fun cs => indicator_width (List.length cs)) (OneHotEncoder.categories_ enc)).
Proof.
  intros Hd H. destruct (OneHotEncoderFacts.transform_row_Ok _ _ _ H) as (L & -> & _).
  rewrite Hd, zip_indicators. apply concat_indicators_length, L.
Qed.

(** With [L] numeric columns and [W] indicator columns, [3 * W <= 7 * L]
    keeps the density at 0.3 or above, whatever the rows hold: the output is
    dense.  For the eight numeric columns that is [W <= 18]. *)
Lemma fit_dense (num_cols nom_cols : list string) (df : DataFrame) (ct : ColumnTransformer.t) :
  ColumnTransformer.fit num_cols nom_cols df = Ok ct ->
  (3 * list_sum (map (fun cs => indicator_width (List.length cs))
                     (OneHotEncoder.categories_ (ColumnTransformer.nominal ct)))
   <= 7 * List.length num_cols)%nat ->
  ColumnTransformer.sparse_output_ ct = false.
Proof.
  intros Hfit HW.
  destruct (ColumnTransformerFacts.fit_inv _ _ _ _ Hfit)
    as (Xn & Sn & Xc & Sc & _ & HXn & Hsc & HSn & HXc & Henc & HSc & _ & _ & ->).
  destruct (fit_scale_length _ _ _ _ Hfit) as [Ls Lm].
  destruct (ColumnTransformerFacts.fit_categories _ _ _ _ Hfit) as (_ & Hd & _).
  apply MinMaxScalerFacts.transform_Ok_rows in HSn as [_ HSn].
  apply ColumnTransformerFacts.encoder_transform_rows in HSc as [_ HSc].
  assert (Ln : List.length Sn = List.length (rows df)).
  { rewrite (mapM_length _ _ _ HSn). unfold ColumnTransformer.select_float in HXn.
    apply bind_Ok in HXn as (X0 & H0 & H1). rewrite (mapM_length _ _ _ H1).
    apply ColumnTransformerFacts.select_Ok in H0. symmetry. eapply Forall2_length; eauto. }
  assert (Lc : List.length Sc = List.length (rows df)).
  { rewrite (mapM_length _ _ _ HSc). apply ColumnTransformerFacts.select_Ok in HXc.
    symmetry. eapply Forall2_length; eauto. }
  assert (Wn : ColumnTransformer.size Sn = (List.length num_cols * List.length Sn)%nat).
  { apply size_rows. apply Forall_forall. intros out Hout.
    destruct (Forall2_In_r _ _ _ out (mapM_Ok _ _ _ HSn) Hout) as (r & _ & Hr).
    assert (Lms : List.length (MinMaxScaler.min_ (ColumnTransformer.numeric ct))
                  = List.length (MinMaxScaler.scale_ (ColumnTransformer.numeric ct)))
      by congruence.
    rewrite (scaler_row_length _ _ _ Lms Hr). exact Ls. }
  assert (Wc : ColumnTransformer.size Sc
               = (list_sum (map (fun cs => indicator_width (List.length cs))
                                (OneHotEncoder.categories_ (ColumnTransformer.nominal ct)))
                  * List.length Sc)%nat).
  { apply size_rows. apply Forall_forall. intros out Hout.
    destruct (Forall2_In_r _ _ _ out (mapM_Ok _ _ _ HSc) Hout) as (r & _ & Hr).
    exact (encoder_row_length _ _ _ Hd Hr). }
  unfold ColumnTransformer._sparse_output. apply Nat.ltb_ge.
  rewrite Wn, Wc, Ln, Lc. nia.
Qed.

(** ** When [fit] returns

    A frame that has the selected columns and on which the two transformers
    can be fit is fit, and the fitted transformer records the frame. *)

Lemma scaler_accepts_training (Xn : list (list float)) (sc : MinMaxScaler.t) (k : nat) :
  MinMaxScaler.fit Xn = Ok sc -> Forall (fun r => List.length r = k) Xn ->
  exists Sn, MinMaxScaler.transform sc Xn = Ok Sn.
Proof.
  intros Hfit HL.
  destruct (MinMaxScalerFacts.fit_lengths _ _ Hfit) as (r0 & X' & HX & _ & _ & Ls & _).
  destruct (mapM_all_Ok (MinMaxScaler.transform_row sc) Xn) as [Sn HSn].
  { intros r Hr. unfold MinMaxScaler.transform_row. rewrite Forall_forall in HL.
    rewrite Ls, (HL r Hr), <- (HL r0) by (rewrite HX; left; reflexivity).
    rewrite Nat.eqb_refl. eauto. }
  exists Sn. apply MinMaxScalerFacts.transform_Ok_rows. split; [rewrite HX; discriminate | exact HSn].
Qed.

Lemma encoder_accepts_training (Xc : list (list cell)) (enc : OneHotEncoder.t) (k : nat) :
  OneHotEncoder.fit Xc = Ok enc -> Forall (fun r => List.length r = k) Xc ->
  exists Sc, OneHotEncoder.transform enc Xc = Ok Sc.
Proof.
  intros Hfit HL.
  destruct (OneHotEncoderFacts.encoder_fit_inv _ _ Hfit) as (r0 & X' & HX & Lc & Hd & Hcats).
  destruct (mapM_all_Ok (OneHotEncoder.transform_row enc) Xc) as [Sc HSc].
  { intros r Hr. unfold OneHotEncoder.transform_row. rewrite Forall_forall in HL.
    rewrite Lc, (HL r Hr), <- (HL r0) by (rewrite HX; left; reflexivity).
    rewrite Nat.eqb_refl.
    destruct (encode_cells_accepts r (combine (OneHotEncoder.categories_ enc)
                                              (OneHotEncoder.drop_idx_ enc))) as [blocks ->];
      [|simpl; eauto].
    intros j v [cats d] Hv Hcd; simpl.
    assert (Hcj : nth_error (OneHotEncoder.categories_ enc) j = Some cats).
    { rewrite combine_zipWith, nth_error_zipWith in Hcd.
      destruct (nth_error (OneHotEncoder.categories_ enc) j); [|discriminate].
      destruct (nth_error (OneHotEncoder.drop_idx_ enc) j); [|discriminate]. congruence. }
    destruct (Hcats j cats Hcj) as [_ He].
    apply (proj2 (proj2 (OneHotEncoderFacts.encode_spec _ _ He))).
    unfold OneHotEncoder.column. apply in_map_iff. exists r. split; [|exact Hr].
    apply nth_error_nth; exact Hv. }
  exists Sc. apply ColumnTransformerFacts.encoder_transform_rows.
  split; [rewrite HX; discriminate | exact HSc].
Qed.

Lemma fit_returns (num_cols nom_cols : list string) (df : DataFrame)
      (Xn : list (list float)) (sc : MinMaxScaler.t) (Xc : list (list cell)) (enc : OneHotEncoder.t) :
  forallb (has_column df) num_cols = true -> forallb (has_column df) nom_cols = true ->
  ColumnTransformer.select_float num_cols df = Ok Xn -> MinMaxScaler.fit Xn = Ok sc ->
  ColumnTransformer.select nom_cols df = Ok Xc -> OneHotEncoder.fit Xc = Ok enc ->
  exists ct Sn Sc,
    ColumnTransformer.fit num_cols nom_cols df = Ok ct /\
    ColumnTransformer.numeric ct = sc /\ ColumnTransformer.nominal ct = enc /\
    MinMaxScaler.transform sc Xn = Ok Sn /\ OneHotEncoder.transform enc Xc = Ok Sc /\
    ColumnTransformer.sparse_output_ ct = ColumnTransformer._sparse_output Sn Sc /\
    ColumnTransformer._n_features ct = width df /\
    ColumnTransformer._df_columns ct = columns df.
Proof.
  intros Hn Hc HXn Hsc HXc Henc.
  destruct (proj2 (ColumnTransformerFacts.validate_remainder_Ok num_cols nom_cols df)
                  (conj Hn Hc)) as [remaining Hrem].
  destruct (scaler_accepts_training Xn sc (List.length num_cols) Hsc) as [Sn HSn].
  { destruct (select_float_Ok _ _ _ HXn) as [_ HF]. apply Forall_forall. intros fs Hfs.
    destruct (Forall2_In_r _ _ _ fs HF Hfs) as (r & _ & L & _). exact L. }
  destruct (encoder_accepts_training Xc enc (List.length nom_cols) Henc) as [Sc HSc].
  { apply ColumnTransformerFacts.select_Ok in HXc. apply Forall_forall. intros cs Hcs.
    destruct (Forall2_In_r _ _ _ cs HXc Hcs) as (r & _ & Hp).
    exact (proj1 (ColumnTransformerFacts.picks_nth _ _ _ _ Hp)). }
  eexists; exists Sn, Sc. unfold ColumnTransformer.fit.
  rewrite Hrem; cbn [bind]. rewrite HXn; cbn [bind]. rewrite Hsc; cbn [bind].
  rewrite HSn; cbn [bind]. rewrite HXc; cbn [bind]. rewrite Henc; cbn [bind].
  rewrite HSc; cbn [bind]. repeat split; auto.
Qed.
(** C4.  Every transformed row has [8 + sum of the indicator widths]
    entries: first the eight scaled numeric columns in their configured
    order, then the indicator block of each nominal column in configured
    order, each block following the order of the categories fixed at fit
    time.  Entry [p] of the numeric part is the row's value in the [p]-th
    configured numeric column, times [scale_] plus [min_] of that column,
    which the fit computed from the minimum and the maximum of the training
    values of that same column.  The categories of a column are the distinct
    values of the training column, kept in increasing order; [k] of them
    give [k] indicators, and two give one. *)
Theorem output_layout (Xtrain X : DataFrame) (ct : ColumnTransformer.t) (M : list (list float)) :
  DataPreprocessing.ct_fit Xtrain = Ok ct ->
  DataPreprocessing.ct_transform ct X = Ok M ->
  let cats := OneHotEncoder.categories_ (nominal ct) in
  List.length cats = 6%nat /\
  (forall j name cs,
      nth_error DataPreprocessing.nominal_cols_to_keep j = Some name ->
      nth_error cats j = Some cs ->
      StronglySorted OneHotEncoder.cell_lt cs /\
      NoDup cs /\
      forall v, In v cs <-> exists r, In r (rows Xtrain) /\ row_get (columns Xtrain) name r = Ok v) /\
  (forall p name,
      nth_error DataPreprocessing.numeric_cols_to_keep p = Some name ->
      exists col,
        Forall2 (fun r v => exists z, row_get (columns Xtrain) name r = Ok (Num z) /\ v = float_of_Z z)
                (rows Xtrain) col /\
        nth_error (MinMaxScaler.data_min_ (numeric ct)) p = Some (MinMaxScaler.amin col) /\
        nth_error (MinMaxScaler.data_max_ (numeric ct)) p = Some (MinMaxScaler.amax col) /\
        nth_error (MinMaxScaler.scale_ (numeric ct)) p
        = Some (PrimFloat.div 1
                  (MinMaxScaler._handle_zeros_in_scale
                     (PrimFloat.sub (MinMaxScaler.amax col) (MinMaxScaler.amin col)))) /\
        nth_error (MinMaxScaler.min_ (numeric ct)) p
        = Some (PrimFloat.sub 0
                  (PrimFloat.mul (MinMaxScaler.amin col)
                     (PrimFloat.div 1
                        (MinMaxScaler._handle_zeros_in_scale
                           (PrimFloat.sub (MinMaxScaler.amax col) (MinMaxScaler.amin col))))))) /\
  Forall2 (fun r out =>
      exists nums scaled vals,
        bind (mapM (fun name => row_get (columns X) name r) DataPreprocessing.numeric_cols_to_keep)
             (mapM to_float) = Ok nums /\
        MinMaxScaler.transform_row (numeric ct) nums = Ok scaled /\
        List.length scaled = 8%nat /\
        mapM (fun name => row_get (columns X) name r) DataPreprocessing.nominal_cols_to_keep = Ok vals /\
        out = (scaled ++ List.concat (zipWith indicators cats vals))%list /\
        List.length out
        = (8 + list_sum (map (fun cs => indicator_width (List.length cs)) cats))%nat /\
        (forall p name,
            nth_error DataPreprocessing.numeric_cols_to_keep p = Some name ->
            exists z s m,
              row_get (columns X) name r = Ok (Num z) /\
              nth_error (MinMaxScaler.scale_ (numeric ct)) p = Some s /\
              nth_error (MinMaxScaler.min_ (numeric ct)) p = Some m /\
              nth_error out p = Some (PrimFloat.add (PrimFloat.mul (float_of_Z z) s) m)))
    (rows X) M.
Proof.
  intros Hfit HM cats.
  destruct (fit_categories _ _ _ _ Hfit) as (Hlen & Hdrop & Hcats).
  split; [exact Hlen|]. split; [exact Hcats|].
  split; [intros p name Hp; exact (fit_numeric _ _ _ _ p name Hfit Hp)|].
  destruct (fit_scale_length _ _ _ _ Hfit) as [Ls Lm].
  apply transform_rowwise in HM as (_ & _ & _ & _ & _ & HM). apply mapM_Ok in HM.
  eapply Forall2_impl; [|exact HM]. intros r out Hout; cbv beta in Hout.
  pose proof (fun p name => numeric_entry _ _ _ _ _ _ p name Ls Lm Hout) as Hnum.
  unfold transform_row in Hout.
  apply bind_Ok in Hout as (scaled & Hs & Hout). apply bind_Ok in Hout as (ind & Hi & [= <-]).
  apply bind_Ok in Hs as (nums & Hnums & Hs). apply bind_Ok in Hi as (vals & Hvals & Hi).
  exists nums, scaled, vals.
  destruct (OneHotEncoderFacts.transform_row_Ok _ _ _ Hi) as (Lv & -> & _).
  fold cats in Lv, Hnum |- *. rewrite Hdrop in Hnum |- *. fold cats in Hnum |- *.
  rewrite zip_indicators in Hnum |- *.
  assert (L8 : List.length scaled = 8%nat).
  { rewrite (scaler_row_length _ _ _ ltac:(rewrite Ls, Lm; reflexivity) Hs), Ls. reflexivity. }
  repeat split; auto.
  rewrite length_app, L8, concat_indicators_length by exact Lv. reflexivity.
Qed.

(** The sample request: 18 entries, the first of them the age 17 scaled by
    the ages 15 to 22 of the training table. *)
Lemma output_layout_witness :
  exists ct M out, DataPreprocessing.ct_fit train_features = Ok ct /\
    DataPreprocessing.ct_transform ct request_seen = Ok M /\
    M = [out] /\
    List.length out = 18%nat /\
    nth_error out 0
    = Some (PrimFloat.add (PrimFloat.mul 17 (PrimFloat.div 1 7))
                          (PrimFloat.sub 0 (PrimFloat.mul 15 (PrimFloat.div 1 7)))).
Proof.
  eexists; eexists; eexists; split; [vm_compute; reflexivity|]. split; [vm_compute; reflexivity|].
  split; [reflexivity|].
  pose proof (output_layout train_features request_seen _ _ ltac:(vm_compute; reflexivity)
                ltac:(vm_compute; reflexivity)) as (_ & _ & _ & H).
  simpl in H. inversion H as [|r out rs outs (nums & scaled & vals & _ & _ & _ & _ & _ & L & Hn) Hrest];
    subst.
  split; [exact L|].
  destruct (Hn 0%nat "age"%string eq_refl) as (z & s & m & Hz & Hs & Hm & Ho).
  vm_compute in Hz. injection Hz as <-.
  vm_compute in Hs. injection Hs as <-.
  vm_compute in Hm. injection Hm as <-.
  rewrite Ho. vm_compute. reflexivity.
Defined.

(** The column names of the sample transformer: a two-category column
    keeps its second category, the others keep all, in increasing order. *)
Example sample_column_names :
  (do ct <- DataPreprocessing.ct_fit train_features;
   Ok (DataPreprocessing.transformed_col_names ct))
  = Ok ["age"; "Medu"; "traveltime"; "studytime"; "failures"; "goout"; "Dalc"; "absences";
        "address_U"; "Fjob_other"; "Fjob_services"; "Fjob_teacher";
        "guardian_father"; "guardian_mother"; "guardian_other";
        "higher_yes"; "internet_yes"; "romantic_yes"]%string.
Proof. vm_compute; reflexivity. Qed.

(** The indicator part of the sample request: a rural address, a father's
    job "other", the mother as guardian, "yes", "yes" and "no". *)
Example sample_indicators :
  (do ct <- DataPreprocessing.ct_fit train_features;
   do M <- DataPreprocessing.ct_transform ct request_seen;
   Ok (map (skipn 8) M))
  = Ok [[0; 1; 0; 0; 0; 1; 0; 1; 1; 0]%float].
Proof. vm_compute; reflexivity. Qed.

(** ** Tables: dropping and adding a column *)

Lemma mapM_map {A B C : Type} (f : A -> B) (g : B -> result C) (l : list A) :
  mapM g (map f l) = mapM (fun a => g (f a)) l.
Proof. induction l as [|a l IH]; simpl; [reflexivity | rewrite IH; reflexivity]. Qed.

Lemma mapM_Forall2_ext {A B C : Type} (f : A -> result C) (g : B -> result C)
      (l : list A) (m : list B) :
  Forall2 (fun a b => f a = g b) l m -> mapM f l = mapM g m.
Proof.
  induction 1 as [|a b l m Hab _ IH]; simpl; [reflexivity | rewrite Hab, IH; reflexivity].
Qed.

Lemma lookup_nil (name : string) (cols : list string) : lookup name cols [] = None.
Proof. destruct cols; reflexivity. Qed.

Lemma lookup_drop (name dropped : string) (cols : list string) (cs : list cell) :
  name <> dropped ->
  lookup name (filter (fun c => negb (String.eqb c dropped)) cols) (drop_cells dropped cols cs)
  = lookup name cols cs.
Proof.
  intros Hne; revert cs; induction cols as [|c cols IH]; intros [|x cs]; simpl; try reflexivity.
  - apply lookup_nil.
  - destruct (String.eqb c dropped) eqn:E; simpl.
    + apply String.eqb_eq in E; subst c.
      rewrite (proj2 (String.eqb_neq dropped name)) by congruence. apply IH.
    + destruct (String.eqb c name); [reflexivity | apply IH].
Qed.

Lemma has_column_drop (df : DataFrame) (name dropped : string) :
  name <> dropped -> has_column (drop_column df dropped) name = has_column df name.
Proof.
  intros Hne; unfold has_column, drop_column; simpl.
  induction (columns df) as [|c cols IH]; simpl; [reflexivity|].
  destruct (String.eqb c dropped) eqn:E; simpl.
  - apply String.eqb_eq in E; subst c.
    rewrite (proj2 (String.eqb_neq name dropped)) by congruence. exact IH.
  - rewrite IH; reflexivity.
Qed.

Lemma has_column_drop_self (df : DataFrame) (name : string) :
  has_column (drop_column df name) name = false.
Proof.
  unfold has_column, drop_column; simpl.
  induction (columns df) as [|c cols IH]; simpl; [reflexivity|].
  destruct (String.eqb c name) eqn:E; simpl; [exact IH|].
  rewrite String.eqb_sym, E; exact IH.
Qed.

Lemma lookup_with_label (name lab : string) (cols : list string) (cs : list cell) (l : cell) :
  List.length cs = List.length cols ->
  lookup name (cols ++ [lab]) (cs ++ [l])
  = match lookup name cols cs with
    | Some x => Some x
    | None => if String.eqb lab name then Some l else None
    end.
Proof.
  revert cs; induction cols as [|c cols IH]; intros [|x cs]; simpl; try discriminate.
  - intros _; destruct (String.eqb lab name); reflexivity.
  - intros [= H]. destruct (String.eqb c name); [reflexivity | apply IH, H].
Qed.

Lemma lookup_None (name : string) (cols : list string) (cs : list cell) :
  existsb (String.eqb name) cols = false -> lookup name cols cs = None.
Proof.
  revert cs; induction cols as [|c cols IH]; intros [|x cs]; simpl; try reflexivity.
  rewrite String.eqb_sym. destruct (String.eqb c name); simpl; [discriminate | apply IH].
Qed.

Lemma forallb_agree {A : Type} (f g : A -> bool) (l : list A) :
  (forall a, In a l -> f a = g a) -> forallb f l = forallb g l.
Proof.
  induction l as [|a l IH]; simpl; intros H; [reflexivity|].
  rewrite (H a), IH by auto; reflexivity.
Qed.


Lemma agree_incl (names names' : list string) (df1 df2 : DataFrame) :
  incl names' names -> agree names df1 df2 -> agree names' df1 df2.
Proof.
  intros Hi [H1 H2]; split; [auto|].
  eapply Forall2_impl; [|exact H2]. intros r1 r2 H name Hn; auto.
Qed.

Lemma select_agree (names : list string) (df1 df2 : DataFrame) :
  agree names df1 df2 -> select names df1 = select names df2.
Proof.
  intros [Hcols Hrows]; unfold select.
  rewrite (forallb_agree _ _ names Hcols).
  rewrite (filter_ext_in (fun name => negb (has_column df1 name))
                          (fun name => negb (has_column df2 name)) names)
    by (intros name Hin; rewrite (Hcols name Hin); reflexivity).
  destruct (forallb (has_column df2) names); [|reflexivity].
  apply mapM_Forall2_ext. eapply Forall2_impl; [|exact Hrows].
  intros r1 r2 H; cbv beta. apply mapM_ext; exact H.
Qed.

Lemma agree_drop (names : list string) (df : DataFrame) (dropped : string) :
  ~ In dropped names -> agree names (drop_column df dropped) df.
Proof.
  intros Hn; split.
  - intros name Hin; apply has_column_drop; congruence.
  - unfold drop_column; simpl. induction (rows df) as [|r rs IH]; simpl; constructor; [|exact IH].
    intros name Hin; unfold row_get; simpl. rewrite lookup_drop by congruence. reflexivity.
Qed.


Lemma agree_with_label (names : list string) (df : DataFrame) (labels : list cell) :
  ~ In sagemaker_preprocessing.label_column names ->
  well_formed df -> List.length labels = List.length (rows df) ->
  agree names (with_label df labels) df.
Proof.
  intros Hn Hwf Hlen; split.
  - intros name Hin; unfold has_column, with_label; simpl.
    rewrite existsb_app; simpl.
    rewrite (proj2 (String.eqb_neq name sagemaker_preprocessing.label_column)) by congruence.
    rewrite !orb_false_r; reflexivity.
  - unfold with_label, well_formed in *; simpl. revert labels Hlen.
    induction Hwf as [|r rs Hr _ IH]; intros [|l labels]; simpl; try discriminate; constructor.
    + intros name Hin; unfold row_get; simpl. rewrite lookup_with_label by exact Hr.
      destruct (lookup name (columns df) (cells r)); [reflexivity|].
      rewrite (proj2 (String.eqb_neq sagemaker_preprocessing.label_column name)) by congruence.
      reflexivity.
    + apply IH; lia.
Qed.

Lemma label_not_selected :
  ~ In sagemaker_preprocessing.label_column
       (sagemaker_preprocessing.numeric_cols_to_keep ++ sagemaker_preprocessing.nominal_cols_to_keep).
Proof. simpl; intros H; repeat destruct H as [H|H]; try discriminate H; exact H. Qed.

Import sagemaker_preprocessing.

(** ** The served step *)

Lemma predict_fn_labelled (input_data : DataFrame) (model : ColumnTransformer.t) :
  has_column input_data label_column = true ->
  predict_fn input_data model =
    (do features <- transform model input_data;
     do labels <- getitem input_data label_column;
     if sparse_output_ model then
       Raise (ValueError "axis 1 is out of bounds for array of dimension 0")
     else
       do values <- mapM to_float (s_values labels);
       Ok (zipWith cons values features)).
Proof. intros Hc; unfold predict_fn; rewrite Hc; reflexivity. Qed.

(** What a labelled call that returns was made of. *)
Lemma predict_fn_labelled_inv (input_data : DataFrame) (model : ColumnTransformer.t)
      (out : list (list float)) :
  has_column input_data label_column = true ->
  predict_fn input_data model = Ok out ->
  exists features vs values,
    transform model input_data = Ok features /\
    mapM (row_get (columns input_data) label_column) (rows input_data) = Ok vs /\
    mapM to_float vs = Ok values /\
    sparse_output_ model = false /\
    out = zipWith cons values features.
Proof.
  intros Hc Hout. rewrite (predict_fn_labelled _ _ Hc) in Hout.
  apply bind_Ok in Hout as (features & Hf & Hout). apply bind_Ok in Hout as (labels & Hl & Hout).
  destruct (sparse_output_ model); [discriminate|].
  apply bind_Ok in Hout as (values & Hv & [= <-]).
  unfold getitem in Hl; rewrite Hc in Hl. apply bind_Ok in Hl as (vs & Hvs & [= <-]).
  exists features, vs, values. auto.
Qed.

(** The rows of a labelled answer: the label of the row, as a float64, then
    the features of the row. *)
Lemma predict_fn_labelled_rows (input_data : DataFrame) (model : ColumnTransformer.t)
      (out : list (list float)) :
  has_column input_data label_column = true ->
  predict_fn input_data model = Ok out ->
  List.length out = List.length (rows input_data) /\
  forall i r, nth_error (rows input_data) i = Some r ->
    exists z f,
      row_get (columns input_data) label_column r = Ok (Num z) /\
      served_row model input_data r = Ok f /\
      nth_error out i = Some (float_of_Z z :: f).
Proof.
  intros Hc Hout.
  destruct (predict_fn_labelled_inv _ _ _ Hc Hout) as (features & vs & values & Hf & Hvs & Hv & _ & ->).
  destruct (transform_nth _ _ _ _ _ Hf) as [Lf Hrows].
  assert (Lv : List.length values = List.length (rows input_data)).
  { rewrite (mapM_length _ _ _ Hv), (mapM_length _ _ _ Hvs); reflexivity. }
  split; [rewrite zipWith_length; lia|].
  intros i r Hr.
  destruct (mapM_nth_error _ _ _ _ _ Hvs Hr) as (c & Hc' & Hg).
  destruct (mapM_nth_error _ _ _ _ _ Hv Hc') as (q & Hq & Hfl).
  destruct c as [z|s]; simpl in Hfl; [|discriminate]. injection Hfl as <-.
  destruct (Hrows i r Hr) as (f & Hfi & Htr).
  exists z, f. split; [exact Hg|]. split; [exact Htr|].
  rewrite nth_error_zipWith, Hq, Hfi; reflexivity.
Qed.

(** The served preprocessor returns on a labelled table that has the
    columns of the training table and holds, row by row, integers in the
    numeric columns and in the label, and known categories. *)
Lemma predict_fn_known_rows (raw_data : list DataFrame) (model : ColumnTransformer.t)
      (df : DataFrame) :
  Served.main raw_data = Ok model ->
  columns df = columns (concat raw_data) ->
  has_column df Served.label_column = true ->
  rows df <> [] ->
  (list_sum (map (fun cs => indicator_width (List.length cs))
                 (OneHotEncoder.categories_ (ColumnTransformer.nominal model))) <= 18)%nat ->
  (forall r, In r (rows df) ->
     (forall name, In name Served.numeric_cols_to_keep ->
        exists z, row_get (columns df) name r = Ok (Num z)) /\
     (forall name, In name Served.nominal_cols_to_keep ->
        exists v r', row_get (columns df) name r = Ok v /\
                     In r' (rows (concat raw_data)) /\
                     row_get (columns (concat raw_data)) name r' = Ok v) /\
     (exists z, row_get (columns df) Served.label_column r = Ok (Num z))) ->
  exists out, Served.predict_fn df model = Ok out /\ List.length out = List.length (rows df).
Proof.
  intros Hfit Hcols Hlab Hne HW Hrows. unfold Served.main in Hfit.
  destruct (fit_has_columns _ _ _ _ Hfit) as (Hn & Hc & _).
  destruct (fit_frame _ _ _ _ Hfit) as [Hnf Hdf].
  assert (Hdense : sparse_output_ model = false).
  { apply (fit_dense _ _ _ _ Hfit). simpl List.length. lia. }
  assert (Hsame : forall name, has_column df name = has_column (concat raw_data) name).
  { intros name; unfold has_column; rewrite Hcols; reflexivity. }
  destruct (mapM_all_Ok (ColumnTransformer.transform_row Served.numeric_cols_to_keep
                           Served.nominal_cols_to_keep model (columns df)) (rows df))
    as [features HM].
  { intros r Hr. destruct (Hrows r Hr) as (H1 & H2 & _).
    exact (transform_row_accepts _ _ _ _ _ _ Hfit H1 H2). }
  assert (HT : Served.transform model df = Ok features).
  { apply ColumnTransformerFacts.transform_rowwise.
    split; [rewrite Hnf; unfold width; rewrite Hcols; lia|].
    split; [apply leading_columns; rewrite Hdf, <- Hcols; apply firstn_all|].
    rewrite (forallb_agree (has_column df) (has_column (concat raw_data))) by auto.
    rewrite (forallb_agree (has_column df) (has_column (concat raw_data))) by auto.
    auto. }
  destruct (mapM_all_Ok (row_get (columns df) Served.label_column) (rows df)) as [vs Hvs].
  { intros r Hr. destruct (Hrows r Hr) as (_ & _ & z & Hz). eauto. }
  destruct (mapM_all_Ok ColumnTransformer.to_float vs) as [values Hv].
  { intros c Hin. apply In_nth_error in Hin as [j Hj].
    destruct (Forall2_nth_r _ _ _ j c (mapM_Ok _ _ _ Hvs) Hj) as (r & Hr & Hget).
    destruct (Hrows r (nth_error_In _ _ Hr)) as (_ & _ & z & Hz).
    rewrite Hz in Hget. injection Hget as <-. simpl; eauto. }
  exists (zipWith cons values features). split.
  - rewrite predict_fn_labelled by exact Hlab. rewrite HT; cbn [bind].
    unfold getitem. rewrite Hlab, Hvs; cbn [bind s_values]. rewrite Hdense, Hv. reflexivity.
  - rewrite zipWith_length, (mapM_length _ _ _ Hv), (mapM_length _ _ _ Hvs), (mapM_length _ _ _ HM).
    apply Nat.min_id.
Qed.


Lemma sample_rows_known :
  forall r, In r (rows (with_label request_pair [Num 12; Num 7])) ->
    (forall name, In name Served.numeric_cols_to_keep ->
       exists z, row_get (columns (with_label request_pair [Num 12; Num 7])) name r = Ok (Num z)) /\
    (forall name, In name Served.nominal_cols_to_keep ->
       exists v r', row_get (columns (with_label request_pair [Num 12; Num 7])) name r = Ok v /\
                    In r' (rows (concat [train_sample])) /\
                    row_get (columns (concat [train_sample])) name r' = Ok v) /\
    (exists z, row_get (columns (with_label request_pair [Num 12; Num 7])) Served.label_column r
               = Ok (Num z)).
Proof.
  intros r [<-|[<-|[]]]; (split; [|split]).
  all: try (eexists; reflexivity).
  all: intros name Hin; simpl in Hin.
  all: repeat (destruct Hin as [<-|Hin]; [|]); try contradiction.
  all: try (eexists; reflexivity).
  all: do 2 eexists; (split; [reflexivity|]);
       first [ solve [split; [left; reflexivity | reflexivity]]
             | solve [split; [right; left; reflexivity | reflexivity]]
             | solve [split; [right; right; left; reflexivity | reflexivity]] ].
Qed.


(** A labelled request end to end: the labels 12 and 7 lead the two output
    rows, and what follows them is what the preprocessor makes of the rows
    without their label. *)
Example labelled_request :
  exists ct out,
    Served.main [train_sample] = Ok ct /\
    Served.predict_fn (with_label request_pair [Num 12; Num 7]) ct = Ok out /\
    map (hd 0%float) out = [12%float; 7%float] /\
    mapM (served_row ct request_pair) (rows request_pair) = Ok (map (@tl float) out).
Proof. do 2 eexists; repeat split; vm_compute; reflexivity. Qed.

Lemma with_label_values (df : DataFrame) (labels : list cell) :
  has_column df label_column = false ->
  well_formed df ->
  List.length labels = List.length (rows df) ->
  mapM (row_get (columns (with_label df labels)) label_column) (rows (with_label df labels))
  = Ok labels.
Proof.
  intros Hc Hwf; unfold with_label, well_formed in *; simpl. revert labels.
  induction Hwf as [|r rs Hr _ IH]; intros [|l labels]; simpl; try discriminate; [reflexivity|].
  intros [= Hlen]. unfold row_get at 1; simpl. rewrite lookup_with_label by exact Hr.
  rewrite (lookup_None _ _ _ Hc), String.eqb_refl; simpl. rewrite IH by exact Hlen. reflexivity.
Qed.

(** On a table at least as wide as the fit-time table, the label column
    added at the end changes nothing of what [transform] does. *)
Lemma transform_with_label (model : ColumnTransformer.t) (df : DataFrame) (labels : list cell) :
  (_n_features model <= width df)%nat ->
  (List.length (_df_columns model) <= width df)%nat ->
  well_formed df -> List.length labels = List.length (rows df) ->
  transform model (with_label df labels) = transform model df.
Proof.
  intros Hn Hd Hwf Hlen.
  pose proof (agree_with_label _ df labels label_not_selected Hwf Hlen) as [Hcols Hrows].
  unfold transform, ColumnTransformer.transform.
  assert (W : width (with_label df labels) = S (width df)).
  { unfold width, with_label; simpl. rewrite length_app; simpl. lia. }
  rewrite W, (proj2 (Nat.ltb_ge _ _) Hn), (proj2 (Nat.ltb_ge (S (width df)) _)) by lia.
  replace (reordered model (with_label df labels)) with (reordered model df).
  2:{ destruct df as [cols rs]. unfold with_label; cbn [columns rows].
      symmetry. apply reordered_app. exact Hd. }
  destruct (reordered model df); [reflexivity|].
  unfold select_float.
  rewrite (select_agree numeric_cols_to_keep (with_label df labels) df),
          (select_agree nominal_cols_to_keep (with_label df labels) df).
  - reflexivity.
  - apply (agree_incl (numeric_cols_to_keep ++ nominal_cols_to_keep));
      [apply incl_appr, incl_refl | split; assumption].
  - apply (agree_incl (numeric_cols_to_keep ++ nominal_cols_to_keep));
      [apply incl_appl, incl_refl | split; assumption].
Qed.

(** C9.  The features [predict_fn] returns do not depend on the label, but
    the served preprocessor returns them for the labelled table only.
    [__main__] fits the preprocessor on the training table as it is read,
    target included, and scikit-learn's [ColumnTransformer.transform]
    refuses every table with fewer columns than the table it was fit on:
    for a table without the label, [predict_fn] raises [ValueError] and
    produces no feature at all.

    Whatever [predict_fn] returns on the labelled table holds, behind each
    label, the features of the row as it is without the label.  Where the
    table is as wide as the training table (a training table without target
    column), the two calls return the same feature rows, provided the
    stacked output is a numpy array, one call returning when the other
    does. *)
Theorem unlabelled_request_refused (raw_data : list DataFrame) (model : ColumnTransformer.t)
        (df : DataFrame) (labels : list cell) :
  Served.main raw_data = Ok model ->
  has_column df Served.label_column = false ->
  well_formed df ->
  List.length labels = List.length (rows df) ->
  ((width df < width (concat raw_data))%nat ->
   exists msg, Served.predict_fn df model = Raise (ValueError msg)) /\
  (forall out,
      Served.predict_fn (with_label df labels) model = Ok out ->
      List.length out = List.length (rows df) /\
      forall i r, nth_error (rows df) i = Some r ->
        exists l v f,
          nth_error labels i = Some l /\
          ColumnTransformer.to_float l = Ok v /\
          served_row model df r = Ok f /\
          nth_error out i = Some (v :: f)) /\
  ((width (concat raw_data) <= width df)%nat ->
   (forall features,
       Served.predict_fn df model = Ok features ->
       sparse_output_ model = false ->
       Served.predict_fn (with_label df labels) model
       = (do values <- mapM ColumnTransformer.to_float labels;
          Ok (zipWith cons values features))) /\
   (forall out,
       Served.predict_fn (with_label df labels) model = Ok out ->
       exists features values,
         Served.predict_fn df model = Ok features /\
         mapM ColumnTransformer.to_float labels = Ok values /\
         out = zipWith cons values features)).
Proof.
  intros Hfit Hc Hwf Hlen.
  destruct (fit_frame _ _ _ _ Hfit) as [Hnf Hdf].
  assert (Hl : has_column (with_label df labels) label_column = true).
  { unfold has_column, with_label; simpl. rewrite existsb_app.
    apply orb_true_iff; right; reflexivity. }
  assert (Hplain : Served.predict_fn df model = Served.transform model df).
  { unfold predict_fn; rewrite Hc. destruct (transform model df); reflexivity. }
  split; [|split].
  - intros Hw. unfold predict_fn, transform, ColumnTransformer.transform.
    rewrite Hnf, (proj2 (Nat.ltb_lt _ _) Hw). cbn [bind]. eauto.
  - intros out Hout.
    destruct (predict_fn_labelled_rows _ _ _ Hl Hout) as [L Hrows].
    assert (Lrows : List.length (rows (with_label df labels)) = List.length (rows df)).
    { unfold with_label; simpl. rewrite zipWith_length; lia. }
    split; [congruence|].
    intros i r Hr.
    destruct (nth_error labels i) as [l|] eqn:Hli;
      [|apply nth_error_None in Hli;
        assert (i < List.length (rows df))%nat by (apply nth_error_Some; congruence); lia].
    assert (Hr' : nth_error (rows (with_label df labels)) i
                  = Some (mkRow (label r) (cells r ++ [l]))).
    { unfold with_label; simpl. rewrite nth_error_zipWith, Hr, Hli; reflexivity. }
    destruct (Hrows _ _ Hr') as (z & f & Hz & Hf & Ho).
    assert (Hwr : List.length (cells r) = List.length (columns df)).
    { unfold well_formed in Hwf; rewrite Forall_forall in Hwf.
      apply Hwf. eapply nth_error_In; eauto. }
    assert (El : l = Num z).
    { unfold row_get, with_label in Hz; simpl in Hz.
      rewrite lookup_with_label in Hz by exact Hwr.
      rewrite (lookup_None _ _ _ Hc), String.eqb_refl in Hz. congruence. }
    exists l, (float_of_Z z), f. split; [reflexivity|]. split; [rewrite El; reflexivity|].
    split; [|exact Ho].
    rewrite <- Hf. unfold served_row. apply transform_row_agree.
    intros name Hin; unfold row_get, with_label; simpl.
    rewrite lookup_with_label by exact Hwr.
    destruct (lookup name (columns df) (cells r)); [reflexivity|].
    rewrite (proj2 (String.eqb_neq label_column name)); [reflexivity|].
    intros E; rewrite <- E in Hin; exact (label_not_selected Hin).
  - intros Hw.
    assert (E : transform model (with_label df labels) = transform model df).
    { apply transform_with_label; auto; [rewrite Hnf | rewrite Hdf]; exact Hw. }
    assert (Hg : getitem (with_label df labels) label_column
                 = Ok (mkSeries label_column (map label (rows (with_label df labels))) labels)).
    { unfold getitem; rewrite Hl, (with_label_values df labels Hc Hwf Hlen); reflexivity. }
    split.
    + intros features HF Hdense. rewrite Hplain in HF.
      rewrite (predict_fn_labelled _ _ Hl), E, HF, Hg, Hdense. reflexivity.
    + intros out Hout. rewrite (predict_fn_labelled _ _ Hl), E, Hg in Hout.
      apply bind_Ok in Hout as (features & Hf & Hout). cbn [bind s_values] in Hout.
      destruct (sparse_output_ model); [discriminate|].
      apply bind_Ok in Hout as (values & Hv & [= <-]).
      exists features, values. rewrite Hplain. auto.
Qed.

(** The failing request: one unlabelled row in the 32-column feature
    schema, sent to the preprocessor fit on the sample training table with
    its 33 columns.  [predict_fn] raises; with the label 12 added, it
    returns the label and the features. *)
Lemma unlabelled_request_refused_witness :
  exists model out,
    Served.main [train_sample] = Ok model /\
    (exists msg, Served.predict_fn request_seen model = Raise (ValueError msg)) /\
    Served.predict_fn (with_label request_seen [Num 12]) model = Ok out /\
    List.length out = 1%nat.
Proof.
  eexists. eexists. split; [vm_compute; reflexivity|].
  match goal with
  | |- (exists msg, Served.predict_fn _ ?m = _) /\ _ =>
      pose proof (unlabelled_request_refused [train_sample] m request_seen [Num 12]
                    ltac:(vm_compute; reflexivity) eq_refl ltac:(repeat constructor) eq_refl)
        as (Hraise & Hrows & _)
  end.
  split; [apply Hraise; vm_compute; lia|].
  split; [vm_compute; reflexivity|].
  exact (proj1 (Hrows _ ltac:(vm_compute; reflexivity))).
Defined.

(** The message of the refusal. *)
Example refusal_message :
  (do model <- Served.main [train_sample]; Served.predict_fn request_seen model)
  = Raise (ValueError "Number of features of the input must be equal to or greater than that of the fitted transformer. Transformer n_features is 33 and input n_features is 32.").
Proof. vm_compute; reflexivity. Qed.
(** ** The served adapter *)

(** The claim as stated fails: a request of 34 columns (the labelled schema
    and one more column) is taken as it is, and the served step transforms
    it. *)
Lemma other_width_accepted :
  exists df ct out,
    PlainCsv.read_csv wide_request = Ok df /\
    width df = 34%nat /\
    Served.input_fn PlainCsv.read_csv wide_request "text/csv" = Ok df /\
    Served.main [train_sample] = Ok ct /\
    Served.predict_fn df ct = Ok out.
Proof. do 3 eexists; repeat split; vm_compute; reflexivity. Qed.

(** C2, amended.  [input_fn] reads the schema off the width of the parsed
    table: [schema_width + 1] columns are named as the features followed by
    the label, [schema_width] columns as the features; a table of any other
    width is returned as parsed, under the column names of its own first
    line, and [input_fn] raises nothing for it. *)
Theorem input_fn_widths (read_csv : string -> result DataFrame)
        (input_data : string) (df : DataFrame) :
  read_csv input_data = Ok df ->
  (width df = (List.length Served.feature_columns_names + 1)%nat ->
   Served.input_fn read_csv input_data "text/csv"
   = Ok (mkFrame (Served.feature_columns_names ++ [Served.label_column]) (rows df))) /\
  (width df = List.length Served.feature_columns_names ->
   Served.input_fn read_csv input_data "text/csv" = Ok (mkFrame Served.feature_columns_names (rows df))) /\
  (width df <> (List.length Served.feature_columns_names + 1)%nat ->
   width df <> List.length Served.feature_columns_names ->
   Served.input_fn read_csv input_data "text/csv" = Ok df).
Proof.
  intros Hr; unfold input_fn, width, set_columns; rewrite Hr; cbn [bind].
  repeat split.
  - intros ->; reflexivity.
  - intros ->; reflexivity.
  - intros H1 H2.
    rewrite (proj2 (Nat.eqb_neq _ _) H1), (proj2 (Nat.eqb_neq _ _) H2); reflexivity.
Qed.


Lemma input_fn_widths_witness :
  exists df,
    PlainCsv.read_csv wide_request = Ok df /\
    Served.input_fn PlainCsv.read_csv wide_request "text/csv" = Ok df.
Proof.
  eexists; split; [vm_compute; reflexivity|].
  refine (proj2 (proj2 (input_fn_widths PlainCsv.read_csv wide_request _ _)) _ _);
    [vm_compute; reflexivity | vm_compute; discriminate | vm_compute; discriminate].
Defined.

(** C6.  [output_fn] answers in exactly two encodings, chosen by [accept]:
    the JSON object [{"instances": [{"features": row}, ...]}] for
    [application/json] and delimited text for [text/csv]; any other [accept]
    raises an error that names the unsupported type, and so does [input_fn]
    for any content type but [text/csv].  No default encoding exists. *)
Theorem response_encodings (read_csv : string -> result DataFrame) (json_dumps : json -> string)
        (encode : list (list float) -> string -> string)
        (prediction : list (list float)) (accept : string) :
  (accept = "application/json" ->
   Served.output_fn json_dumps encode prediction accept
   = Ok (mkResponse
           (json_dumps
              (JObject [("instances",
                         JArray (map (fun row => JObject [("features", JArray (map JNumber row))])
                                     prediction))]))
           accept accept)) /\
  (accept = "text/csv" ->
   Served.output_fn json_dumps encode prediction accept
   = Ok (mkResponse (encode prediction accept) accept accept)) /\
  (accept <> "application/json" -> accept <> "text/csv" ->
   Served.output_fn json_dumps encode prediction accept
   = Raise (RuntimeError (accept ++ " accept type is not supported by this script."))) /\
  (is_ok (Served.output_fn json_dumps encode prediction accept) = true <->
   accept = "application/json" \/ accept = "text/csv") /\
  (forall input_data content_type,
      content_type <> "text/csv" ->
      Served.input_fn read_csv input_data content_type
      = Raise (ValueError (content_type ++ " not supported by script!"))).
Proof.
  unfold output_fn, input_fn.
  split; [intros ->; reflexivity|].
  split; [intros ->; reflexivity|].
  split.
  { intros H1 H2.
    rewrite (proj2 (String.eqb_neq _ _) H1), (proj2 (String.eqb_neq _ _) H2); reflexivity. }
  split.
  { destruct (String.eqb_spec accept "application/json") as [->|H1]; [simpl; tauto|].
    destruct (String.eqb_spec accept "text/csv") as [->|H2]; [simpl; tauto|].
    simpl; split; [discriminate | tauto]. }
  intros input_data content_type H.
  rewrite (proj2 (String.eqb_neq _ _) H); reflexivity.
Qed.

(** ** The split and the batch notebook *)

Section SplitFacts.

Context {RS : RandomState}.

Lemma validate_Ok (n_samples : nat) (test_size : float) (n_train n_test : nat) :
  _validate_shuffle_split n_samples test_size = Ok (n_train, n_test) ->
  (exists c, ceil (PrimFloat.mul test_size (float_of_Z (Z.of_nat n_samples))) = Ok c /\
             n_test = Z.to_nat c) /\
  n_train = (n_samples - n_test)%nat /\ n_train <> 0%nat.
Proof.
  unfold _validate_shuffle_split.
  destruct (PrimFloat.leb test_size 0 || PrimFloat.leb 1 test_size); [discriminate|].
  destruct (ceil _) as [c|e]; [cbn [bind] | discriminate].
  destruct (Nat.eqb_spec (n_samples - Z.to_nat c) 0); [discriminate|].
  intros [= <- <-]; eauto.
Qed.

(** A shuffled split cuts one permutation of the positions in two. *)
Lemma split_indices_shuffled (global : rng) (n_samples : nat) (test_size : float)
      (random_state : option Z) (train test : list nat) :
  fst (split_indices global n_samples test_size random_state true) = Ok (train, test) ->
  Permutation (test ++ train) (seq 0 n_samples) /\
  (exists c, ceil (PrimFloat.mul test_size (float_of_Z (Z.of_nat n_samples))) = Ok c /\
             List.length test = Z.to_nat c) /\
  List.length train = (n_samples - List.length test)%nat.
Proof.
  unfold split_indices.
  destruct (_validate_shuffle_split n_samples test_size) as [[n_train n_test]|e] eqn:V; [|discriminate].
  apply validate_Ok in V as ((c & Hc & Ht) & Hn & Hz).
  pose proof (permutation_spec (check_random_state global random_state) n_samples) as P.
  destruct (permutation (check_random_state global random_state) n_samples) as [perm g']; simpl in *.
  intros [= <- <-].
  assert (L : List.length perm = n_samples).
  { rewrite (Permutation_length P), length_seq; reflexivity. }
  assert (E : firstn n_train (skipn n_test perm) = skipn n_test perm).
  { apply firstn_all2. rewrite length_skipn. lia. }
  rewrite E, firstn_skipn. split; [exact P|].
  assert (Lt : List.length (firstn n_test perm) = n_test) by (rewrite length_firstn; lia).
  split; [exists c; split; [exact Hc | congruence] |].
  rewrite length_skipn, L, Lt. lia.
Qed.

Lemma split_indices_deterministic (g1 g2 : rng) (n_samples : nat) (test_size : float)
      (seed : Z) (shuffle : bool) :
  split_indices g1 n_samples test_size (Some seed) shuffle
  = (fst (split_indices g2 n_samples test_size (Some seed) shuffle), g1).
Proof.
  unfold split_indices.
  destruct (_validate_shuffle_split n_samples test_size) as [[n_train n_test]|e]; [|reflexivity].
  destruct shuffle; [|reflexivity]. simpl check_random_state.
  destruct (permutation (RandomState_seed seed) n_samples); reflexivity.
Qed.

(** C8.  The split is a function of the seed, the fraction and the input
    order alone: whatever state numpy's process-wide generator is in, the
    notebook's split (seeded with [RAND_STATE]) returns the same partition,
    and it leaves that generator untouched.  The same holds for any seeded
    call of [train_test_split]. *)
Theorem split_deterministic (g1 g2 : rng) (math_data port_data : DataFrame) :
  fst (DataPreprocessing.split g1 math_data port_data)
  = fst (DataPreprocessing.split g2 math_data port_data) /\
  snd (DataPreprocessing.split g1 math_data port_data) = g1 /\
  forall (X : DataFrame) (y : Series) (test_size : float) (seed : Z) (shuffle : bool),
    fst (train_test_split g1 X y test_size (Some seed) shuffle)
    = fst (train_test_split g2 X y test_size (Some seed) shuffle).
Proof.
  assert (G : forall X y test_size seed shuffle,
             train_test_split g1 X y test_size (Some seed) shuffle
             = (fst (train_test_split g2 X y test_size (Some seed) shuffle), g1)).
  { intros; unfold train_test_split.
    destruct (Nat.eqb _ _); [|reflexivity].
    rewrite (split_indices_deterministic g1 g2).
    destruct (split_indices g2 _ _ _ _) as [[[tr te]|e] g]; reflexivity. }
  unfold DataPreprocessing.split.
  destruct (getitem _ _) as [y|e]; simpl.
  - rewrite G; simpl; auto using f_equal. split; [reflexivity|]. split; [reflexivity|].
    intros; rewrite G; reflexivity.
  - split; [reflexivity|]. split; [reflexivity|]. intros; rewrite G; reflexivity.
Qed.


Lemma take_nth_error {A : Type} (l : list A) (idx : list nat) (i : nat) :
  Forall (fun p => (p < List.length l)%nat) idx ->
  nth_error (take l idx) i
  = match nth_error idx i with Some p => nth_error l p | None => None end.
Proof.
  intros H; revert i; induction H as [|p idx Hp _ IH]; intros i; unfold take; simpl.
  - destruct i; reflexivity.
  - destruct (nth_error l p) as [a|] eqn:E; [|apply nth_error_None in E; lia].
    destruct i; simpl; [symmetry; exact E | apply IH].
Qed.

Lemma take_length {A : Type} (l : list A) (idx : list nat) :
  Forall (fun p => (p < List.length l)%nat) idx -> List.length (take l idx) = List.length idx.
Proof.
  induction 1 as [|p idx Hp _ IH]; unfold take; simpl; [reflexivity|].
  destruct (nth_error l p) as [a|] eqn:E; [|apply nth_error_None in E; lia].
  simpl; f_equal; exact IH.
Qed.

Lemma perm_in_range (idx : list nat) (n : nat) :
  Permutation idx (seq 0 n) -> Forall (fun p => (p < n)%nat) idx.
Proof.
  intros P; apply Forall_forall; intros p Hp.
  apply (Permutation_in _ P), in_seq in Hp; lia.
Qed.

Lemma perm_disjoint (train test : list nat) (n : nat) :
  Permutation (test ++ train) (seq 0 n) -> forall i, In i train -> ~ In i test.
Proof.
  intros P i Htr Hte.
  assert (ND : NoDup (test ++ train)).
  { eapply Permutation_NoDup; [apply Permutation_sym, P | apply seq_NoDup]. }
  revert ND Htr Hte; clear; induction test as [|t test IH]; simpl; [tauto|].
  intros ND Htr [->|Hte]; inversion ND as [|x l Hx ND']; subst.
  - apply Hx, in_or_app; auto.
  - auto.
Qed.

(** What a successful [train_test_split] returns. *)
Lemma train_test_split_Ok (global : rng) (X : DataFrame) (y : Series) (test_size : float)
      (random_state : option Z) (s : Split) :
  fst (train_test_split global X y test_size random_state true) = Ok s ->
  List.length (rows X) = List.length (s_values y) /\
  exists train test,
    fst (split_indices global (List.length (rows X)) test_size random_state true) = Ok (train, test) /\
    s = mkSplit (iloc X train) (iloc X test) (series_iloc y train) (series_iloc y test).
Proof.
  unfold train_test_split.
  destruct (Nat.eqb_spec (List.length (rows X)) (List.length (s_values y))) as [E|E]; [|discriminate].
  destruct (split_indices _ _ _ _ _) as [[[train test]|e] g]; simpl; [|discriminate].
  intros [= <-]; split; [exact E|]. exists train, test; auto.
Qed.


Import DataPreprocessing.


Lemma concat_pair_rows (a b : DataFrame) : rows (concat [a; b]) = rows a ++ rows b.
Proof. unfold concat; simpl; rewrite app_nil_r; reflexivity. Qed.

Lemma getitem_Ok (df : DataFrame) (name : string) (y : Series) :
  getitem df name = Ok y ->
  mapM (row_get (columns df) name) (rows df) = Ok (s_values y) /\
  s_index y = map label (rows df).
Proof.
  unfold getitem; destruct (has_column df name); [|discriminate].
  intros H; apply bind_Ok in H as (vs & Hvs & [= <-]); auto.
Qed.

(** What the notebook's split returns when it returns. *)
Lemma split_Ok_inv (global : rng) (math_data port_data : DataFrame) (s : Split) :
  fst (split global math_data port_data) = Ok s ->
  exists y train test,
    getitem (concat [math_data; port_data]) "G3" = Ok y /\
    X_train s = iloc (drop_column (concat [math_data; port_data]) "G3") train /\
    X_test s = iloc (drop_column (concat [math_data; port_data]) "G3") test /\
    y_train s = series_iloc y train /\ y_test s = series_iloc y test /\
    Permutation (test ++ train) (seq 0 (List.length (rows (concat [math_data; port_data])))) /\
    (forall i, In i train -> ~ In i test) /\
    List.length (rows (X_test s)) = List.length test /\
    List.length (rows (X_train s)) = List.length train /\
    (exists c,
        ceil (PrimFloat.mul TEST_SIZE
                (float_of_Z (Z.of_nat (List.length (rows (concat [math_data; port_data]))))))
        = Ok c /\
        List.length test = Z.to_nat c) /\
    List.length train
    = (List.length (rows (concat [math_data; port_data])) - List.length test)%nat.
Proof.
  set (df := concat [math_data; port_data]). set (X := drop_column df "G3").
  assert (LX : List.length (rows X) = List.length (rows df)).
  { unfold X, drop_column; simpl; apply length_map. }
  intros Hs. unfold split in Hs. fold df in Hs. fold X in Hs.
  destruct (getitem df "G3") as [y|e] eqn:Hy; [|discriminate].
  apply train_test_split_Ok in Hs as (_ & train & test & Hi & ->).
  apply split_indices_shuffled in Hi as (P & Lt & Ln). rewrite LX in P, Lt, Ln.
  assert (R : Forall (fun p => (p < List.length (rows X))%nat) (test ++ train)).
  { rewrite LX; apply perm_in_range, P. }
  apply Forall_app in R as [Rte Rtr].
  exists y, train, test. repeat split; auto.
  - eapply perm_disjoint; eauto.
  - simpl; apply take_length, Rte.
  - simpl; apply take_length, Rtr.
Qed.


Lemma target_not_selected : ~ In "G3" (numeric_cols_to_keep ++ nominal_cols_to_keep).
Proof. simpl; intros H; repeat destruct H as [H|H]; try discriminate H; exact H. Qed.

Lemma DataFrame_of_output_Ok (ct : ColumnTransformer.t) (M : list (list float))
      (names : list string) (t0 : Table) :
  DataFrame_of_output ct M names = Ok t0 ->
  ColumnTransformer.sparse_output_ ct = false /\ DataFrame_of_array M names = Ok t0.
Proof.
  unfold DataFrame_of_output. destruct (ColumnTransformer.sparse_output_ ct); [discriminate|auto].
Qed.

Lemma attach_aligned (df : DataFrame) (y : Series) (ct : ColumnTransformer.t) (idx : list nat)
      (M : list (list float)) (names : list string) (t0 tb : Table) :
  Forall (fun p => (p < List.length (rows df))%nat) idx ->
  getitem df "G3" = Ok y ->
  ct_transform ct (iloc (drop_column df "G3") idx) = Ok M ->
  DataFrame_of_array M names = Ok t0 ->
  setitem t0 "G3" (np_array (series_iloc y idx)) = Ok tb ->
  aligned df ct idx tb.
Proof.
  intros Hidx Hy HM Ht0 Htb.
  destruct (getitem_Ok _ _ _ Hy) as [Hv _].
  pose proof (mapM_length _ _ _ Hv) as Lv.
  apply ColumnTransformerFacts.transform_rowwise in HM as (_ & _ & _ & _ & _ & HM). simpl in HM.
  assert (Hidx' : Forall (fun p => (p < List.length
             (map (fun r => mkRow (label r) (drop_cells "G3" (columns df) (cells r))) (rows df)))%nat) idx).
  { rewrite length_map; exact Hidx. }
  pose proof (mapM_length _ _ _ HM) as LM. rewrite (take_length _ _ Hidx') in LM.
  unfold DataFrame_of_array in Ht0. destruct (forallb _ M); [|discriminate]. injection Ht0 as <-.
  unfold setitem, np_array in Htb; simpl in Htb.
  destruct (Nat.eqb _ _); [|discriminate]. injection Htb as <-. simpl.
  assert (Hidx'' : Forall (fun p => (p < List.length (s_values y))%nat) idx) by (rewrite Lv; exact Hidx).
  unfold aligned; cbn [t_rows t_columns].
  split.
  - rewrite zipWith_length, length_combine, length_seq, length_map, (take_length _ _ Hidx''), LM.
    lia.
  - intros i p Hi.
    assert (Hp : (p < List.length (rows df))%nat).
    { rewrite Forall_forall in Hidx; apply Hidx; eapply nth_error_In; eauto. }
    destruct (nth_error (rows df) p) as [src|] eqn:Hsrc; [|apply nth_error_None in Hsrc; lia].
    destruct (mapM_nth_error _ _ _ _ _ Hv Hsrc) as (g3 & Hg3 & Hget).
    assert (Hrow : nth_error (take (map (fun r => mkRow (label r) (drop_cells "G3" (columns df) (cells r)))
                                        (rows df)) idx) i
                   = Some (mkRow (label src) (drop_cells "G3" (columns df) (cells src)))).
    { rewrite (take_nth_error _ _ _ Hidx'), Hi, nth_error_map, Hsrc; reflexivity. }
    destruct (mapM_nth_error _ _ _ _ _ HM Hrow) as (feats & Hfeats & Htr).
    exists src, g3, feats. split; [reflexivity|]. split; [exact Hget|]. split.
    + rewrite <- Htr. symmetry. apply transform_row_agree.
      intros name Hin; unfold row_get; simpl. rewrite lookup_drop; [reflexivity|].
      intros ->; exact (target_not_selected Hin).
    + rewrite nth_error_zipWith, combine_zipWith, nth_error_zipWith.
      rewrite nth_error_seq0 by (rewrite LM; apply nth_error_Some; congruence).
      rewrite nth_error_map, Hfeats; simpl.
      rewrite (take_nth_error _ _ _ Hidx''), Hi, Hg3. reflexivity.
Qed.

(** C10.  In the written train (resp. test) table, row [i] carries the
    transformed features and the target of one and the same source row: the
    row at position [p] of the concatenated table, where [p] is the [i]-th
    position the split chose.  The written index is the fresh [0, 1, ..],
    and the target was attached by position. *)
Theorem label_alignment (global : rng) (math_data port_data : DataFrame) (train_df test_df : Table) :
  notebook global math_data port_data = Ok (train_df, test_df) ->
  let df := concat [math_data; port_data] in
  exists s ct train test,
    fst (split global math_data port_data) = Ok s /\
    ct_fit (X_train s) = Ok ct /\
    Permutation (test ++ train) (seq 0 (List.length (rows df))) /\
    aligned df ct train train_df /\
    aligned df ct test test_df.
Proof.
  intros H df. unfold notebook in H.
  apply bind_Ok in H as (s & Hs & H).
  destruct (split_Ok_inv global math_data port_data s Hs)
    as (y & train & test & Hy & Etr & Ete & Eytr & Eyte & P & _).
  fold df in Hy, Etr, Ete, P.
  unfold process in H.
  apply bind_Ok in H as (ct & Hct & H).
  apply bind_Ok in H as (Mtr & HMtr & H). apply bind_Ok in H as (Mte & HMte & H).
  apply bind_Ok in H as (t0 & Ht0 & H). apply bind_Ok in H as (ttr & Httr & H).
  apply bind_Ok in H as (t1 & Ht1 & H). apply bind_Ok in H as (tte & Htte & [= <- <-]).
  apply DataFrame_of_output_Ok in Ht0 as [_ Ht0]. apply DataFrame_of_output_Ok in Ht1 as [_ Ht1].
  assert (R : Forall (fun p => (p < List.length (rows df))%nat) (test ++ train))
    by (apply perm_in_range, P).
  apply Forall_app in R as [Rte Rtr].
  exists s, ct, train, test.
  split; [exact Hs|]. split; [exact Hct|]. split; [exact P|]. split.
  - rewrite Etr in HMtr. rewrite Eytr in Httr.
    exact (attach_aligned df y ct train Mtr _ t0 ttr Rtr Hy HMtr Ht0 Httr).
  - rewrite Ete in HMte. rewrite Eyte in Htte.
    exact (attach_aligned df y ct test Mte _ t1 tte Rte Hy HMte Ht1 Htte).
Qed.

End SplitFacts.


(** Without a seed the split follows the process-wide generator. *)
Example unseeded_split_varies :
  fst (split_indices (RS := Rotation) 1%Z 10 DataPreprocessing.TEST_SIZE None true)
  <> fst (split_indices (RS := Rotation) 2%Z 10 DataPreprocessing.TEST_SIZE None true).
Proof. vm_compute; discriminate. Qed.

Lemma label_alignment_witness :
  exists train_df test_df,
    DataPreprocessing.notebook (RS := Rotation) 0%Z math_small port_small = Ok (train_df, test_df) /\
    exists s ct train test,
      fst (DataPreprocessing.split (RS := Rotation) 0%Z math_small port_small) = Ok s /\
      DataPreprocessing.ct_fit (X_train s) = Ok ct /\
      Permutation (test ++ train) (seq 0 20) /\
      aligned (concat [math_small; port_small]) ct train train_df /\
      aligned (concat [math_small; port_small]) ct test test_df.
Proof.
  eexists; eexists; split; [vm_compute; reflexivity|].
  apply (label_alignment (RS := Rotation) 0%Z math_small port_small).
  vm_compute; reflexivity.
Defined.

(** * Further properties of the code *)
(** A transformer is fit on a table that has rows. *)
Lemma fit_nonempty (num_cols nom_cols : list string) (df : DataFrame) (ct : ColumnTransformer.t) :
  ColumnTransformer.fit num_cols nom_cols df = Ok ct -> rows df <> [].
Proof.
  intros Hfit.
  destruct (ColumnTransformerFacts.fit_inv _ _ _ _ Hfit) as (Xn & Sn & Xc & Sc & _ & HXn & Hsc & _).
  destruct (MinMaxScalerFacts.fit_lengths _ _ Hsc) as (r0 & X' & -> & _).
  destruct (select_float_Ok _ _ _ HXn) as [_ HF]. inversion HF; discriminate.
Qed.

(** X1.  [ct.fit_transform(X_train)] returns once the fit succeeds: a fitted
    transformer transforms every row of the table it was fit on, one output
    row per input row. *)
Theorem fit_transform_returns (Xtrain : DataFrame) (ct : ColumnTransformer.t) :
  DataPreprocessing.ct_fit Xtrain = Ok ct ->
  exists M, DataPreprocessing.ct_transform ct Xtrain = Ok M /\
            List.length M = List.length (rows Xtrain).
Proof.
  intros Hfit. unfold DataPreprocessing.ct_fit in Hfit.
  destruct (fit_has_columns _ _ _ _ Hfit) as (Hn & Hc & _).
  destruct (ColumnTransformerFacts.fit_frame _ _ _ _ Hfit) as [Hnf Hdf].
  destruct (mapM_all_Ok (ColumnTransformer.transform_row DataPreprocessing.numeric_cols_to_keep
                           DataPreprocessing.nominal_cols_to_keep ct (columns Xtrain)) (rows Xtrain))
    as [M HM].
  { intros r Hr. destruct (fit_rows_known _ _ _ _ r Hfit Hr) as [H1 H2].
    exact (transform_row_accepts _ _ _ _ _ _ Hfit H1 H2). }
  exists M. split; [|exact (mapM_length _ _ _ HM)].
  apply ColumnTransformerFacts.transform_rowwise.
  split; [rewrite Hnf; apply Nat.le_refl|].
  split; [apply ColumnTransformerFacts.leading_columns; rewrite Hdf; apply firstn_all|].
  split; [exact Hn|]. split; [exact Hc|]. split; [exact (fit_nonempty _ _ _ _ Hfit) | exact HM].
Qed.

Lemma fit_transform_returns_witness :
  exists ct M, DataPreprocessing.ct_fit train_features = Ok ct /\
    DataPreprocessing.ct_transform ct train_features = Ok M /\ List.length M = 3%nat.
Proof.
  eexists.
  destruct (fit_transform_returns train_features _ ltac:(vm_compute; reflexivity)) as (M & HM & L).
  exists M. split; [vm_compute; reflexivity|]. split; [exact HM | exact L].
Defined.

(** ** Column names *)

Lemma kept_length (cats : list cell) :
  List.length (OneHotEncoder.kept cats (OneHotEncoder.if_binary cats))
  = indicator_width (List.length cats).
Proof.
  rewrite <- (indicators_length cats (Str "")), <- indicators_kept, length_map. reflexivity.
Qed.

Lemma kept_In (cats : list cell) (c : cell) :
  In c (OneHotEncoder.kept cats (OneHotEncoder.if_binary cats)) -> In c cats.
Proof.
  unfold OneHotEncoder.kept, OneHotEncoder.if_binary.
  destruct (Nat.eqb (List.length cats) 2); [|auto].
  unfold OneHotEncoder.delete; simpl. destruct cats; simpl; auto.
Qed.

Lemma get_feature_names_length (cats : list (list cell)) (names : list string) :
  List.length names = List.length cats ->
  List.length (OneHotEncoder.get_feature_names
                 (OneHotEncoder.mk cats (map OneHotEncoder.if_binary cats)) names)
  = list_sum (map (fun cs => indicator_width (List.length cs)) cats).
Proof.
  unfold OneHotEncoder.get_feature_names; simpl.
  revert names; induction cats as [|cs cats IH]; intros [|name names]; simpl; try discriminate; auto.
  intros [= L]. rewrite length_app, length_map, kept_length, IH by exact L. reflexivity.
Qed.

Lemma transformed_width (Xtrain X : DataFrame) (ct : ColumnTransformer.t) (M : list (list float)) :
  DataPreprocessing.ct_fit Xtrain = Ok ct ->
  DataPreprocessing.ct_transform ct X = Ok M ->
  Forall (fun out => List.length out
                     = (8 + list_sum (map (fun cs => indicator_width (List.length cs))
                                          (OneHotEncoder.categories_ (ColumnTransformer.nominal ct))))%nat) M.
Proof.
  intros Hfit HM.
  destruct (ColumnTransformerFacts.fit_categories _ _ _ _ Hfit) as (Hlen & Hdrop & _).
  destruct (fit_scale_length _ _ _ _ Hfit) as [Ls Lm].
  apply ColumnTransformerFacts.transform_rowwise in HM as (_ & _ & _ & _ & _ & HM). apply mapM_Ok in HM.
  apply Forall_forall. intros out Hout.
  destruct (Forall2_In_r _ _ _ out HM Hout) as (r & _ & Hr). cbv beta in Hr.
  unfold ColumnTransformer.transform_row in Hr.
  apply bind_Ok in Hr as (scaled & Hs & Hr). apply bind_Ok in Hr as (ind & Hi & [= <-]).
  apply bind_Ok in Hs as (nums & Hnums & Hs). apply bind_Ok in Hi as (vals & Hvals & Hi).
  destruct (OneHotEncoderFacts.transform_row_Ok _ _ _ Hi) as (Lv & -> & _).
  rewrite Hdrop, zip_indicators, length_app, concat_indicators_length by exact Lv.
  f_equal. revert Hs; unfold MinMaxScaler.transform_row.
  destruct (Nat.eqb _ _) eqn:E; [|discriminate]. apply Nat.eqb_eq in E.
  intros [= <-]. rewrite !zipWith_length, E, Ls, Lm. reflexivity.
Qed.

Lemma transformed_col_names_length (Xtrain : DataFrame) (ct : ColumnTransformer.t) :
  DataPreprocessing.ct_fit Xtrain = Ok ct ->
  List.length (DataPreprocessing.transformed_col_names ct)
  = (8 + list_sum (map (fun cs => indicator_width (List.length cs))
                       (OneHotEncoder.categories_ (ColumnTransformer.nominal ct))))%nat.
Proof.
  intros Hfit.
  destruct (ColumnTransformerFacts.fit_categories _ _ _ _ Hfit) as (Hlen & Hdrop & _).
  unfold DataPreprocessing.transformed_col_names. rewrite length_app. f_equal.
  destruct (ColumnTransformer.nominal ct) as [cats drops]; simpl in *. subst drops.
  apply get_feature_names_length. rewrite Hlen; reflexivity.
Qed.

(** ** Each transformed column holds what its name says *)

Lemma names_indicators_nth (names : list string) (vals : list cell)
      (cds : list (list cell * option nat)) (p : nat) (nm : string) (x : float) :
  List.length names = List.length cds -> List.length vals = List.length cds ->
  nth_error (List.concat
               (zipWith (fun name cd => map (fun c => (name ++ "_" ++ OneHotEncoder.str c)%string)
                                            (OneHotEncoder.kept (fst cd) (snd cd)))
                        names cds)) p = Some nm ->
  nth_error (List.concat
               (zipWith (fun v cd => map (fun c => if cell_eqb v c then 1%float else 0%float)
                                         (OneHotEncoder.kept (fst cd) (snd cd)))
                        vals cds)) p = Some x ->
  exists j name v cd c,
    nth_error names j = Some name /\ nth_error vals j = Some v /\ nth_error cds j = Some cd /\
    In c (OneHotEncoder.kept (fst cd) (snd cd)) /\
    nm = (name ++ "_" ++ OneHotEncoder.str c)%string /\
    x = (if cell_eqb v c then 1%float else 0%float).
Proof.
  revert names vals p.
  induction cds as [|cd cds IH]; intros [|name names] [|v vals] p; simpl; try discriminate.
  - intros _ _ H; destruct p; discriminate H.
  - intros [= Ln] [= Lv] Hn Hx.
    destruct (Nat.lt_ge_cases p (List.length (OneHotEncoder.kept (fst cd) (snd cd)))) as [Hp|Hp].
    + rewrite nth_error_app1 in Hn, Hx by (rewrite length_map; exact Hp).
      rewrite nth_error_map in Hn, Hx.
      destruct (nth_error (OneHotEncoder.kept (fst cd) (snd cd)) p) as [c|] eqn:Hc; [|discriminate].
      injection Hn as <-; injection Hx as <-.
      exists 0%nat, name, v, cd, c. repeat split; auto. eapply nth_error_In; eauto.
    + rewrite nth_error_app2 in Hn, Hx by (rewrite length_map; exact Hp).
      rewrite length_map in Hn, Hx.
      destruct (IH names vals _ Ln Lv Hn Hx) as (j & name' & v' & cd' & c & H1 & H2 & H3 & H4).
      exists (S j), name', v', cd', c. auto.
Qed.

(** X2.  The names computed for the written tables name the columns of the
    transformed matrix: there is one name per column, the entry under a
    numeric name is that column's value of the row times [scale_] plus
    [min_], and the entry under [name_category] is 1 when the row holds that
    category in the column [name] and 0 otherwise. *)
Theorem header_names_values (Xtrain X : DataFrame) (ct : ColumnTransformer.t)
        (M : list (list float)) (i : nat) (r : Row) (out : list float) :
  DataPreprocessing.ct_fit Xtrain = Ok ct ->
  DataPreprocessing.ct_transform ct X = Ok M ->
  nth_error (rows X) i = Some r ->
  nth_error M i = Some out ->
  List.length out = List.length (DataPreprocessing.transformed_col_names ct) /\
  forall p nm x,
    nth_error (DataPreprocessing.transformed_col_names ct) p = Some nm ->
    nth_error out p = Some x ->
    (exists z s m,
        nth_error DataPreprocessing.numeric_cols_to_keep p = Some nm /\
        row_get (columns X) nm r = Ok (Num z) /\
        nth_error (MinMaxScaler.scale_ (ColumnTransformer.numeric ct)) p = Some s /\
        nth_error (MinMaxScaler.min_ (ColumnTransformer.numeric ct)) p = Some m /\
        x = PrimFloat.add (PrimFloat.mul (float_of_Z z) s) m) \/
    (exists j name cats v c,
        nth_error DataPreprocessing.nominal_cols_to_keep j = Some name /\
        nth_error (OneHotEncoder.categories_ (ColumnTransformer.nominal ct)) j = Some cats /\
        In c cats /\
        row_get (columns X) name r = Ok v /\
        nm = (name ++ "_" ++ OneHotEncoder.str c)%string /\
        x = (if cell_eqb v c then 1%float else 0%float)).
Proof.
  intros Hfit HM Hr Hout.
  assert (HL : List.length out = List.length (DataPreprocessing.transformed_col_names ct)).
  { rewrite (transformed_col_names_length _ _ Hfit).
    pose proof (transformed_width _ _ _ _ Hfit HM) as HF. rewrite Forall_forall in HF.
    apply HF. eapply nth_error_In; eauto. }
  split; [exact HL|].
  unfold DataPreprocessing.ct_fit in Hfit.
  destruct (ColumnTransformerFacts.fit_categories _ _ _ _ Hfit) as (Hlen & Hdrop & _).
  destruct (fit_scale_length _ _ _ _ Hfit) as [Ls Lm].
  destruct (ColumnTransformerFacts.transform_nth _ _ _ _ _ HM) as [_ Hrows].
  destruct (Hrows i r Hr) as (f & Hf & Htr). rewrite Hout in Hf; injection Hf as <-.
  unfold ColumnTransformer.transform_row in Htr.
  apply bind_Ok in Htr as (scaled & Hs & Htr). apply bind_Ok in Htr as (ind & Hi & [= <-]).
  apply bind_Ok in Hs as (nums & Hnums & Hs). apply bind_Ok in Hi as (vals & Hvals & Hi).
  apply bind_Ok in Hnums as (cs & Hcs & Hnums).
  destruct (OneHotEncoderFacts.transform_row_Ok _ _ _ Hi) as (Lv & -> & _).
  assert (L8 : List.length scaled = 8%nat).
  { revert Hs; unfold MinMaxScaler.transform_row.
    destruct (Nat.eqb _ _) eqn:E; [|discriminate]. apply Nat.eqb_eq in E.
    intros [= <-]. rewrite !zipWith_length, E, Ls, Lm. reflexivity. }
  intros p nm x Hnm Hx. unfold DataPreprocessing.transformed_col_names in Hnm.
  destruct (Nat.lt_ge_cases p 8) as [Hp|Hp].
  - left. rewrite nth_error_app1 in Hnm by exact Hp.
    rewrite nth_error_app1 in Hx by (rewrite L8; exact Hp).
    destruct (Forall2_nth_l _ _ _ p nm (mapM_Ok _ _ _ Hcs) Hnm) as (c & Hc & Hget).
    destruct (mapM_nth_error _ _ _ _ _ Hnums Hc) as (q & Hq & Hfl).
    destruct c as [z|s0]; [|discriminate Hfl]. injection Hfl as <-.
    destruct (nth_error (MinMaxScaler.scale_ (ColumnTransformer.numeric ct)) p) as [s|] eqn:Es;
      [|apply nth_error_None in Es; rewrite Ls in Es; simpl in Es; lia].
    destruct (nth_error (MinMaxScaler.min_ (ColumnTransformer.numeric ct)) p) as [m|] eqn:Em;
      [|apply nth_error_None in Em; rewrite Lm in Em; simpl in Em; lia].
    exists z, s, m. repeat split; auto.
    pose proof (MinMaxScalerFacts.transform_row_nth _ _ _ p _ s m Hs Hq Es Em) as Hn.
    rewrite Hx in Hn. injection Hn as ->. reflexivity.
  - right. rewrite nth_error_app2 in Hnm by exact Hp.
    rewrite nth_error_app2 in Hx by (rewrite L8; exact Hp). rewrite L8 in Hx.
    unfold OneHotEncoder.get_feature_names in Hnm. change (List.length DataPreprocessing.numeric_cols_to_keep) with 8%nat in Hnm.
    assert (Lc : List.length (combine (OneHotEncoder.categories_ (ColumnTransformer.nominal ct))
                                      (OneHotEncoder.drop_idx_ (ColumnTransformer.nominal ct)))
                 = 6%nat).
    { rewrite length_combine, Hdrop, length_map, Hlen. reflexivity. }
    assert (L1 : List.length DataPreprocessing.nominal_cols_to_keep
                 = List.length (combine (OneHotEncoder.categories_ (ColumnTransformer.nominal ct))
                                        (OneHotEncoder.drop_idx_ (ColumnTransformer.nominal ct))))
      by (rewrite Lc; reflexivity).
    assert (L2 : List.length vals
                 = List.length (combine (OneHotEncoder.categories_ (ColumnTransformer.nominal ct))
                                        (OneHotEncoder.drop_idx_ (ColumnTransformer.nominal ct))))
      by (rewrite Lc, Lv, Hlen; reflexivity).
    destruct (names_indicators_nth _ _ _ _ _ _ L1 L2 Hnm Hx)
      as (j & name & v & [cats d] & c & Hj & Hv & Hcd & Hc & -> & ->).
    rewrite Hdrop, combine_zipWith, nth_error_zipWith, nth_error_map in Hcd.
    destruct (nth_error (OneHotEncoder.categories_ (ColumnTransformer.nominal ct)) j) as [cats'|] eqn:Ec;
      [|discriminate]. simpl in Hcd. injection Hcd as <- <-. simpl in Hc.
    exists j, name, cats', v, c. repeat split; auto.
    + apply (kept_In cats' c Hc).
    + destruct (Forall2_nth_r _ _ _ j v (mapM_Ok _ _ _ Hvals) Hv) as (name' & Hn' & Hget).
      rewrite Hj in Hn'; injection Hn' as <-. exact Hget.
Qed.

Lemma header_names_values_witness :
  exists ct M r out,
    DataPreprocessing.ct_fit train_features = Ok ct /\
    DataPreprocessing.ct_transform ct request_seen = Ok M /\
    nth_error (rows request_seen) 0 = Some r /\
    nth_error M 0 = Some out /\
    List.length out = List.length (DataPreprocessing.transformed_col_names ct).
Proof.
  do 4 eexists. split; [vm_compute; reflexivity|]. split; [vm_compute; reflexivity|].
  split; [reflexivity|]. split; [reflexivity|].
  refine (proj1 (header_names_values train_features request_seen _ _ 0 _ _ _ _ _ _));
    vm_compute; reflexivity.
Defined.

(** The sample request, column by column: every entry under its name. *)
Example sample_named_row :
  (do ct <- DataPreprocessing.ct_fit train_features;
   do M <- DataPreprocessing.ct_transform ct request_seen;
   Ok (map (combine (DataPreprocessing.transformed_col_names ct)) M))
  = Ok [[("age", 0x1.249249249249p-2); ("Medu", 0.75); ("traveltime", 0x1.5555555555555p-2);
         ("studytime", 0x1.5555555555555p-2); ("failures", 0x1.5555555555555p-2);
         ("goout", 0.25); ("Dalc", 0); ("absences", 0.5);
         ("address_U", 0); ("Fjob_other", 1); ("Fjob_services", 0); ("Fjob_teacher", 0);
         ("guardian_father", 0); ("guardian_mother", 1); ("guardian_other", 0);
         ("higher_yes", 1); ("internet_yes", 1); ("romantic_yes", 0)]]%float.
Proof. vm_compute; reflexivity. Qed.

(** ** The names are distinct *)

Lemma to_int_printable (z : Z) :
  Z.to_int z <> Decimal.Pos Decimal.Nil /\ Z.to_int z <> Decimal.Neg Decimal.Nil.
Proof.
  destruct z as [|p|p]; simpl; split; try discriminate; intros [= H];
    exact (DecimalPos.Unsigned.to_uint_nonnil p H).
Qed.

Lemma str_inj (a b : cell) :
  OneHotEncoder.same_kind a b = true -> OneHotEncoder.str a = OneHotEncoder.str b -> a = b.
Proof.
  destruct a as [x|s], b as [y|t]; simpl; try discriminate; intros _ H; [|congruence].
  f_equal. apply DecimalZ.to_int_inj.
  destruct (to_int_printable x) as [X1 X2], (to_int_printable y) as [Y1 Y2].
  pose proof (DecimalString.NilZero.isi _ X1 X2) as Hx.
  pose proof (DecimalString.NilZero.isi _ Y1 Y2) as Hy.
  rewrite H in Hx. congruence.
Qed.

Lemma same_kind_trans (a b c : cell) :
  OneHotEncoder.same_kind a b = true -> OneHotEncoder.same_kind a c = true ->
  OneHotEncoder.same_kind b c = true.
Proof. destruct a, b, c; simpl; congruence. Qed.

Lemma encode_same_kind (col cats : list cell) (a b : cell) :
  OneHotEncoder._encode col = Ok cats -> In a cats -> In b cats ->
  OneHotEncoder.same_kind a b = true.
Proof.
  intros H Ha Hb.
  destruct (OneHotEncoderFacts.encode_spec _ _ H) as (_ & _ & Hin).
  apply Hin in Ha, Hb. unfold OneHotEncoder._encode in H.
  destruct col as [|x xs]; [destruct Ha|].
  destruct (forallb (OneHotEncoder.same_kind x) xs) eqn:E; [|discriminate].
  rewrite forallb_forall in E.
  assert (K : forall c, In c (x :: xs) -> OneHotEncoder.same_kind x c = true).
  { intros c [<-|Hc]; [destruct x; reflexivity | auto]. }
  exact (same_kind_trans x a b (K a Ha) (K b Hb)).
Qed.

Lemma kept_if_binary (cats : list cell) :
  OneHotEncoder.kept cats (OneHotEncoder.if_binary cats)
  = if Nat.eqb (List.length cats) 2 then tl cats else cats.
Proof.
  unfold OneHotEncoder.kept, OneHotEncoder.if_binary.
  destruct (Nat.eqb (List.length cats) 2); [|reflexivity].
  unfold OneHotEncoder.delete; simpl. destruct cats; reflexivity.
Qed.

Lemma kept_NoDup (cats : list cell) :
  NoDup cats ->
  NoDup (OneHotEncoder.kept cats (OneHotEncoder.if_binary cats)) /\
  incl (OneHotEncoder.kept cats (OneHotEncoder.if_binary cats)) cats.
Proof.
  intros H. rewrite kept_if_binary.
  destruct (Nat.eqb (List.length cats) 2); [|split; [exact H | apply incl_refl]].
  destruct cats as [|c cats]; simpl; [split; [exact H | apply incl_refl]|].
  inversion H; subst. split; [assumption | apply incl_tl, incl_refl].
Qed.

(** The names of one indicator block. *)
Lemma block_names_NoDup (col cats : list cell) (name : string) :
  OneHotEncoder._encode col = Ok cats ->
  NoDup (map (fun c => (name ++ "_" ++ OneHotEncoder.str c)%string)
             (OneHotEncoder.kept cats (OneHotEncoder.if_binary cats))).
Proof.
  intros H. destruct (OneHotEncoderFacts.encode_spec _ _ H) as (_ & Hnd & _).
  destruct (kept_NoDup cats Hnd) as [Hk Hincl].
  apply Finite.Injective_map_NoDup_in; [|exact Hk].
  intros a b Ha Hb E. apply str_inj.
  - exact (encode_same_kind col cats a b H (Hincl a Ha) (Hincl b Hb)).
  - induction name as [|ch name IH]; simpl in E; [injection E; auto | injection E; auto].
Qed.

Lemma fit_encoded (num_cols nom_cols : list string) (df : DataFrame) (ct : ColumnTransformer.t)
      (j : nat) (cats : list cell) :
  ColumnTransformer.fit num_cols nom_cols df = Ok ct ->
  nth_error (OneHotEncoder.categories_ (ColumnTransformer.nominal ct)) j = Some cats ->
  exists col, OneHotEncoder._encode col = Ok cats.
Proof.
  intros Hfit Hj.
  destruct (ColumnTransformerFacts.fit_Ok _ _ _ _ Hfit) as (Xn & Xc & _ & _ & _ & Henc).
  destruct (OneHotEncoderFacts.encoder_fit_inv _ _ Henc) as (r0 & X' & _ & _ & _ & H).
  destruct (H j cats Hj) as [_ He]. eauto.
Qed.

(** Lists whose entries carry the tag of their block. *)
Lemma tagged_In {A T : Type} (tag : A -> T) (blocks : list (T * list A)) (x : A) :
  (forall t l, In (t, l) blocks -> forall y, In y l -> tag y = t) ->
  In x (List.concat (map snd blocks)) -> In (tag x) (map fst blocks).
Proof.
  induction blocks as [|[t l] blocks IH]; simpl; intros H Hx; [exact Hx|].
  apply in_app_or in Hx as [Hx|Hx].
  - left. symmetry. exact (H t l (or_introl eq_refl) x Hx).
  - right. apply IH; [|exact Hx]. intros t' l' Hin. apply H. right; exact Hin.
Qed.

Lemma tagged_NoDup {A T : Type} (tag : A -> T) (blocks : list (T * list A)) :
  NoDup (map fst blocks) ->
  (forall t l, In (t, l) blocks -> NoDup l /\ forall y, In y l -> tag y = t) ->
  NoDup (List.concat (map snd blocks)).
Proof.
  induction blocks as [|[t l] blocks IH]; simpl; intros Hnd H; [constructor|].
  inversion Hnd as [|? ? Ht Hnd']; subst.
  apply NoDup_app.
  - exact (proj1 (H t l (or_introl eq_refl))).
  - apply IH; [exact Hnd'|]. intros t' l' Hin. apply H. right; exact Hin.
  - intros x Hx Hy. apply Ht.
    rewrite <- (proj2 (H t l (or_introl eq_refl)) x Hx).
    apply (tagged_In tag blocks x); [|exact Hy].
    intros t' l' Hin. exact (proj2 (H t' l' (or_intror Hin))).
Qed.

Lemma block_names_prefix (a b : ascii) (name : string) (k : list cell) (y : string) :
  In y (map (fun c => (String a (String b name) ++ "_" ++ OneHotEncoder.str c)%string) k) ->
  prefix2 y = String a (String b EmptyString).
Proof. intros Hy. apply in_map_iff in Hy as (c & <- & _). reflexivity. Qed.

Lemma transformed_col_names_NoDup (Xtrain : DataFrame) (ct : ColumnTransformer.t) :
  DataPreprocessing.ct_fit Xtrain = Ok ct ->
  NoDup (DataPreprocessing.transformed_col_names ct) /\
  ~ In "G3" (DataPreprocessing.transformed_col_names ct).
Proof.
  intros Hfit. unfold DataPreprocessing.ct_fit in Hfit.
  destruct (ColumnTransformerFacts.fit_categories _ _ _ _ Hfit) as (Hlen & Hdrop & _).
  pose proof (fun j cats => fit_encoded _ _ _ _ j cats Hfit) as Henc.
  unfold DataPreprocessing.transformed_col_names, OneHotEncoder.get_feature_names.
  destruct (ColumnTransformer.nominal ct) as [cats drops]; simpl in Hlen, Hdrop, Henc |- *.
  subst drops.
  destruct cats as [|c1 [|c2 [|c3 [|c4 [|c5 [|c6 [|c7 cats]]]]]]]; try discriminate Hlen.
  destruct (Henc 0%nat c1 eq_refl) as [l1 H1]. destruct (Henc 1%nat c2 eq_refl) as [l2 H2].
  destruct (Henc 2%nat c3 eq_refl) as [l3 H3]. destruct (Henc 3%nat c4 eq_refl) as [l4 H4].
  destruct (Henc 4%nat c5 eq_refl) as [l5 H5]. destruct (Henc 5%nat c6 eq_refl) as [l6 H6].
  set (block := fun (name : string) (cats : list cell) =>
         map (fun c => (name ++ "_" ++ OneHotEncoder.str c)%string)
             (OneHotEncoder.kept cats (OneHotEncoder.if_binary cats))).
  set (blocks :=
         map (fun name => (prefix2 name, [name])) DataPreprocessing.numeric_cols_to_keep
         ++ [(prefix2 "address", block "address" c1); (prefix2 "Fjob", block "Fjob" c2);
             (prefix2 "guardian", block "guardian" c3); (prefix2 "higher", block "higher" c4);
             (prefix2 "internet", block "internet" c5); (prefix2 "romantic", block "romantic" c6)]).
  change (NoDup (List.concat (map snd blocks)) /\ ~ In "G3" (List.concat (map snd blocks))).
  assert (Htag : forall t l, In (t, l) blocks -> NoDup l /\ forall y, In y l -> prefix2 y = t).
  { intros t l Hin. unfold blocks in Hin. apply in_app_or in Hin as [Hin|Hin].
    - apply in_map_iff in Hin as (name & [= <- <-] & _).
      split; [repeat constructor; intros []|]. intros y [<-|[]]; reflexivity.
    - simpl in Hin.
      destruct Hin as [[= <- <-]|[[= <- <-]|[[= <- <-]|[[= <- <-]|[[= <- <-]|[[= <- <-]|[]]]]]]];
        (split; [eapply block_names_NoDup; eassumption
                | intros y Hy; apply block_names_prefix in Hy; exact Hy]). }
  split.
  - apply (tagged_NoDup prefix2 blocks); [|exact Htag].
    unfold blocks; rewrite map_app, map_map; simpl.
    repeat (constructor; [simpl; intros H; repeat destruct H as [H|H]; try discriminate H; exact H|]).
    constructor.
  - intros Hin. apply (tagged_In prefix2 blocks) in Hin; [|intros t l H; exact (proj2 (Htag t l H))].
    unfold blocks in Hin; rewrite map_app, map_map in Hin; simpl in Hin.
    repeat destruct Hin as [Hin|Hin]; try discriminate Hin; exact Hin.
Qed.

(** ** The written tables *)

Section WrittenTables.

Context {RS : RandomState}.

Lemma table_of_array (M : list (list float)) (names : list string) (values : list cell)
      (t0 tb : Table) :
  DataFrame_of_array M names = Ok t0 ->
  setitem t0 "G3" values = Ok tb ->
  t_columns tb = names ++ ["G3"] /\
  List.length (t_rows tb) = List.length M /\
  Forall (fun row => List.length (snd row) = List.length (t_columns tb)) (t_rows tb).
Proof.
  unfold DataFrame_of_array, setitem. destruct (forallb _ M) eqn:E; [|discriminate].
  intros [= <-]; cbn [t_rows t_columns].
  destruct (Nat.eqb _ _) eqn:L; [|discriminate]. apply Nat.eqb_eq in L.
  intros [= <-]; cbn [t_rows t_columns].
  rewrite length_combine, length_seq, length_map, Nat.min_id in L.
  split; [reflexivity|]. split.
  - rewrite zipWith_length, length_combine, length_seq, length_map. lia.
  - rewrite forallb_forall in E. apply Forall_forall. intros row Hrow.
    apply In_nth_error in Hrow as [i Hi]. rewrite nth_error_zipWith in Hi.
    destruct (nth_error (combine _ _) i) as [[k fs]|] eqn:Hk; [|discriminate].
    destruct (nth_error values i); [|discriminate]. injection Hi as <-. simpl.
    apply nth_error_In, in_combine_r, in_map_iff in Hk as (f & <- & Hf).
    rewrite !length_app, length_map. simpl. f_equal. apply Nat.eqb_eq, E, Hf.
Qed.

(** X3.  The two tables the notebook writes have the same header: the
    transformed column names followed by [G3], all distinct (so the target
    is added as a new, last column and overwrites no feature), and every
    row has one value per header column. *)
Theorem written_header (global : rng) (math_data port_data : DataFrame)
        (train_df test_df : Table) :
  DataPreprocessing.notebook global math_data port_data = Ok (train_df, test_df) ->
  exists s ct,
    fst (DataPreprocessing.split global math_data port_data) = Ok s /\
    DataPreprocessing.ct_fit (X_train s) = Ok ct /\
    t_columns train_df = DataPreprocessing.transformed_col_names ct ++ ["G3"] /\
    t_columns test_df = t_columns train_df /\
    NoDup (t_columns train_df) /\
    List.length (t_rows train_df) = List.length (rows (X_train s)) /\
    List.length (t_rows test_df) = List.length (rows (X_test s)) /\
    Forall (fun row => List.length (snd row) = List.length (t_columns train_df)) (t_rows train_df) /\
    Forall (fun row => List.length (snd row) = List.length (t_columns test_df)) (t_rows test_df).
Proof.
  intros H. unfold DataPreprocessing.notebook in H.
  apply bind_Ok in H as (s & Hs & H). unfold DataPreprocessing.process in H.
  apply bind_Ok in H as (ct & Hct & H).
  apply bind_Ok in H as (Mtr & HMtr & H). apply bind_Ok in H as (Mte & HMte & H).
  apply bind_Ok in H as (t0 & Ht0 & H). apply bind_Ok in H as (ttr & Httr & H).
  apply bind_Ok in H as (t1 & Ht1 & H). apply bind_Ok in H as (tte & Htte & [= <- <-]).
  apply DataFrame_of_output_Ok in Ht0 as [_ Ht0]. apply DataFrame_of_output_Ok in Ht1 as [_ Ht1].
  destruct (table_of_array _ _ _ _ _ Ht0 Httr) as (Ctr & Ltr & Wtr).
  destruct (table_of_array _ _ _ _ _ Ht1 Htte) as (Cte & Lte & Wte).
  destruct (ColumnTransformerFacts.transform_nth _ _ _ _ _ HMtr) as [LMtr _].
  destruct (ColumnTransformerFacts.transform_nth _ _ _ _ _ HMte) as [LMte _].
  destruct (transformed_col_names_NoDup _ _ Hct) as [Hnd Hg3].
  exists s, ct. repeat split; auto; try congruence.
  rewrite Ctr. apply NoDup_app; [exact Hnd | repeat constructor; intros [] |].
  intros x Hx [<-|[]]. exact (Hg3 Hx).
Qed.

End WrittenTables.

Lemma written_header_witness :
  exists train_df test_df,
    DataPreprocessing.notebook (RS := Rotation) 0%Z math_small port_small = Ok (train_df, test_df) /\
    t_columns test_df = t_columns train_df /\
    NoDup (t_columns train_df).
Proof.
  do 2 eexists. split; [vm_compute; reflexivity|].
  destruct (written_header (RS := Rotation) 0%Z math_small port_small _ _
              ltac:(vm_compute; reflexivity))
    as (s & ct & _ & _ & _ & H1 & H2 & _).
  split; [exact H1 | exact H2].
Defined.

(** ** One-hot blocks *)

Lemma unit_vector (l : list cell) (i : nat) (v : cell) :
  NoDup l -> nth_error l i = Some v ->
  map (fun c => if cell_eqb v c then 1%float else 0%float) l
  = repeat 0%float i ++ 1%float :: repeat 0%float (List.length l - S i).
Proof.
  revert i; induction l as [|c l IH]; intros [|i] Hnd Hi; simpl in *; try discriminate.
  - injection Hi as ->. rewrite cell_eqb_refl, Nat.sub_0_r. f_equal.
    inversion Hnd as [|? ? Hc _]; subst. clear IH Hnd.
    induction l as [|c l IH]; simpl; [reflexivity|].
    destruct (cell_eqb v c) eqn:E.
    + apply cell_eqb_eq in E; subst. exfalso; apply Hc; left; reflexivity.
    + f_equal. apply IH. intros H; apply Hc; right; exact H.
  - inversion Hnd as [|? ? Hc Hnd']; subst.
    destruct (cell_eqb v c) eqn:E.
    + apply cell_eqb_eq in E; subst. exfalso; apply Hc. eapply nth_error_In; eauto.
    + f_equal. apply IH; assumption.
Qed.

(** X4.  The indicator block of a value is one-hot by rank.  The fitted
    categories are in increasing order and the value is one of them, say the
    [i]-th.  With [k <> 2] categories the block has [k] entries, a single 1
    at position [i] and 0 elsewhere; with [k = 2] the block is the single
    entry [i]: 0 for the smaller category and 1 for the greater. *)
Theorem one_hot_block (X : list (list cell)) (enc : OneHotEncoder.t) (j : nat)
        (cats : list cell) (d : option nat) (v : cell) (b : list float) :
  OneHotEncoder.fit X = Ok enc ->
  nth_error (OneHotEncoder.categories_ enc) j = Some cats ->
  nth_error (OneHotEncoder.drop_idx_ enc) j = Some d ->
  OneHotEncoder.encode_value v (cats, d) = Ok b ->
  StronglySorted OneHotEncoder.cell_lt cats /\
  exists i, nth_error cats i = Some v /\
    (List.length cats <> 2%nat ->
     b = repeat 0%float i ++ 1%float :: repeat 0%float (List.length cats - S i)) /\
    (List.length cats = 2%nat -> b = [if Nat.eqb i 1 then 1%float else 0%float]).
Proof.
  intros Hfit Hc Hd Hb.
  destruct (OneHotEncoderFacts.encoder_fit_inv _ _ Hfit) as (r0 & X' & _ & _ & Hdrop & Hcats).
  destruct (Hcats j cats Hc) as [_ He].
  destruct (OneHotEncoderFacts.encode_spec _ _ He) as (Hs & Hnd & _).
  split; [exact Hs|].
  rewrite Hdrop, nth_error_map, Hc in Hd. injection Hd as <-.
  unfold OneHotEncoder.encode_value in Hb.
  destruct (existsb (cell_eqb v) cats) eqn:E; [|discriminate]. injection Hb as <-.
  apply existsb_cell_In, In_nth_error in E as [i Hi].
  exists i. split; [exact Hi|]. rewrite kept_if_binary. split.
  - intros Hn. rewrite (proj2 (Nat.eqb_neq _ _) Hn). exact (unit_vector cats i v Hnd Hi).
  - intros Hn. rewrite Hn; simpl.
    destruct cats as [|lo [|hi [|c cats]]]; try discriminate Hn. simpl.
    destruct i as [|[|i]]; simpl in Hi.
    + injection Hi as <-. inversion Hnd as [|? ? Hlo _]; subst.
      destruct (cell_eqb lo hi) eqn:E; [|reflexivity].
      apply cell_eqb_eq in E. exfalso; apply Hlo; left; auto.
    + injection Hi as <-. rewrite cell_eqb_refl. reflexivity.
    + destruct i; discriminate Hi.
Qed.

Lemma one_hot_block_witness :
  exists enc,
    OneHotEncoder.fit answers = Ok enc /\
    OneHotEncoder.encode_value (Str "yes") ([Str "no"; Str "yes"], Some 0%nat) = Ok [1%float] /\
    StronglySorted OneHotEncoder.cell_lt [Str "no"; Str "yes"].
Proof.
  eexists. split; [reflexivity|]. split; [reflexivity|].
  exact (proj1 (one_hot_block answers _ 0 _ _ (Str "yes") _ eq_refl eq_refl eq_refl eq_refl)).
Defined.

(** ** The split: what it refuses and what it keeps *)

Lemma lookup_Some (name : string) (cols : list string) (cs : list cell) :
  existsb (String.eqb name) cols = true -> List.length cs = List.length cols ->
  exists x, lookup name cols cs = Some x.
Proof.
  revert cs; induction cols as [|c cols IH]; intros [|x cs]; simpl; try discriminate.
  intros H [= L]. rewrite String.eqb_sym. destruct (String.eqb name c); [eauto|].
  apply IH; assumption.
Qed.

Lemma getitem_well_formed (df : DataFrame) (name : string) :
  has_column df name = true -> well_formed df -> exists y, getitem df name = Ok y.
Proof.
  intros Hc Hwf. unfold getitem; rewrite Hc.
  destruct (mapM_all_Ok (row_get (columns df) name) (rows df)) as [vs ->]; [|simpl; eauto].
  intros r Hr. unfold well_formed in Hwf; rewrite Forall_forall in Hwf.
  unfold row_get. destruct (lookup_Some name (columns df) (cells r) Hc (Hwf r Hr)) as [x ->]. eauto.
Qed.

Lemma take_map {A B : Type} (f : A -> B) (l : list A) (idx : list nat) :
  take (map f l) idx = map f (take l idx).
Proof.
  unfold take. induction idx as [|i idx IH]; simpl; [reflexivity|].
  rewrite map_app, IH, nth_error_map. destruct (nth_error l i); reflexivity.
Qed.

Section SplitEdges.

Context {RS : RandomState}.

(** X5.  What the split refuses.  Without a [G3] column in the sources,
    [df['G3']] raises [KeyError]; with fewer than two rows in all,
    [train_test_split] raises [ValueError] (the train part would be empty).
    In both cases the process-wide generator is left as it was. *)
Theorem split_rejects (global : rng) (math_data port_data : DataFrame) :
  let df := concat [math_data; port_data] in
  (has_column math_data "G3" = false -> has_column port_data "G3" = false ->
   DataPreprocessing.split global math_data port_data = (Raise (KeyError "G3"), global)) /\
  (has_column df "G3" = true -> well_formed df ->
   (List.length (rows math_data) + List.length (rows port_data) <= 1)%nat ->
   exists msg, DataPreprocessing.split global math_data port_data = (Raise (ValueError msg), global)).
Proof.
  intros df. split.
  - intros Hm _. unfold DataPreprocessing.split, getitem.
    replace (has_column (concat [math_data; port_data]) "G3") with false; reflexivity.
  - intros Hc Hwf Hn. unfold DataPreprocessing.split. fold df.
    destruct (getitem_well_formed df "G3" Hc Hwf) as [y Hy]. rewrite Hy.
    destruct (getitem_Ok _ _ _ Hy) as [Hv _]. pose proof (mapM_length _ _ _ Hv) as Lv.
    unfold train_test_split. cbn [rows drop_column]. rewrite length_map, Lv, Nat.eqb_refl.
    assert (Lr : List.length (rows df) = (List.length (rows math_data) + List.length (rows port_data))%nat).
    { unfold df; rewrite concat_pair_rows, length_app; reflexivity. }
    rewrite Lr. unfold split_indices.
    destruct (List.length (rows math_data) + List.length (rows port_data))%nat as [|[|n]] eqn:E;
      [| |lia].
    + eexists. vm_compute. reflexivity.
    + eexists. vm_compute. reflexivity.
Qed.

(** X6.  What the split keeps.  The target series of each part carries the
    index labels of the rows of that part, in the same order, and is still
    named [G3]; the two feature parts have the same columns, none of them
    [G3]. *)
Theorem split_keeps_index (global : rng) (math_data port_data : DataFrame) (s : Split) :
  fst (DataPreprocessing.split global math_data port_data) = Ok s ->
  s_index (y_train s) = map label (rows (X_train s)) /\
  s_index (y_test s) = map label (rows (X_test s)) /\
  s_name (y_train s) = "G3" /\ s_name (y_test s) = "G3" /\
  columns (X_train s) = columns (X_test s) /\
  has_column (X_train s) "G3" = false /\ has_column (X_test s) "G3" = false.
Proof.
  intros Hs.
  destruct (split_Ok_inv global math_data port_data s Hs)
    as (y & train & test & Hy & -> & -> & -> & -> & _).
  destruct (getitem_Ok _ _ _ Hy) as [_ Hi].
  assert (Hn : s_name y = "G3").
  { revert Hy; unfold getitem. destruct (has_column _ _); [|discriminate].
    destruct (mapM _ _); simpl; [intros [= <-]; reflexivity | discriminate]. }
  unfold series_iloc, iloc; cbn [s_index s_name rows columns].
  rewrite Hi. cbn [drop_column rows]. rewrite !take_map, !map_map. simpl.
  repeat split; auto; apply (has_column_drop_self (concat [math_data; port_data]) "G3").
Qed.

End SplitEdges.

Lemma split_keeps_index_witness :
  exists s,
    fst (DataPreprocessing.split (RS := Rotation) 0%Z math_small port_small) = Ok s /\
    s_index (y_train s) = map label (rows (X_train s)) /\
    s_index (y_test s) = map label (rows (X_test s)).
Proof.
  eexists. split; [vm_compute; reflexivity|].
  pose proof (split_keeps_index (RS := Rotation) 0%Z math_small port_small _
                ltac:(vm_compute; reflexivity)) as (H1 & H2 & _).
  split; [exact H1 | exact H2].
Defined.

(** ** The served step: what it needs and what it returns *)

(** X7.  A table that lacks one of the fourteen configured columns is
    refused: [ct.transform] and [predict_fn] raise, whatever else the table
    holds. *)
(** ** The served step: what it needs and what it returns *)

(** X7.  A table that lacks one of the fourteen configured columns is
    refused: [ct.transform] and [predict_fn] raise, whatever else the table
    holds. *)
Theorem missing_column_rejected (df : DataFrame) (model : ColumnTransformer.t) (name : string) :
  In name (Served.numeric_cols_to_keep ++ Served.nominal_cols_to_keep) ->
  has_column df name = false ->
  (exists e, DataPreprocessing.ct_transform model df = Raise e) /\
  (exists e, Served.predict_fn df model = Raise e).
Proof.
  intros Hin Hc.
  assert (H : exists e, Served.transform model df = Raise e).
  { destruct (Served.transform model df) as [M|e] eqn:E; [|eauto]. exfalso.
    apply ColumnTransformerFacts.transform_rowwise in E as (_ & _ & Hn & Hm & _).
    rewrite forallb_forall in Hn, Hm.
    apply in_app_or in Hin as [Hin|Hin]; [apply Hn in Hin | apply Hm in Hin]; congruence. }
  destruct H as [e He]. split; [exists e; exact He|].
  exists e. unfold Served.predict_fn. rewrite He. reflexivity.
Qed.

Lemma missing_column_rejected_witness :
  exists ct,
    DataPreprocessing.ct_fit train_features = Ok ct /\
    exists e, Served.predict_fn (drop_column request_seen "age") ct = Raise e.
Proof.
  eexists. split; [vm_compute; reflexivity|].
  refine (proj2 (missing_column_rejected (drop_column request_seen "age") _ "age" _ _));
    [simpl; auto | reflexivity].
Defined.

(** The one exception [_get_column_indices] raises. *)
Lemma get_column_indices_Raise (df : DataFrame) (names : list string) (e : exn) :
  ColumnTransformer._get_column_indices df names = Raise e ->
  e = ValueError "A given column is not a column of the dataframe".
Proof.
  unfold ColumnTransformer._get_column_indices.
  induction names as [|name names IH]; simpl; [discriminate|].
  destruct (ColumnTransformer.get_loc name (columns df)); simpl; [|intros [= <-]; reflexivity].
  destruct (mapM _ names); simpl; [discriminate|]. intros [= <-]. apply IH; reflexivity.
Qed.

Lemma validate_remainder_Raise (num_cols nom_cols : list string) (df : DataFrame) (e : exn) :
  ColumnTransformer._validate_remainder num_cols nom_cols df = Raise e ->
  e = ValueError "A given column is not a column of the dataframe".
Proof.
  unfold ColumnTransformer._validate_remainder.
  destruct (ColumnTransformer._get_column_indices df num_cols) eqn:E1; simpl;
    [|intros [= <-]; exact (get_column_indices_Raise _ _ _ E1)].
  destruct (ColumnTransformer._get_column_indices df nom_cols) eqn:E2; simpl;
    [discriminate | intros [= <-]; exact (get_column_indices_Raise _ _ _ E2)].
Qed.

(** Two fits on tables that agree on the selected columns: the same
    exception, or transformers with the same scaler, encoder and output
    kind, each recording its own frame. *)
Lemma fit_agree (num_cols nom_cols : list string) (df1 df2 : DataFrame) :
  agree (num_cols ++ nom_cols) df1 df2 ->
  match ColumnTransformer.fit num_cols nom_cols df1, ColumnTransformer.fit num_cols nom_cols df2 with
  | Ok c1, Ok c2 =>
      ColumnTransformer.numeric c1 = ColumnTransformer.numeric c2 /\
      ColumnTransformer.nominal c1 = ColumnTransformer.nominal c2 /\
      ColumnTransformer.sparse_output_ c1 = ColumnTransformer.sparse_output_ c2 /\
      ColumnTransformer._n_features c1 = width df1 /\
      ColumnTransformer._n_features c2 = width df2 /\
      ColumnTransformer._df_columns c1 = columns df1 /\
      ColumnTransformer._df_columns c2 = columns df2
  | Raise e1, Raise e2 => e1 = e2
  | _, _ => False
  end.
Proof.
  intros H.
  assert (Hn : agree num_cols df1 df2) by (eapply agree_incl; [|exact H]; apply incl_appl, incl_refl).
  assert (Hc : agree nom_cols df1 df2) by (eapply agree_incl; [|exact H]; apply incl_appr, incl_refl).
  unfold ColumnTransformer.fit, ColumnTransformer.select_float.
  rewrite (select_agree num_cols df1 df2 Hn), (select_agree nom_cols df1 df2 Hc).
  pose proof (ColumnTransformerFacts.validate_remainder_Ok num_cols nom_cols df1) as V1.
  pose proof (ColumnTransformerFacts.validate_remainder_Ok num_cols nom_cols df2) as V2.
  rewrite (forallb_agree _ _ num_cols (proj1 Hn)), (forallb_agree _ _ nom_cols (proj1 Hc)) in V1.
  destruct (ColumnTransformer._validate_remainder num_cols nom_cols df1) as [r1|e1] eqn:E1;
    destruct (ColumnTransformer._validate_remainder num_cols nom_cols df2) as [r2|e2] eqn:E2;
    cbn [bind].
  - destruct (ColumnTransformer.select num_cols df2) as [X|e]; cbn [bind]; [|reflexivity].
    destruct (mapM (mapM ColumnTransformer.to_float) X) as [Xn|e]; cbn [bind]; [|reflexivity].
    destruct (MinMaxScaler.fit Xn) as [sc|e]; cbn [bind]; [|reflexivity].
    destruct (MinMaxScaler.transform sc Xn) as [Sn|e]; cbn [bind]; [|reflexivity].
    destruct (ColumnTransformer.select nom_cols df2) as [Xc|e]; cbn [bind]; [|reflexivity].
    destruct (OneHotEncoder.fit Xc) as [enc|e]; cbn [bind]; [|reflexivity].
    destruct (OneHotEncoder.transform enc Xc) as [Sc|e]; cbn [bind]; [|reflexivity].
    repeat split; reflexivity.
  - destruct (proj2 V2 (proj1 V1 (ex_intro _ r1 eq_refl))) as [r2 Hr2]. discriminate.
  - destruct (proj2 V1 (proj1 V2 (ex_intro _ r2 eq_refl))) as [r1 Hr1]. discriminate.
  - rewrite (validate_remainder_Raise _ _ _ _ E1), (validate_remainder_Raise _ _ _ _ E2). reflexivity.
Qed.

(** X8.  The served script fits on the training tables as they are, [G3]
    included, yet the target reaches neither the scaler nor the encoder:
    the scaler statistics, the categories and the kind of the output are
    those of the batch notebook's transformer fit on the same rows without
    [G3], and the served fit raises exactly when that fit does, with the
    same exception.  What the target does change is the frame the
    transformer records: the width and the column names are those of the
    table with [G3] on one side and without it on the other. *)
Theorem served_fit_ignores_target (raw_data : list DataFrame) :
  let df := concat raw_data in
  match Served.main raw_data, DataPreprocessing.ct_fit (drop_column df "G3") with
  | Ok model, Ok ct =>
      ColumnTransformer.numeric model = ColumnTransformer.numeric ct /\
      ColumnTransformer.nominal model = ColumnTransformer.nominal ct /\
      ColumnTransformer.sparse_output_ model = ColumnTransformer.sparse_output_ ct /\
      ColumnTransformer._n_features model = width df /\
      ColumnTransformer._n_features ct = width (drop_column df "G3") /\
      ColumnTransformer._df_columns model = columns df /\
      ColumnTransformer._df_columns ct = columns (drop_column df "G3")
  | Raise e, Raise e' => e = e'
  | _, _ => False
  end.
Proof.
  cbv zeta. unfold Served.main, DataPreprocessing.ct_fit.
  pose proof (fit_agree Served.numeric_cols_to_keep Served.nominal_cols_to_keep
                (drop_column (concat raw_data) "G3") (concat raw_data)
                (agree_drop _ (concat raw_data) "G3" label_not_selected)) as H.
  change DataPreprocessing.numeric_cols_to_keep with Served.numeric_cols_to_keep.
  change DataPreprocessing.nominal_cols_to_keep with Served.nominal_cols_to_keep.
  destruct (ColumnTransformer.fit Served.numeric_cols_to_keep Served.nominal_cols_to_keep
              (drop_column (concat raw_data) "G3")) as [ct|e];
    destruct (ColumnTransformer.fit Served.numeric_cols_to_keep Served.nominal_cols_to_keep
                (concat raw_data)) as [model|e']; try exact H.
  - destruct H as (H1 & H2 & H3 & H4 & H5 & H6 & H7).
    split; [symmetry; exact H1|]. split; [symmetry; exact H2|]. split; [symmetry; exact H3|]. auto.
  - symmetry; exact H.
Qed.

(** On the sample training table the two transformers differ by the
    recorded width alone: 33 columns with the target, 32 without. *)
Example served_fit_widths :
  (do model <- Served.main [train_sample];
   do ct <- DataPreprocessing.ct_fit (drop_column (concat [train_sample]) "G3");
   Ok (ColumnTransformer._n_features model, ColumnTransformer._n_features ct,
       ColumnTransformer.sparse_output_ model, ColumnTransformer.sparse_output_ ct))
  = Ok (33%nat, 32%nat, false, false).
Proof. vm_compute; reflexivity. Qed.

Lemma lookup_front (name lab : string) (cols : list string) (cs : list cell) (l : cell) :
  List.length cs = List.length cols -> name <> lab ->
  lookup name (cols ++ [lab]) (cs ++ [l]) = lookup name cols cs.
Proof.
  intros L Hne. rewrite lookup_with_label by exact L.
  destruct (lookup name cols cs); [reflexivity|].
  rewrite (proj2 (String.eqb_neq lab name)); [reflexivity | congruence].
Qed.

Lemma lookup_last (lab : string) (cols : list string) (cs : list cell) (l : cell) :
  List.length cs = List.length cols -> existsb (String.eqb lab) cols = false ->
  lookup lab (cols ++ [lab]) (cs ++ [l]) = Some l.
Proof.
  intros L H. rewrite lookup_with_label by exact L.
  rewrite (lookup_None _ _ _ H), String.eqb_refl. reflexivity.
Qed.

Lemma split_last (cs : list cell) (n : nat) :
  List.length cs = S n ->
  cs = removelast cs ++ [last cs (Str "")] /\ List.length (removelast cs) = n.
Proof.
  intros L. assert (Hne : cs <> []) by (destruct cs; [discriminate | congruence]).
  pose proof (app_removelast_last (Str "") Hne) as E. split; [exact E|].
  rewrite E, length_app in L. simpl in L. lia.
Qed.

(** X9.  From request to response.  For a request of 33 columns the label
    is the last cell of a row and comes back as the first entry of the
    output row, followed by the features of the first 32 cells; for a
    request of 32 columns the output row is the features of the 32 cells.
    The names in the request's first line play no part: the cells are read
    by position.  (Both for a call that returns: a preprocessor fit on 33
    columns, as [__main__] fits it, refuses the request of 32.) *)
Theorem request_to_response (read_csv : string -> result DataFrame) (input_data : string)
        (df : DataFrame) (model : ColumnTransformer.t) (out : list (list float)) :
  read_csv input_data = Ok df ->
  well_formed df ->
  (do parsed <- Served.input_fn read_csv input_data "text/csv"; Served.predict_fn parsed model)
  = Ok out ->
  (width df = (List.length Served.feature_columns_names + 1)%nat ->
   List.length out = List.length (rows df) /\
   forall i r, nth_error (rows df) i = Some r ->
     exists z f,
       last (cells r) (Str "") = Num z /\
       ColumnTransformer.transform_row Served.numeric_cols_to_keep Served.nominal_cols_to_keep
         model Served.feature_columns_names (mkRow (label r) (removelast (cells r))) = Ok f /\
       nth_error out i = Some (float_of_Z z :: f)) /\
  (width df = List.length Served.feature_columns_names ->
   List.length out = List.length (rows df) /\
   forall i r, nth_error (rows df) i = Some r ->
     exists f,
       ColumnTransformer.transform_row Served.numeric_cols_to_keep Served.nominal_cols_to_keep
         model Served.feature_columns_names r = Ok f /\
       nth_error out i = Some f).
Proof.
  intros Hread Hwf Hout.
  unfold Served.input_fn in Hout. rewrite Hread in Hout. cbn [String.eqb Ascii.eqb Bool.eqb bind] in Hout.
  unfold well_formed in Hwf; rewrite Forall_forall in Hwf.
  split; intros Hw; unfold width in Hw; rewrite Hw in Hout.
  - rewrite Nat.eqb_refl in Hout. unfold Served.set_columns in Hout. cbn [bind] in Hout.
    rewrite predict_fn_labelled in Hout by reflexivity.
    apply bind_Ok in Hout as (features & Hf & Hout). apply bind_Ok in Hout as (labels & Hl & Hout).
    destruct (ColumnTransformer.sparse_output_ model); [discriminate|].
    apply bind_Ok in Hout as (values & Hv & [= <-]).
    apply bind_Ok in Hl as (vs & Hvs & [= <-]). cbn [s_values rows columns] in Hv, Hvs.
    destruct (ColumnTransformerFacts.transform_nth _ _ _ _ _ Hf) as [Lf Hrows].
    cbn [rows columns] in Lf, Hrows.
    assert (Lv : List.length values = List.length (rows df)).
    { rewrite (mapM_length _ _ _ Hv), (mapM_length _ _ _ Hvs); reflexivity. }
    split; [rewrite zipWith_length; lia|].
    intros i r Hr.
    destruct (mapM_nth_error _ _ _ _ _ Hvs Hr) as (c & Hc & Hg).
    destruct (mapM_nth_error _ _ _ _ _ Hv Hc) as (q & Hq & Hfl).
    destruct c as [z|s]; simpl in Hfl; [|discriminate]. injection Hfl as <-.
    destruct (Hrows i r Hr) as (f & Hfi & Htr).
    assert (Lr : List.length (cells r) = S (List.length Served.feature_columns_names)).
    { rewrite (Hwf r (nth_error_In _ _ Hr)), Hw. lia. }
    destruct (split_last _ _ Lr) as [Er Ll].
    exists z, f. split; [|split].
    + unfold row_get in Hg. rewrite Er in Hg.
      rewrite lookup_last in Hg by (exact Ll || reflexivity). congruence.
    + rewrite <- Htr. apply ColumnTransformerFacts.transform_row_agree.
      intros name Hin. unfold row_get; cbn [cells]. rewrite Er at 2.
      rewrite lookup_front; [reflexivity | exact Ll |].
      intros ->; exact (label_not_selected Hin).
    + rewrite nth_error_zipWith, Hq, Hfi; reflexivity.
  - replace (Nat.eqb (List.length Served.feature_columns_names)
                     (List.length Served.feature_columns_names + 1)) with false in Hout
      by reflexivity.
    rewrite Nat.eqb_refl in Hout. unfold Served.set_columns in Hout. cbn [bind] in Hout.
    unfold Served.predict_fn in Hout.
    apply bind_Ok in Hout as (features & Hf & Hout).
    replace (has_column (mkFrame Served.feature_columns_names (rows df)) Served.label_column)
      with false in Hout by reflexivity.
    injection Hout as <-.
    destruct (ColumnTransformerFacts.transform_nth _ _ _ _ _ Hf) as [Lf Hrows].
    cbn [rows columns] in Lf, Hrows.
    split; [exact Lf|]. intros i r Hr.
    destruct (Hrows i r Hr) as (f & Hfi & Htr). eauto.
Qed.

Lemma request_to_response_witness :
  exists model df out,
    Served.main [train_sample] = Ok model /\
    PlainCsv.read_csv labelled_text = Ok df /\
    (do parsed <- Served.input_fn PlainCsv.read_csv labelled_text "text/csv";
     Served.predict_fn parsed model) = Ok out /\
    List.length out = List.length (rows df).
Proof.
  do 3 eexists. split; [vm_compute; reflexivity|]. split; [vm_compute; reflexivity|].
  match goal with
  | |- bind _ (fun parsed => Served.predict_fn parsed ?m) = _ /\ _ =>
      split; [vm_compute; reflexivity|];
      refine (proj1 (proj1 (request_to_response PlainCsv.read_csv labelled_text _ m _ _ _ _) _))
  end.
  - vm_compute; reflexivity.
  - repeat constructor.
  - vm_compute; reflexivity.
  - reflexivity.
Defined.

(** The sample request end to end: the labels 12 and 7, last in the
    request, lead the response. *)
Example sample_response :
  (do model <- Served.main [train_sample];
   do parsed <- Served.input_fn PlainCsv.read_csv labelled_text "text/csv";
   do out <- Served.predict_fn parsed model;
   Ok (map (firstn 3) out))
  = Ok [[12; 0x1.2492492492490p-2; 0.75]; [7; 0x1.6db6db6db6db4p-1; 0.25]]%float.
Proof. vm_compute; reflexivity. Qed.

(** X10.  Unseen categories aside, a labelled request is accepted.  Given
    the served preprocessor fit on [raw_data] and a table with the columns
    of the training table, whose rows hold integers in the numeric columns
    and in [G3] and, in each nominal column, a value some training row
    holds there, [predict_fn] returns one output row per row.  (The table
    is not empty, and the preprocessor has at most 18 indicator columns:
    scikit-learn refuses an empty table and stacks wider outputs as a sparse
    matrix.) *)
Theorem known_rows_accepted (raw_data : list DataFrame) (model : ColumnTransformer.t)
        (df : DataFrame) :
  Served.main raw_data = Ok model ->
  columns df = columns (concat raw_data) ->
  has_column df Served.label_column = true ->
  rows df <> [] ->
  (list_sum (map (fun cs => indicator_width (List.length cs))
                 (OneHotEncoder.categories_ (ColumnTransformer.nominal model))) <= 18)%nat ->
  (forall r, In r (rows df) ->
     (forall name, In name Served.numeric_cols_to_keep ->
        exists z, row_get (columns df) name r = Ok (Num z)) /\
     (forall name, In name Served.nominal_cols_to_keep ->
        exists v r', row_get (columns df) name r = Ok v /\
                     In r' (rows (concat raw_data)) /\
                     row_get (columns (concat raw_data)) name r' = Ok v) /\
     (exists z, row_get (columns df) Served.label_column r = Ok (Num z))) ->
  exists out, Served.predict_fn df model = Ok out /\ List.length out = List.length (rows df).
Proof.
  exact (predict_fn_known_rows raw_data model df).
Qed.

Lemma known_rows_accepted_witness :
  exists model out,
    Served.main [train_sample] = Ok model /\
    Served.predict_fn (with_label request_pair [Num 12; Num 7]) model = Ok out /\
    List.length out = 2%nat.
Proof.
  eexists.
  destruct (known_rows_accepted [train_sample] _ (with_label request_pair [Num 12; Num 7])
              ltac:(vm_compute; reflexivity) eq_refl eq_refl
              ltac:(intros H; discriminate H) ltac:(vm_compute; lia) sample_rows_known)
    as (out & Hout & L).
  exists out. split; [vm_compute; reflexivity|]. split; [exact Hout | exact L].
Defined.

(** ** The categories do not depend on the order of the training rows *)

Lemma mapM_Permutation {A B : Type} (f : A -> result B) (l l' : list A) (m : list B) :
  Permutation l l' -> mapM f l = Ok m -> exists m', mapM f l' = Ok m' /\ Permutation m m'.
Proof.
  intros P; revert m; induction P as [|a l l' P IH|a b l|l l' l'' P1 IH1 P2 IH2]; intros m H.
  - simpl in *. injection H as <-. eauto.
  - simpl in *. apply bind_Ok in H as (b & Hb & H). apply bind_Ok in H as (bs & Hbs & [= <-]).
    destruct (IH bs Hbs) as (bs' & -> & P'). rewrite Hb; simpl. eauto.
  - simpl in *. apply bind_Ok in H as (y & Hy & H). apply bind_Ok in H as (ys & H & [= <-]).
    apply bind_Ok in H as (x & Hx & H). apply bind_Ok in H as (xs & Hxs & [= <-]).
    rewrite Hx, Hy, Hxs; simpl. eexists; split; [reflexivity | apply perm_swap].
  - destruct (IH1 m H) as (m' & H' & P'). destruct (IH2 m' H') as (m'' & H'' & P'').
    exists m''. split; [exact H'' | eapply Permutation_trans; eauto].
Qed.

Lemma cell_lt_irrefl (a : cell) : ~ OneHotEncoder.cell_lt a a.
Proof. intros H. exact (OneHotEncoderFacts.cell_lt_neq a a H eq_refl). Qed.

Lemma sorted_unique (l1 l2 : list cell) :
  StronglySorted OneHotEncoder.cell_lt l1 -> StronglySorted OneHotEncoder.cell_lt l2 ->
  (forall x, In x l1 <-> In x l2) -> l1 = l2.
Proof.
  intros S1; revert l2; induction S1 as [|a l1 S1 IH F1]; intros l2 S2 H.
  - destruct l2 as [|b l2]; [reflexivity|]. destruct (proj2 (H b) (or_introl eq_refl)).
  - destruct S2 as [|b l2 S2 F2]; [destruct (proj1 (H a) (or_introl eq_refl))|].
    rewrite Forall_forall in F1, F2.
    assert (E : a = b).
    { destruct (proj1 (H a) (or_introl eq_refl)) as [E|Ha]; [auto|].
      destruct (proj2 (H b) (or_introl eq_refl)) as [E|Hb]; [auto|].
      exfalso. apply (cell_lt_irrefl a).
      exact (OneHotEncoderFacts.cell_lt_trans _ _ _ (F1 b Hb) (F2 a Ha)). }
    subst b. f_equal. apply IH; [exact S2|].
    intros x; split; intros Hx.
    + destruct (proj1 (H x) (or_intror Hx)) as [E|Hx']; [|exact Hx'].
      subst x. exfalso. exact (cell_lt_irrefl a (F1 a Hx)).
    + destruct (proj2 (H x) (or_intror Hx)) as [E|Hx']; [|exact Hx'].
      subst x. exfalso. exact (cell_lt_irrefl a (F2 a Hx)).
Qed.

Lemma same_kind_refl (a : cell) : OneHotEncoder.same_kind a a = true.
Proof. destruct a; reflexivity. Qed.

Lemma same_kind_sym (a b : cell) : OneHotEncoder.same_kind a b = OneHotEncoder.same_kind b a.
Proof. destruct a, b; reflexivity. Qed.

Lemma encode_Ok_iff (col : list cell) :
  (exists cats, OneHotEncoder._encode col = Ok cats) <->
  (forall a b, In a col -> In b col -> OneHotEncoder.same_kind a b = true).
Proof.
  unfold OneHotEncoder._encode. destruct col as [|x xs].
  - split; [intros _ a b [] | eauto].
  - destruct (forallb (OneHotEncoder.same_kind x) xs) eqn:E.
    + split; [|eauto]. intros _ a b Ha Hb. rewrite forallb_forall in E.
      assert (K : forall c, In c (x :: xs) -> OneHotEncoder.same_kind x c = true).
      { intros c [<-|Hc]; [apply same_kind_refl | auto]. }
      exact (same_kind_trans x a b (K a Ha) (K b Hb)).
    + split; [intros [cats H]; discriminate H|]. intros H. exfalso.
      assert (E' : forallb (OneHotEncoder.same_kind x) xs = true).
      { apply forallb_forall. intros c Hc. apply H; [left; reflexivity | right; exact Hc]. }
      congruence.
Qed.

Lemma encode_Raise (col : list cell) (e : exn) :
  OneHotEncoder._encode col = Raise e ->
  e = TypeError "'<' not supported between instances of 'str' and 'int'".
Proof.
  unfold OneHotEncoder._encode. destruct col as [|x xs]; [discriminate|].
  destruct (forallb _ xs); [discriminate | congruence].
Qed.

Lemma encode_Permutation (c1 c2 : list cell) :
  Permutation c1 c2 -> OneHotEncoder._encode c1 = OneHotEncoder._encode c2.
Proof.
  intros P.
  assert (Hin : forall x, In x c1 <-> In x c2).
  { intros x; split; apply Permutation_in; [exact P | apply Permutation_sym, P]. }
  destruct (OneHotEncoder._encode c1) as [k1|e1] eqn:E1, (OneHotEncoder._encode c2) as [k2|e2] eqn:E2.
  - f_equal.
    destruct (OneHotEncoderFacts.encode_spec _ _ E1) as (S1 & _ & I1).
    destruct (OneHotEncoderFacts.encode_spec _ _ E2) as (S2 & _ & I2).
    apply sorted_unique; auto. intros x. rewrite I1, I2. apply Hin.
  - exfalso. assert (H : exists cats, OneHotEncoder._encode c2 = Ok cats).
    { apply encode_Ok_iff. intros a b Ha Hb.
      apply (proj1 (encode_Ok_iff c1) (ex_intro _ k1 E1)); apply Hin; assumption. }
    destruct H as [k H]; congruence.
  - exfalso. assert (H : exists cats, OneHotEncoder._encode c1 = Ok cats).
    { apply encode_Ok_iff. intros a b Ha Hb.
      apply (proj1 (encode_Ok_iff c2) (ex_intro _ k2 E2)); apply Hin; assumption. }
    destruct H as [k H]; congruence.
  - rewrite (encode_Raise _ _ E1), (encode_Raise _ _ E2). reflexivity.
Qed.

Lemma encoder_fit_Permutation (X1 X2 : list (list cell)) (n : nat) :
  Permutation X1 X2 -> Forall (fun r => List.length r = n) X1 ->
  OneHotEncoder.fit X1 = OneHotEncoder.fit X2.
Proof.
  intros P HL. unfold OneHotEncoder.fit.
  destruct X1 as [|r1 X1'], X2 as [|r2 X2'].
  - reflexivity.
  - apply Permutation_nil in P. discriminate P.
  - apply Permutation_sym, Permutation_nil in P. discriminate P.
  - assert (L1 : List.length r1 = n) by (inversion HL; assumption).
    assert (L2 : List.length r2 = n).
    { rewrite Forall_forall in HL. apply HL. eapply Permutation_in; [apply Permutation_sym, P|].
      left; reflexivity. }
    rewrite L1, L2.
    rewrite (mapM_ext (fun j => OneHotEncoder._encode (OneHotEncoder.column j (r1 :: X1')))
                      (fun j => OneHotEncoder._encode (OneHotEncoder.column j (r2 :: X2')))).
    + reflexivity.
    + intros j _. apply encode_Permutation. unfold OneHotEncoder.column.
      apply Permutation_map. exact P.
Qed.

Lemma select_Permutation (names : list string) (df1 df2 : DataFrame) (X1 : list (list cell)) :
  columns df1 = columns df2 -> Permutation (rows df1) (rows df2) ->
  ColumnTransformer.select names df1 = Ok X1 ->
  exists X2, ColumnTransformer.select names df2 = Ok X2 /\ Permutation X1 X2.
Proof.
  intros Hc P. unfold ColumnTransformer.select.
  replace (forallb (has_column df2) names) with (forallb (has_column df1) names)
    by (apply forallb_agree; intros name _; unfold has_column; rewrite Hc; reflexivity).
  destruct (forallb (has_column df1) names); [|discriminate].
  rewrite <- Hc. apply mapM_Permutation. exact P.
Qed.

(** X11.  The fitted categories, and with them the indicator layout and
    the column names, do not depend on the order of the training rows: a
    table with the same rows in another order fits as well, with the same
    encoder. *)
Theorem categories_order_independent (df1 df2 : DataFrame) (ct1 : ColumnTransformer.t) :
  columns df1 = columns df2 ->
  Permutation (rows df1) (rows df2) ->
  DataPreprocessing.ct_fit df1 = Ok ct1 ->
  exists ct2,
    DataPreprocessing.ct_fit df2 = Ok ct2 /\
    ColumnTransformer.nominal ct2 = ColumnTransformer.nominal ct1 /\
    DataPreprocessing.transformed_col_names ct2 = DataPreprocessing.transformed_col_names ct1.
Proof.
  intros Hc P Hfit. unfold DataPreprocessing.ct_fit in *.
  destruct (ColumnTransformerFacts.fit_Ok _ _ _ _ Hfit) as (Xn & Xc & HXn & Hsc & HXc & Henc).
  unfold ColumnTransformer.select_float in HXn. apply bind_Ok in HXn as (Xn0 & HXn0 & HXn).
  destruct (select_Permutation _ _ _ _ Hc P HXn0) as (Yn0 & HYn0 & Pn0).
  destruct (mapM_Permutation _ _ _ _ Pn0 HXn) as (Yn & HYn & Pn).
  destruct (select_Permutation _ _ _ _ Hc P HXc) as (Yc & HYc & Pc).
  assert (Hsc' : exists sc, MinMaxScaler.fit Yn = Ok sc).
  { destruct Yn as [|r Yn]; [|simpl; eauto].
    apply Permutation_sym, Permutation_nil in Pn. subst Xn. discriminate Hsc. }
  destruct Hsc' as [sc Hsc'].
  assert (Henc' : OneHotEncoder.fit Yc = Ok (ColumnTransformer.nominal ct1)).
  { rewrite <- (encoder_fit_Permutation Xc Yc (List.length DataPreprocessing.nominal_cols_to_keep) Pc);
      [exact Henc|].
    apply ColumnTransformerFacts.select_Ok in HXc. apply Forall_forall. intros cs Hcs.
    destruct (Forall2_In_r _ _ _ cs HXc Hcs) as (r & _ & Hp).
    exact (proj1 (ColumnTransformerFacts.picks_nth _ _ _ _ Hp)). }
  destruct (fit_has_columns _ _ _ _ Hfit) as (Hn & Hm & _).
  assert (Hsame : forall name, has_column df1 name = has_column df2 name).
  { intros name; unfold has_column; rewrite Hc; reflexivity. }
  rewrite (forallb_agree _ _ _ (fun name _ => Hsame name)) in Hn.
  rewrite (forallb_agree _ _ _ (fun name _ => Hsame name)) in Hm.
  destruct (fit_returns DataPreprocessing.numeric_cols_to_keep DataPreprocessing.nominal_cols_to_keep
              df2 Yn sc Yc (ColumnTransformer.nominal ct1) Hn Hm)
    as (ct2 & Sn & Sc & Hfit2 & _ & Hnom & _); auto.
  { unfold ColumnTransformer.select_float. rewrite HYn0. exact HYn. }
  exists ct2. split; [exact Hfit2|]. split; [exact Hnom|].
  unfold DataPreprocessing.transformed_col_names. rewrite Hnom. reflexivity.
Qed.

Lemma reversed_columns (df : DataFrame) :
  columns df = columns (mkFrame (columns df) (rev (rows df))).
Proof. reflexivity. Qed.

Lemma reversed_rows (df : DataFrame) :
  Permutation (rows df) (rows (mkFrame (columns df) (rev (rows df)))).
Proof. apply Permutation_rev. Qed.

Lemma categories_order_independent_witness :
  exists ct1 ct2,
    DataPreprocessing.ct_fit train_features = Ok ct1 /\
    DataPreprocessing.ct_fit train_reversed = Ok ct2 /\
    ColumnTransformer.nominal ct2 = ColumnTransformer.nominal ct1.
Proof.
  eexists.
  destruct (categories_order_independent train_features train_reversed _
              (reversed_columns train_features) (reversed_rows train_features)
              ltac:(vm_compute; reflexivity))
    as (ct2 & H2 & Hn & _).
  exists ct2. split; [vm_compute; reflexivity|]. split; [exact H2 | exact Hn].
Defined.

(** ** The scaler in binary64: constant columns, and order *)

Lemma column_In (X : list (list float)) (r : list float) (j : nat) (v : float) :
  In r X -> nth_error r j = Some v -> In v (MinMaxScaler.column j X).
Proof.
  intros Hr Hv. unfold MinMaxScaler.column. apply in_map_iff. exists r. split; [|exact Hr].
  apply nth_error_nth. exact Hv.
Qed.

(** X12.  A numeric column that is constant at fit time ([fit_max] equal to
    [fit_min]) is not divided by its zero range: the fitted scale is 1 and
    the fitted shift is [0 - fit_min], so a value [v] is mapped to
    [v * 1 + (0 - fit_min)], which is [v + (0 - fit_min)] for a finite [v],
    and every training value is mapped to [+0]. *)
Theorem constant_column (X : list (list float)) (sc : MinMaxScaler.t) (j : nat)
        (fit_min fit_max : float) :
  MinMaxScaler.fit X = Ok sc ->
  nth_error (MinMaxScaler.data_min_ sc) j = Some fit_min ->
  nth_error (MinMaxScaler.data_max_ sc) j = Some fit_max ->
  Forall finite (MinMaxScaler.column j X) ->
  PrimFloat.eqb fit_max fit_min = true ->
  nth_error (MinMaxScaler.scale_ sc) j = Some 1%float /\
  nth_error (MinMaxScaler.min_ sc) j = Some (PrimFloat.sub 0 fit_min) /\
  forall r out v,
    MinMaxScaler.transform_row sc r = Ok out -> nth_error r j = Some v ->
    exists w, nth_error out j = Some w /\
      w = PrimFloat.add (PrimFloat.mul v 1) (PrimFloat.sub 0 fit_min) /\
      (finite v -> w = PrimFloat.add v (PrimFloat.sub 0 fit_min)) /\
      (In r X -> w = 0%float).
Proof.
  intros Hfit Hmin Hmax HF He.
  destruct (MinMaxScalerFacts.fit_feature X sc j fit_min fit_max Hfit Hmin Hmax)
    as (Emin & Emax & Hne & Hs & Hm).
  destruct (MinMaxScalerFacts.amin_spec _ Hne HF) as [Imin Lmin].
  destruct (MinMaxScalerFacts.amax_spec _ Hne HF) as [Imax Lmax].
  rewrite <- Emin in Imin, Lmin. rewrite <- Emax in Imax, Lmax.
  rewrite Forall_forall in HF.
  pose proof (HF _ Imin) as Fmin. pose proof (HF _ Imax) as Fmax.
  assert (Hh : MinMaxScaler._handle_zeros_in_scale (PrimFloat.sub fit_max fit_min) = 1%float).
  { unfold MinMaxScaler._handle_zeros_in_scale.
    rewrite (Binary64.equal_range _ _ Fmax Fmin He). reflexivity. }
  rewrite Hh in Hs, Hm.
  change (PrimFloat.div 1 1) with 1%float in Hs, Hm.
  assert (Hm' : nth_error (MinMaxScaler.min_ sc) j = Some (PrimFloat.sub 0 fit_min)).
  { rewrite Hm, Binary64.mul_one by exact Fmin. reflexivity. }
  split; [exact Hs|]. split; [exact Hm'|].
  intros r out v Hout Hv.
  pose proof (MinMaxScalerFacts.transform_row_nth sc r out j v _ _ Hout Hv Hs Hm') as Hw.
  eexists; split; [exact Hw|]. split; [reflexivity|].
  split; [intros Fv; rewrite Binary64.mul_one by exact Fv; reflexivity|].
  intros Hr. pose proof (column_In X r j v Hr Hv) as Iv.
  pose proof (HF _ Iv) as Fv.
  pose proof (Lmin _ Iv) as L1. pose proof (Lmax _ Iv) as L2.
  rewrite leb_spec in L1, L2. rewrite eqb_spec in He.
  destruct (Binary64.SFleb_squeeze _ _ _ He L1 L2) as [E|(s & t & Ev & Em)].
  - apply Prim2SF_inj in E. subst v.
    rewrite Binary64.mul_one by exact Fmin. apply Binary64.add_opposite, Fmin.
  - rewrite <- (Binary64.mul_one fit_min Fmin) at 1.
    apply Binary64.zeros_cancel; eauto.
Qed.

Lemma constant_column_witness :
  exists sc,
    MinMaxScaler.fit [[3]; [3]]%float = Ok sc /\
    nth_error (MinMaxScaler.scale_ sc) 0 = Some 1%float /\
    (forall out, MinMaxScaler.transform_row sc [5%float] = Ok out ->
                 nth_error out 0 = Some 2%float) /\
    (forall out, MinMaxScaler.transform_row sc [3%float] = Ok out ->
                 nth_error out 0 = Some 0%float).
Proof.
  eexists; split; [reflexivity|].
  match goal with
  | |- nth_error (MinMaxScaler.scale_ ?sc) _ = _ /\ _ =>
      pose proof (constant_column [[3]; [3]]%float sc 0 3 3 eq_refl eq_refl eq_refl
                    ltac:(repeat constructor) eq_refl) as (Hs & _ & H)
  end.
  split; [exact Hs|]. split; intros out Hout.
  - destruct (H [5%float] out 5%float Hout eq_refl) as (w & Hw & -> & _). exact Hw.
  - destruct (H [3%float] out 3%float Hout eq_refl) as (w & Hw & _ & _ & H0).
    rewrite Hw, H0 by (right; left; reflexivity). reflexivity.
Defined.

(** Between integer codes the scaler is strictly increasing, for every
    fitted minimum and maximum among the codes. *)
Lemma codes_increasing (zmin zmax z1 : Z) (n : nat) :
  (0 <= zmin <= zmax)%Z -> (zmax <= 100)%Z -> (0 <= z1)%Z -> (z1 + 1 + Z.of_nat n <= 100)%Z ->
  PrimFloat.ltb (scaled (float_of_Z zmin) (float_of_Z zmax) (float_of_Z z1))
                (scaled (float_of_Z zmin) (float_of_Z zmax) (float_of_Z (z1 + 1 + Z.of_nat n)))
  = true.
Proof.
  intros Hz Hm H1. induction n as [|n IH]; intros H2.
  - rewrite Z.add_0_r. apply (MinMaxScalerFacts.code_increasing_true zmin zmax z1); lia.
  - eapply Binary64.ltb_trans; [apply IH; lia|].
    replace (z1 + 1 + Z.of_nat (S n))%Z with ((z1 + 1 + Z.of_nat n) + 1)%Z by lia.
    apply (MinMaxScalerFacts.code_increasing_true zmin zmax (z1 + 1 + Z.of_nat n)); lia.
Qed.

(** X13.  On the integer codes of the data (0 .. 100) the scaler keeps the
    order in binary64, strictly, also for a constant column: of two codes of
    a column whose fitted minimum and maximum are codes, the larger is
    mapped to the strictly larger float64. *)
Theorem scaling_keeps_order (X : list (list float)) (sc : MinMaxScaler.t) (j : nat)
        (r1 r2 out1 out2 : list float) (zmin zmax z1 z2 : Z) :
  MinMaxScaler.fit X = Ok sc ->
  nth_error (MinMaxScaler.data_min_ sc) j = Some (float_of_Z zmin) ->
  nth_error (MinMaxScaler.data_max_ sc) j = Some (float_of_Z zmax) ->
  (0 <= zmin <= zmax)%Z -> (zmax <= 100)%Z ->
  MinMaxScaler.transform_row sc r1 = Ok out1 ->
  MinMaxScaler.transform_row sc r2 = Ok out2 ->
  nth_error r1 j = Some (float_of_Z z1) -> nth_error r2 j = Some (float_of_Z z2) ->
  (0 <= z1 <= 100)%Z -> (0 <= z2 <= 100)%Z ->
  exists w1 w2,
    nth_error out1 j = Some w1 /\ nth_error out2 j = Some w2 /\
    w1 = scaled (float_of_Z zmin) (float_of_Z zmax) (float_of_Z z1) /\
    w2 = scaled (float_of_Z zmin) (float_of_Z zmax) (float_of_Z z2) /\
    (z1 < z2 -> PrimFloat.ltb w1 w2 = true)%Z /\
    (z1 <= z2 -> PrimFloat.leb w1 w2 = true)%Z.
Proof.
  intros Hfit Hmin Hmax Hz Hm Ho1 Ho2 Hv1 Hv2 H1 H2.
  destruct (MinMaxScalerFacts.fit_feature X sc j _ _ Hfit Hmin Hmax) as (_ & _ & _ & Hs & Hsh).
  pose proof (MinMaxScalerFacts.transform_row_nth sc r1 out1 j _ _ _ Ho1 Hv1 Hs Hsh) as Hw1.
  pose proof (MinMaxScalerFacts.transform_row_nth sc r2 out2 j _ _ _ Ho2 Hv2 Hs Hsh) as Hw2.
  assert (Hlt : forall a b, (0 <= a)%Z -> (a < b)%Z -> (b <= 100)%Z ->
                  PrimFloat.ltb (scaled (float_of_Z zmin) (float_of_Z zmax) (float_of_Z a))
                                (scaled (float_of_Z zmin) (float_of_Z zmax) (float_of_Z b)) = true).
  { intros a b Ha Hab Hb.
    replace b with (a + 1 + Z.of_nat (Z.to_nat (b - a - 1)))%Z by lia.
    apply codes_increasing; lia. }
  eexists; eexists. split; [exact Hw1|]. split; [exact Hw2|].
  split; [reflexivity|]. split; [reflexivity|].
  fold (scaled (float_of_Z zmin) (float_of_Z zmax) (float_of_Z z1)).
  fold (scaled (float_of_Z zmin) (float_of_Z zmax) (float_of_Z z2)).
  split.
  - intros Hlt12. apply Hlt; lia.
  - intros Hle. destruct (Z.eq_dec z1 z2) as [->|Hn].
    + apply (Binary64.ltb_leb_refl _ (scaled (float_of_Z zmin) (float_of_Z zmax)
                                              (float_of_Z (z2 + 1)))).
      apply (MinMaxScalerFacts.code_increasing_true zmin zmax z2); lia.
    + apply Binary64.ltb_leb, Hlt; lia.
Qed.

Lemma scaling_keeps_order_witness :
  exists sc,
    MinMaxScaler.fit ages = Ok sc /\
    forall out1 out2,
      MinMaxScaler.transform_row sc [16%float] = Ok out1 ->
      MinMaxScaler.transform_row sc [30%float] = Ok out2 ->
      exists w1 w2, nth_error out1 0 = Some w1 /\ nth_error out2 0 = Some w2 /\
                    PrimFloat.ltb w1 w2 = true.
Proof.
  eexists; split; [reflexivity|]. intros out1 out2 H1 H2.
  destruct (scaling_keeps_order ages _ 0 [16%float] [30%float] out1 out2 15 22 16 30
              eq_refl eq_refl eq_refl ltac:(lia) ltac:(lia) H1 H2 eq_refl eq_refl
              ltac:(lia) ltac:(lia))
    as (w1 & w2 & Hw1 & Hw2 & _ & _ & Hlt & _).
  exists w1, w2. split; [exact Hw1|]. split; [exact Hw2|]. apply Hlt. lia.
Defined.

(** Off the integer codes the order is kept, but not strictly: two
    neighbouring float64 values can be rounded to the same image. *)
Example neighbours_collide :
  PrimFloat.ltb 0x1.9eb851eb851ecp+0 0x1.9eb851eb851edp+0 = true /\
  scaled 0 49 0x1.9eb851eb851ecp+0 = 0x1.0ed669be61627p-5%float /\
  scaled 0 49 0x1.9eb851eb851edp+0 = 0x1.0ed669be61627p-5%float.
Proof. repeat split; reflexivity. Qed.


(** ** The training channel *)

(** X14.  The files the training script reads.  An empty channel raises the
    [ValueError]; otherwise the result is, entry by entry in listing order,
    the entry itself when it is no directory and, when it is a directory
    directly in the channel, its entries (one level, whatever they are) in
    their listing order, and nothing else.  The emptiness test is made
    before the directories are opened: a channel holding only empty
    directories passes it and yields no file. *)
Theorem modeling_input_files (listdir : string -> list string) (isdir : string -> bool)
        (train : string) :
  let entries := map (posixpath.join train) (listdir train) in
  (listdir train = [] ->
   sagemaker_modeling.input_files listdir isdir train = Raise (no_files train)) /\
  (listdir train <> [] ->
   exists files blocks,
     sagemaker_modeling.input_files listdir isdir train = Ok files /\
     files = List.concat blocks /\
     Forall2 (fun item block =>
                (isdir item = false /\ block = [item]) \/
                (isdir item = true /\
                 block = map (fun file => (item ++ "/" ++ file)%string) (listdir item)))
             entries blocks /\
     List.length files
     = list_sum (map (fun item => if isdir item then List.length (listdir item) else 1%nat) entries) /\
     (forall f, In f files <->
        exists item, In item entries /\
          ((isdir item = false /\ f = item) \/
           (isdir item = true /\ exists file, In file (listdir item) /\ f = (item ++ "/" ++ file)%string))) /\
     (files = [] <-> forall item, In item entries -> isdir item = true /\ listdir item = [])).
Proof.
  intros entries. unfold sagemaker_modeling.input_files. fold entries. split.
  - intros H. unfold entries. rewrite H. reflexivity.
  - intros H. assert (E : Nat.eqb (List.length entries) 0 = false).
    { unfold entries. rewrite length_map. destruct (listdir train); [congruence | reflexivity]. }
    rewrite E. eexists; exists (map (sagemaker_modeling.expand listdir isdir) entries).
    split; [reflexivity|].
    clear E H. split; [apply flat_map_concat_map|]. split; [|split; [|split]].
    + induction entries as [|item l IH]; simpl; constructor; [|exact IH].
      unfold sagemaker_modeling.expand. destruct (isdir item); [right | left]; auto.
    + induction entries as [|item l IH]; simpl; [reflexivity|].
      rewrite length_app, IH. f_equal. unfold sagemaker_modeling.expand.
      destruct (isdir item); [apply length_map | reflexivity].
    + intros f. rewrite in_flat_map. split.
      * intros (item & Hitem & Hf). exists item. split; [exact Hitem|].
        unfold sagemaker_modeling.expand in Hf. destruct (isdir item).
        -- right. split; [reflexivity|]. apply in_map_iff in Hf as (file & <- & Hfile). eauto.
        -- left. destruct Hf as [<-|[]]. auto.
      * intros (item & Hitem & [[Hd ->]|[Hd (file & Hfile & ->)]]); exists item;
          (split; [exact Hitem|]); unfold sagemaker_modeling.expand; rewrite Hd.
        -- left; reflexivity.
        -- apply in_map_iff. eauto.
    + induction entries as [|item l IH]; simpl.
      * split; [intros _ item [] | reflexivity].
      * split.
        -- intros H. apply app_eq_nil in H as [H1 H2].
           intros item' [<-|Hin]; [|apply IH; assumption].
           unfold sagemaker_modeling.expand in H1. destruct (isdir item); [|discriminate].
           split; [reflexivity|]. destruct (listdir item); [reflexivity | discriminate].
        -- intros H. destruct (H item (or_introl eq_refl)) as [Hd Hl].
           unfold sagemaker_modeling.expand at 1. rewrite Hd, Hl. simpl.
           apply IH. intros item' Hin. apply H. right; exact Hin.
Qed.

(** X15.  On a channel without directories the training script and the
    preprocessing script read the same files in the same order. *)
Theorem flat_channel (listdir : string -> list string) (isdir : string -> bool) (train : string) :
  (forall name, In name (listdir train) -> isdir (posixpath.join train name) = false) ->
  sagemaker_modeling.input_files listdir isdir train = preprocessing_input_files listdir train.
Proof.
  intros H. unfold sagemaker_modeling.input_files, preprocessing_input_files.
  destruct (Nat.eqb _ 0); [reflexivity|]. f_equal.
  induction (listdir train) as [|name l IH]; simpl; [reflexivity|].
  unfold sagemaker_modeling.expand at 1. rewrite (H name (or_introl eq_refl)). simpl.
  f_equal. apply IH. intros n Hn. apply H. right; exact Hn.
Qed.

Lemma flat_channel_witness :
  sagemaker_modeling.input_files sample_listdir sample_isdir "/opt/ml/input/data/flat"
  = Ok ["/opt/ml/input/data/flat/train.csv"; "/opt/ml/input/data/flat/more.csv"] /\
  preprocessing_input_files sample_listdir "/opt/ml/input/data/flat"
  = Ok ["/opt/ml/input/data/flat/train.csv"; "/opt/ml/input/data/flat/more.csv"].
Proof.
  split; [|reflexivity].
  rewrite (flat_channel sample_listdir sample_isdir "/opt/ml/input/data/flat"); [reflexivity|].
  intros name [<-|[<-|[]]]; reflexivity.
Defined.

Example nested_channel :
  sagemaker_modeling.input_files sample_listdir sample_isdir "/opt/ml/input/data/train"
  = Ok ["/opt/ml/input/data/train/train.csv";
        "/opt/ml/input/data/train/parts/a.csv"; "/opt/ml/input/data/train/parts/b.csv"] /\
  preprocessing_input_files sample_listdir "/opt/ml/input/data/train"
  = Ok ["/opt/ml/input/data/train/train.csv"; "/opt/ml/input/data/train/parts"].
Proof. split; reflexivity. Qed.

(** ** Requests as text *)




